(** * Sales aggregation pipeline of [src/DataChart.jsx]

    A shallow embedding of the pure derivations of the [DataChart] component
    (the [useMemo] bodies [suppliers]/[items]/[yearRange], [filteredOptions],
    [isValidDateRange] and [chartData]) together with the JavaScript built-ins
    they call, and the properties of the pipeline proved about them.

    Conventions of the embedding.
    - A CSV cell is a JavaScript string or [undefined] (Papa.parse in header
      mode never produces anything else): [option string], [None] being
      [undefined].  Strings are sequences of code units below 256, so that
      [String.compare] is the code-unit order used by [Array.prototype.sort]
      and [length] is [String.prototype.length].
    - Numbers are IEEE 754 binary64 numbers, [spec_float] at precision 53
      and maximal exponent 1024 with the operations of [SpecFloat]: the
      results of [parseInt], the linear month keys [year * 12 + month], the
      locals [minYear] and [maxYear], the bounds of [yearRange] and the three
      measures.
    - The fields of a date cursor are integers ([Z]), as every cursor that
      the selects can store is; where the code computes with a cursor its
      fields are the Numbers [ofZ year] and [ofZ month].  The loop of
      [generateDateOptions] is given on integer bounds, and next to it
      [yearLoop] runs it on Numbers with the code's [y++]: the two agree for
      bounds of magnitude below 2^53.
    - [String.prototype.localeCompare] depends on the host's collation; it is
      a variable of the section that embeds [chartData].

    The rest of the component is embedded after the pipeline: the options of
    the date selects ([generateDateOptions], [formatDateOption], the option
    values and the handler that reads them back with [split] and [Number]),
    the state of [DataChart] with its handlers and what it renders, and the
    handlers of [App] over the state of the form and the [users] collection
    of the document store, each awaited call being given with the way it
    settles. *)

From Stdlib Require Import ZArith Lia Bool List Ascii String.
From Stdlib Require Import Sorted Permutation.
From Stdlib Require Import SpecFloat.
From Stdlib Require Import DecimalString DecimalPos DecimalZ.
Import ListNotations.

Local Open Scope string_scope.
Local Open Scope Z_scope.

(** ** JavaScript strings and [ToString] *)

Definition code (c : ascii) : Z := Z.of_N (N_of_ascii c).

(** [ToString] of a CSV cell: [undefined] prints as the word. *)
Definition ToString (v : option string) : string :=
  match v with
  | Some s => s
  | None => "undefined"
  end.

(** Truthiness of a CSV cell: [undefined] and the empty string are falsy. *)
Definition truthy (v : option string) : bool :=
  match v with
  | Some s => negb (s =? "")%string
  | None => false
  end.

(** [WhiteSpace] and [LineTerminator] code units below 256. *)
Definition isWhiteSpace (c : ascii) : bool :=
  let n := code c in
  ((9 <=? n) && (n <=? 13)) || (n =? 32) || (n =? 160).

Fixpoint trimStart (s : string) : string :=
  match s with
  | String c s' => if isWhiteSpace c then trimStart s' else s
  | EmptyString => EmptyString
  end.

(** ** [parseInt] with the radix left undefined *)

Definition digitValue (c : ascii) : option Z :=
  let n := code c in
  if (48 <=? n) && (n <=? 57) then Some (n - 48)
  else if (97 <=? n) && (n <=? 122) then Some (n - 87)
  else if (65 <=? n) && (n <=? 90) then Some (n - 55)
  else None.

Definition radixDigit (R : Z) (c : ascii) : option Z :=
  match digitValue c with
  | Some d => if d <? R then Some d else None
  | None => None
  end.

(** Value of the longest prefix of radix-[R] digits; [acc] is [None] until a
    digit has been read. *)
Fixpoint digitsPrefix (R : Z) (s : string) (acc : option Z) : option Z :=
  match s with
  | String c s' =>
      match radixDigit R c with
      | Some d =>
          digitsPrefix R s'
            (Some (match acc with Some a => a * R + d | None => d end))
      | None => acc
      end
  | EmptyString => acc
  end.

Definition stripSign (s : string) : Z * string :=
  match s with
  | String "-" s' => (-1, s')
  | String "+" s' => (1, s')
  | _ => (1, s)
  end.

Definition stripHexPrefix (s : string) : Z * string :=
  match s with
  | String "0" (String "x" s') => (16, s')
  | String "0" (String "X" s') => (16, s')
  | _ => (10, s)
  end.

(** The integer that [parseInt(v)] reads, with its sign, before it is turned
    into a Number; [None] when there is no digit to read. *)
Definition mathInt (v : option string) : option Z :=
  let '(sign, s1) := stripSign (trimStart (ToString v)) in
  let '(R, s2) := stripHexPrefix s1 in
  match digitsPrefix R s2 None with
  | Some n => Some (sign * n)
  | None => None
  end.

(** ** Other string built-ins *)

(** [String.prototype.toLowerCase] on code units below 256: the letters A-Z
    and the capital letters of the Latin-1 supplement (all of 192-222 but the
    multiplication sign 215) move up by 32. *)
Definition lowerChar (c : ascii) : ascii :=
  let n := code c in
  if ((65 <=? n) && (n <=? 90)) || ((192 <=? n) && (n <=? 222) && negb (n =? 215))
  then ascii_of_N (Z.to_N (n + 32))
  else c.

Fixpoint toLowerCase (s : string) : string :=
  match s with
  | String c s' => String (lowerChar c) (toLowerCase s')
  | EmptyString => EmptyString
  end.

(** [s.includes(t)]: [t] occurs in [s] at some position. *)
Fixpoint includes (s t : string) : bool :=
  prefix t s ||
  match s with
  | String _ s' => includes s' t
  | EmptyString => false
  end.

(** The filler of [padStart]: the first [k] characters of the fill string
    repeated; [rest] is what remains of the current copy. *)
Fixpoint cycle (fill rest : string) (k : nat) : string :=
  match k with
  | O => ""
  | S k' =>
      match rest with
      | String c r => String c (cycle fill r k')
      | EmptyString =>
          match fill with
          | String c r => String c (cycle fill r k')
          | EmptyString => ""
          end
      end
  end.

(** [s.padStart(targetLength, fill)]. *)
Definition padStart (targetLength : nat) (fill s : string) : string :=
  if (targetLength <=? String.length s)%nat then s
  else cycle fill fill (targetLength - String.length s) ++ s.

(** ** Arrays, sets and plain objects *)

(** [Array.prototype.sort]: a stable sort by the sign of the comparator.  For
    a consistent comparator every stable sort returns the same array; this
    one inserts from the right. *)
Fixpoint insertSorted {A : Type} (cmp : A -> A -> Z) (x : A) (l : list A) : list A :=
  match l with
  | [] => [x]
  | y :: l' => if cmp x y <=? 0 then x :: l else y :: insertSorted cmp x l'
  end.

Fixpoint sort {A : Type} (cmp : A -> A -> Z) (l : list A) : list A :=
  match l with
  | [] => []
  | x :: l' => insertSorted cmp x (sort cmp l')
  end.

(** The comparator of [sort()] without an argument, on strings: the order of
    the code units. *)
Definition defaultCompare (x y : string) : Z :=
  match String.compare x y with
  | Lt => -1
  | Eq => 0
  | Gt => 1
  end.

(** A [Set] of strings lists its members in insertion order. *)
Definition Set_has (x : string) (s : list string) : bool :=
  existsb (String.eqb x) s.

Definition Set_add (x : string) (s : list string) : list string :=
  if Set_has x s then s else s ++ [x].

(** A plain object whose keys are not array indices lists its own properties
    in insertion order. *)
Fixpoint get {V : Type} (key : string) (o : list (string * V)) : option V :=
  match o with
  | [] => None
  | (k, v) :: o' => if (k =? key)%string then Some v else get key o'
  end.

(** Sets the property [key], appending it when it is new. *)
Fixpoint set {V : Type} (key : string) (v : V) (o : list (string * V)) : list (string * V) :=
  match o with
  | [] => [(key, v)]
  | (k, w) :: o' => if (k =? key)%string then (k, v) :: o' else (k, w) :: set key v o'
  end.

Definition Object_values {V : Type} (o : list (string * V)) : list V :=
  map snd o.

(** ** Numbers: IEEE 754 binary64 *)

Definition Number := spec_float.

Definition add : Number -> Number -> Number := SFadd 53 1024.
Definition mul : Number -> Number -> Number := SFmul 53 1024.
Definition div : Number -> Number -> Number := SFdiv 53 1024.

(** The Number nearest to [m * 2^e]. *)
Definition dyadic (m e : Z) : Number := binary_normalize 53 1024 m e false.

(** The Number of an integer. *)
Definition ofZ (n : Z) : Number := dyadic n 0.

Definition zero : Number := S754_zero false.

Definition Infinity : Number := S754_infinity false.

(** [x <= y], [x >= y] and [x === y] on Numbers: false as soon as one side
    is [NaN]; the two zeros are equal. *)
Definition Number_le (x y : Number) : bool := SFleb x y.
Definition Number_ge (x y : Number) : bool := SFleb y x.
Definition strictEquals (x y : Number) : bool := SFeqb x y.

Definition isNaN (x : Number) : bool :=
  match x with
  | S754_nan => true
  | _ => false
  end.

(** [Math.min] and [Math.max] of two Numbers: [NaN] if either is, and [-0]
    below [+0]. *)
Definition Math_min (x y : Number) : Number :=
  match SFcompare x y with
  | Some Lt => x
  | Some Gt => y
  | Some Eq => match x with S754_zero true => x | _ => y end
  | None => S754_nan
  end.

Definition Math_max (x y : Number) : Number :=
  match SFcompare x y with
  | Some Lt => y
  | Some Gt => x
  | Some Eq => match x with S754_zero false => x | _ => y end
  | None => S754_nan
  end.

(** [parseInt(v)]: the Number nearest to the integer read, [-0] for a zero
    after a minus sign, [NaN] when there is no digit to read.  (Past twenty
    significant decimal digits ECMA-262 lets an implementation read the
    further digits as zeros; the digits are all read here, as V8 does.) *)
Definition parseInt (v : option string) : Number :=
  let '(sign, s1) := stripSign (trimStart (ToString v)) in
  let '(R, s2) := stripHexPrefix s1 in
  match digitsPrefix R s2 None with
  | Some n => binary_normalize 53 1024 (sign * n) 0 (sign <? 0)
  | None => S754_nan
  end.

(** The Number nearest to [(-1)^sign * m * 10^e], ties to even. *)
Definition ofDecimal (sign : bool) (m : Z) (e : Z) : Number :=
  match m with
  | Zpos p =>
      if 0 <=? e then
        binary_round 53 1024 sign (p * Z.to_pos (10 ^ e))%positive 0
      else
        let '(mz, ez, lz) :=
          SFdiv_core_binary 53 1024 (Zpos p) 0 (10 ^ (- e)) 0 in
        binary_round_aux 53 1024 sign mz ez lz
  | _ => S754_zero sign
  end.

(** [x || 0] on a Number: [NaN] and both zeros are falsy. *)
Definition orZero (x : Number) : Number :=
  match x with
  | S754_nan | S754_zero _ => zero
  | _ => x
  end.

(** [Math.round]: the nearest integer, a tie going towards +Infinity; values
    in [-0.5, -0] round to -0. *)
Definition Math_round (x : Number) : Number :=
  match x with
  | S754_finite s m e =>
      if 0 <=? e then x
      else
        let v := if s then Zneg m else Zpos m in
        let d := 2 ^ (- e) in
        let n := (2 * v + d) / (2 * d) in
        if n =? 0 then S754_zero s else ofZ n
  | _ => x
  end.

(** ** [parseFloat] *)

Definition decimalDigit (c : ascii) : option Z :=
  let n := code c in
  if (48 <=? n) && (n <=? 57) then Some (n - 48) else None.

(** Reads the longest prefix of decimal digits of [s] onto the integer [acc];
    returns the integer, the number of digits read and the rest. *)
Fixpoint readDigits (s : string) (acc : Z) (count : Z) : Z * Z * string :=
  match s with
  | String c s' =>
      match decimalDigit c with
      | Some d => readDigits s' (acc * 10 + d) (count + 1)
      | None => (acc, count, s)
      end
  | EmptyString => (acc, count, s)
  end.

(** The value of an [ExponentPart] at the head of [s], 0 when there is none. *)
Definition readExponent (s : string) : Z :=
  match s with
  | String c s' =>
      if (code c =? 101) || (code c =? 69) then
        let '(sign, s'') := stripSign s' in
        let '(v, count, _) := readDigits s'' 0 0 in
        if count =? 0 then 0 else sign * v
      else 0
  | EmptyString => 0
  end.

(** [parseFloat(v)]: the Number of the longest prefix of the trimmed string
    that is a [StrDecimalLiteral], [NaN] when there is none. *)
Definition parseFloat (v : option string) : Number :=
  let s0 := trimStart (ToString v) in
  let '(sgn, s1) := stripSign s0 in
  let neg := sgn <? 0 in
  if prefix "Infinity" s1 then S754_infinity neg
  else
    let '(ip, ic, s2) := readDigits s1 0 0 in
    match s2 with
    | String "." s3 =>
        let '(m, fc, s4) := readDigits s3 ip 0 in
        if (ic =? 0) && (fc =? 0) then S754_nan
        else ofDecimal neg m (readExponent s4 - fc)
    | _ =>
        if ic =? 0 then S754_nan
        else ofDecimal neg ip (readExponent s2)
    end.

(** ** The data of the component *)

(** One row of the parsed CSV, by header. *)
Record Row := {
  SUPPLIER : option string;
  ITEM_DESCRIPTION : option string;
  YEAR : option string;
  MONTH : option string;
  RETAIL_SALES : option string;
  WAREHOUSE_SALES : option string;
  RETAIL_TRANSFERS : option string
}.

(** The state [filterType]: ['supplier'] or ['item']. *)
Inductive FilterType := supplier | item.

(** The states [startDate] and [endDate]. *)
Module Date.
Record t := { year : Z; month : Z }.
End Date.

(** The value of [yearRange], two Numbers. *)
Module Bounds.
Record t := { min : Number; max : Number }.
End Bounds.

(** A year range whose two bounds are integers, as [generateDateOptions]
    walks it. *)
Module YearRange.
Record t := { min : Z; max : Z }.
End YearRange.

(** One point of the chart. *)
Record MonthlyAggregate := {
  month : string;
  retailSales : Number;
  warehouseSales : Number;
  retailTransfers : Number
}.

(** ** [suppliers], [items] and [yearRange] *)

Record FilterDomain := {
  suppliers : list string;
  items : list string;
  yearRange : Bounds.t
}.

(** The locals of the scan: the two sets, [minYear] and [maxYear]. *)
Record Scan := {
  supplierSet : list string;
  itemSet : list string;
  minYear : Number;
  maxYear : Number
}.

(** [if (cell) set.add(cell)]. *)
Definition addTruthy (cell : option string) (s : list string) : list string :=
  if truthy cell then Set_add (ToString cell) s else s.

(** The body of [rawData.forEach] in the first memo. *)
Definition scanRow (st : Scan) (row : Row) : Scan :=
  let supplierSet := addTruthy (SUPPLIER row) (supplierSet st) in
  let itemSet := addTruthy (ITEM_DESCRIPTION row) (itemSet st) in
  let year := parseInt (YEAR row) in
  if negb (isNaN year) then
    {| supplierSet := supplierSet; itemSet := itemSet;
       minYear := Math_min (minYear st) year;
       maxYear := Math_max (maxYear st) year |}
  else
    {| supplierSet := supplierSet; itemSet := itemSet;
       minYear := minYear st; maxYear := maxYear st |}.

(** The first memo, from [rawData] to [suppliers], [items] and [yearRange]:
    the derivation of the filter domain. *)
Definition deriveFilterDomain (rawData : list Row) : FilterDomain :=
  if (List.length rawData =? 0)%nat then
    {| suppliers := []; items := [];
       yearRange := {| Bounds.min := ofZ 2020; Bounds.max := ofZ 2024 |} |}
  else
    let st :=
      fold_left scanRow rawData
        {| supplierSet := []; itemSet := [];
           minYear := Infinity; maxYear := SFopp Infinity |} in
    {| suppliers := sort defaultCompare (supplierSet st);
       items := sort defaultCompare (itemSet st);
       yearRange :=
         {| Bounds.min :=
              if strictEquals (minYear st) Infinity then ofZ 2020 else minYear st;
            Bounds.max :=
              if strictEquals (maxYear st) (SFopp Infinity) then ofZ 2024
              else maxYear st |} |}.

(** ** [filteredOptions] *)

Definition filteredOptions (filterType : FilterType) (suppliers items : list string)
    (searchTerm : string) : list string :=
  let options := match filterType with supplier => suppliers | item => items end in
  if (searchTerm =? "")%string then firstn 100 options
  else
    firstn 100
      (filter (fun opt => includes (toLowerCase opt) (toLowerCase searchTerm)) options).

(** ** [isValidDateRange] *)

Definition isValidDateRange (startDate endDate : Date.t) : bool :=
  let start :=
    add (mul (ofZ (Date.year startDate)) (ofZ 12)) (ofZ (Date.month startDate)) in
  let end_ :=
    add (mul (ofZ (Date.year endDate)) (ofZ 12)) (ofZ (Date.month endDate)) in
  Number_ge end_ start.

(** ** [chartData] *)

Definition filterField (filterType : FilterType) (row : Row) : option string :=
  match filterType with
  | supplier => SUPPLIER row
  | item => ITEM_DESCRIPTION row
  end.

(** [row[filterField] !== selectedValue] is false. *)
Definition selected (filterType : FilterType) (selectedValue : string) (row : Row) : bool :=
  match filterField filterType row with
  | Some s => (s =? selectedValue)%string
  | None => false
  end.

(** [rowDate]: [NaN] as soon as the year or the month is. *)
Definition rowDate (row : Row) : Number :=
  let year := parseInt (YEAR row) in
  let month := parseInt (MONTH row) in
  add (mul year (ofZ 12)) month.

(** The callback of [rawData.filter]; a comparison with [NaN] is false. *)
Definition keepRow (filterType : FilterType) (selectedValue : string)
    (startDate endDate : Date.t) (row : Row) : bool :=
  if negb (selected filterType selectedValue row) then false
  else
    let rowDate := rowDate row in
    let start :=
      add (mul (ofZ (Date.year startDate)) (ofZ 12)) (ofZ (Date.month startDate)) in
    let end_ :=
      add (mul (ofZ (Date.year endDate)) (ofZ 12)) (ofZ (Date.month endDate)) in
    Number_ge rowDate start && Number_le rowDate end_.

Definition filtered (rawData : list Row) (selectedValue : string) (filterType : FilterType)
    (startDate endDate : Date.t) : list Row :=
  filter (keepRow filterType selectedValue startDate endDate) rawData.

(** The key of a row in [monthlyData]. *)
Definition rowKey (row : Row) : string :=
  ToString (YEAR row) ++ "-" ++ padStart 2 "0" (ToString (MONTH row)).

(** The contribution of a cell to a sum: [parseFloat(cell) || 0]. *)
Definition contribution (cell : option string) : Number :=
  orZero (parseFloat cell).

(** The three [+=] of the loop on the aggregate of the row's month. *)
Definition addRow (row : Row) (d : MonthlyAggregate) : MonthlyAggregate :=
  {| month := month d;
     retailSales := add (retailSales d) (contribution (RETAIL_SALES row));
     warehouseSales := add (warehouseSales d) (contribution (WAREHOUSE_SALES row));
     retailTransfers := add (retailTransfers d) (contribution (RETAIL_TRANSFERS row)) |}.

Definition emptyAggregate (key : string) : MonthlyAggregate :=
  {| month := key; retailSales := zero; warehouseSales := zero; retailTransfers := zero |}.

(** The body of [filtered.forEach].  No key is a property that [{}] inherits
    (every key has a hyphen), so [monthlyData[key]] is falsy exactly when the
    key has not been set. *)
Definition groupRow (monthlyData : list (string * MonthlyAggregate)) (row : Row)
    : list (string * MonthlyAggregate) :=
  let key := rowKey row in
  match get key monthlyData with
  | Some d => set key (addRow row d) monthlyData
  | None => set key (addRow row (emptyAggregate key)) monthlyData
  end.

(** [Math.round(x * 100) / 100]. *)
Definition round2 (x : Number) : Number :=
  div (Math_round (mul x (ofZ 100))) (ofZ 100).

Definition roundAggregate (d : MonthlyAggregate) : MonthlyAggregate :=
  {| month := month d;
     retailSales := round2 (retailSales d);
     warehouseSales := round2 (warehouseSales d);
     retailTransfers := round2 (retailTransfers d) |}.

(** [monthlyData] once [filtered.forEach] has run. *)
Definition monthlyData (rawData : list Row) (selectedValue : string) (filterType : FilterType)
    (startDate endDate : Date.t) : list (string * MonthlyAggregate) :=
  fold_left groupRow (filtered rawData selectedValue filterType startDate endDate) [].

Section Collation.

(** [a.localeCompare(b)] of the host. *)
Variable localeCompare : string -> string -> Z.

Definition byMonth (a b : MonthlyAggregate) : Z :=
  localeCompare (month a) (month b).

Definition chartData (rawData : list Row) (selectedValue : string)
    (filterType : FilterType) (startDate endDate : Date.t) : list MonthlyAggregate :=
  if (selectedValue =? "")%string || (List.length rawData =? 0)%nat
     || negb (isValidDateRange startDate endDate)
  then []
  else
    map roundAggregate
      (sort byMonth
         (Object_values (monthlyData rawData selectedValue filterType startDate endDate))).

End Collation.

(** ** Notions used to state the properties *)

(** The years that parse, as the integers read, in the order of the rows. *)
Definition parsedYears (rawData : list Row) : list Z :=
  flat_map (fun row => match mathInt (YEAR row) with Some y => [y] | None => [] end)
    rawData.

(** An integer that Numbers hold exactly, with its neighbours: its magnitude
    is below 2^53. *)
Definition safeInteger (n : Z) : Prop := - 2 ^ 53 < n < 2 ^ 53.

(** The Number [x] is the integer [n], of magnitude below 2^53; zero is two
    Numbers. *)
Definition represents (x : Number) (n : Z) : Prop :=
  safeInteger n /\ (x = ofZ n \/ (n = 0 /\ x = S754_zero true)).

(** A year and a month whose linear key the code computes without rounding:
    the year, the month, the product [year * 12] and the key
    [year * 12 + month] are below 2^53 in magnitude. *)
Definition exactKey (year month : Z) : Prop :=
  safeInteger year /\ safeInteger month /\ safeInteger (year * 12)
  /\ safeInteger (year * 12 + month).

Definition safeCursor (d : Date.t) : Prop :=
  exactKey (Date.year d) (Date.month d).

(** A row whose year and month, when both parse, have such a key. *)
Definition safeRow (row : Row) : Prop :=
  match mathInt (YEAR row), mathInt (MONTH row) with
  | Some year, Some month => exactKey year month
  | _, _ => True
  end.

(** The linear key of a row as an integer, when its year and month parse. *)
Definition linearKey (row : Row) : option Z :=
  match mathInt (YEAR row), mathInt (MONTH row) with
  | Some year, Some month => Some (year * 12 + month)
  | _, _ => None
  end.

(** The sum of [f] over an array, as [reduce((sum, x) => sum + f(x), 0)]
    computes it. *)
Definition sumOf {A : Type} (f : A -> Number) (l : list A) : Number :=
  fold_left (fun sum x => add sum (f x)) l zero.

(** The rows of an array that carry the key [key]. *)
Definition withKey (key : string) (rows : list Row) : list Row :=
  filter (fun row => (rowKey row =? key)%string) rows.

(** [t] occurs in [s]. *)
Definition occursIn (t s : string) : Prop :=
  exists before after : string, s = before ++ t ++ after.

(** The aggregate of a month after the rows [rows] have been added to [d]. *)
Definition accumulate (rows : list Row) (d : MonthlyAggregate) : MonthlyAggregate :=
  fold_left (fun d row => addRow row d) rows d.

(** The aggregate under a key of [monthlyData], the empty one when the key is
    not set. *)
Definition orEmpty (key : string) (d : option MonthlyAggregate) : MonthlyAggregate :=
  match d with
  | Some d => d
  | None => emptyAggregate key
  end.

(** A decimal digit. *)
Definition isDigit (c : ascii) : bool := (48 <=? code c) && (code c <=? 57).

(** A year cell of exactly four decimal digits. *)
Definition fourDigitYear (cell : option string) : bool :=
  match cell with
  | Some (String a (String b (String c (String d "")))) =>
      isDigit a && isDigit b && isDigit c && isDigit d
  | _ => false
  end.

(** The ways to write a month of the calendar, 1 to 12, in one or two digits. *)
Definition calendarMonths : list string :=
  ["1"; "2"; "3"; "4"; "5"; "6"; "7"; "8"; "9"; "01"; "02"; "03"; "04"; "05"; "06";
   "07"; "08"; "09"; "10"; "11"; "12"].

Definition calendarMonth (cell : option string) : bool :=
  match cell with
  | Some s => existsb (String.eqb s) calendarMonths
  | None => false
  end.

(** A row dated as the dataset dates its rows: a four-digit year and a month
    of the calendar. *)
Definition calendarRow (row : Row) : bool :=
  fourDigitYear (YEAR row) && calendarMonth (MONTH row).

(** The set gathered by the scan from the cells [cell] of the rows. *)
Definition collect (cell : Row -> option string) (rows : list Row) (s : list string)
    : list string :=
  fold_left (fun s row => addTruthy (cell row) s) rows s.

(** The code-unit order, strict. *)
Definition codeUnitLt (a b : string) : Prop := String.compare a b = Lt.

(** The integer [n] is the one nearest to the finite Number [x] of sign [s],
    mantissa [m] and exponent [e], the greater of the two when [x] lies
    halfway between them: [n - 1/2 <= x < n + 1/2]. *)
Definition nearestHalfUp (s : bool) (m : positive) (e : Z) (n : Z) : Prop :=
  let v := if s then Zneg m else Zpos m in
  (2 * n - 1) * 2 ^ Z.max 0 (- e) <= 2 * v * 2 ^ Z.max 0 e
  < (2 * n + 1) * 2 ^ Z.max 0 (- e).

(** A mantissa with nothing shifted out of it. *)
Definition exactRecord (m : Z) : shr_record :=
  {| shr_m := m; shr_r := false; shr_s := false |}.

(** The Number of a positive integer below 2^53, with its sign: the integer
    is shifted to 53 bits. *)
Definition canon (s : bool) (p : positive) : Number :=
  S754_finite s (Z.to_pos (Zpos p * 2 ^ (52 - Z.log2 (Zpos p))))
    (Z.log2 (Zpos p) - 52).

(** The order of the Numbers other than [NaN], read off their class, exponent
    and mantissa. *)
Definition rank (x : Number) : option (Z * Z * Z) :=
  match x with
  | S754_nan => None
  | S754_infinity true => Some (-2, 0, 0)
  | S754_finite true m e => Some (-1, - e, - Zpos m)
  | S754_zero _ => Some (0, 0, 0)
  | S754_finite false m e => Some (1, e, Zpos m)
  | S754_infinity false => Some (2, 0, 0)
  end.

Definition lexle (a b : Z * Z * Z) : Prop :=
  let '(a1, a2, a3) := a in
  let '(b1, b2, b3) := b in
  a1 < b1 \/ (a1 = b1 /\ (a2 < b2 \/ (a2 = b2 /\ a3 <= b3))).

(** ** Records and cursors of the examples *)

(** A row with a supplier and no item description.  The year and the month
    are given as the text of their CSV cell. *)
Definition sale (supplier year month retail warehouse transfers : string) : Row :=
  {| SUPPLIER := Some supplier;
     ITEM_DESCRIPTION := None;
     YEAR := Some year;
     MONTH := Some month;
     RETAIL_SALES := Some retail;
     WAREHOUSE_SALES := Some warehouse;
     RETAIL_TRANSFERS := Some transfers |}.

Definition cursor (year month : Z) : Date.t :=
  {| Date.year := year; Date.month := month |}.

Definition acmeJanuary : list Row :=
  [sale "Acme" "2019" "1" "10" "5" "0"; sale "Acme" "2019" "1" "2.5" "0" "1"].

(** A sale below half a cent. *)
Definition belowHalfCent : list Row :=
  [sale "Acme" "2019" "1" "0.004" "0" "0"].

(** A thirteenth month of 2019 next to January 2020. *)
Definition thirteenthMonth : list Row :=
  [sale "Acme" "2019" "13" "1" "0" "0"; sale "Acme" "2020" "1" "2" "0" "0"].

(** A year past 2^53 / 12: the keys of its March and of its April are both
    rounded to 2^53 + 8. *)
Definition farYear : Z := 750599937895083.

Definition farMarch : list Row :=
  [sale "Acme" "750599937895083" "3" "1" "0" "0"].

(** A thirteenth month whose key is rounded away from the key of the next
    January. *)
Definition farThirteenth : Row := sale "Acme" "3002399751580333" "13" "1" "0" "0".
Definition farJanuary : Row := sale "Acme" "3002399751580334" "1" "2" "0" "0".

(** A year of 310 digits. *)
Definition hugeYear : list Row :=
  [sale "Acme" (padStart 310 "9" "") "1" "1" "0" "0"].

(** Two sales that cancel in January around a sale in February. *)
Definition cancelling : list Row :=
  [sale "Acme" "2019" "1" "1e20" "0" "0"; sale "Acme" "2019" "2" "1" "0" "0";
   sale "Acme" "2019" "1" "-1e20" "0" "0"].

(** November and February of 2019, in that order. *)
Definition twoMonths : list Row :=
  [sale "Acme" "2019" "11" "1" "0" "0"; sale "Acme" "2019" "2" "2" "0" "0"].

(** ** The date selects: [generateDateOptions], [formatDateOption], option values *)

(** The values of [i] in [for (let i = from; i <= to; i++)]: the loop runs
    [to - from + 1] times, not at all when [to < from]. *)
Fixpoint countUp (n : nat) (i : Z) : list Z :=
  match n with
  | O => []
  | S n' => i :: countUp n' (i + 1)
  end.

Definition forRange (from to : Z) : list Z :=
  countUp (Z.to_nat (to - from + 1)) from.

(** The two nested loops on integer bounds, each turn of the inner one
    pushing a cursor. *)
Definition generateDateOptions (yearRange : YearRange.t) : list Date.t :=
  flat_map
    (fun y => map (fun m => {| Date.year := y; Date.month := m |}) (forRange 1 12))
    (forRange (YearRange.min yearRange) (YearRange.max yearRange)).



Definition monthNames : list string :=
  ["Jan"; "Feb"; "Mar"; "Apr"; "May"; "Jun"; "Jul"; "Aug"; "Sep"; "Oct"; "Nov"; "Dec"].

(** [array[i]] for an integer [i]: [undefined] outside the array. *)
Definition at_ {A : Type} (array : list A) (i : Z) : option A :=
  if i <? 0 then None else nth_error array (Z.to_nat i).

(** [ToString] of an integer Number: the decimal digits, after a minus sign
    for a negative one (integers below 10^21 print without an exponent). *)
Definition Number_toString (n : Z) : string :=
  NilZero.string_of_int (Z.to_int n).

Definition formatDateOption (opt : Date.t) : string :=
  ToString (at_ monthNames (Date.month opt - 1)) ++ " " ++ Number_toString (Date.year opt).

(** The [value] of the option of a cursor, [`${opt.year}-${opt.month}`]. *)
Definition optionValue (opt : Date.t) : string :=
  Number_toString (Date.year opt) ++ "-" ++ Number_toString (Date.month opt).

(** [s.split(sep)] for a separator of one character. *)
Fixpoint split (sep : ascii) (s : string) : list string :=
  match s with
  | EmptyString => [""]
  | String c s' =>
      if Ascii.eqb c sep then "" :: split sep s'
      else
        match split sep s' with
        | piece :: pieces => String c piece :: pieces
        | [] => [String c ""]
        end
  end.

Fixpoint trimEnd (s : string) : string :=
  match s with
  | EmptyString => EmptyString
  | String c s' =>
      match trimEnd s' with
      | EmptyString => if isWhiteSpace c then EmptyString else String c EmptyString
      | t => String c t
      end
  end.

(** The value of a string made only of radix-[R] digits, at least one. *)
Fixpoint allDigits (R : Z) (s : string) (acc : option Z) : option Z :=
  match s with
  | String c s' =>
      match radixDigit R c with
      | Some d => allDigits R s' (Some (match acc with Some a => a * R + d | None => d end))
      | None => None
      end
  | EmptyString => acc
  end.

(** The value of an [ExponentPart] at the head of [s] and what follows it;
    0 and [s] itself when there is none. *)
Definition readExponentPart (s : string) : Z * string :=
  match s with
  | String c s' =>
      if (code c =? 101) || (code c =? 69) then
        let '(sign, s'') := stripSign s' in
        let '(v, count, rest) := readDigits s'' 0 0 in
        if count =? 0 then (0, s) else (sign * v, rest)
      else (0, s)
  | EmptyString => (0, s)
  end.

(** The longest [StrDecimalLiteral] at the head of [s] (which has no leading
    white space): its Number and what follows it. *)
Definition readDecimalLiteral (s : string) : option (Number * string) :=
  let '(sgn, s1) := stripSign s in
  let neg := sgn <? 0 in
  if prefix "Infinity" s1 then Some (S754_infinity neg, substring 8 (String.length s1) s1)
  else
    let '(ip, ic, s2) := readDigits s1 0 0 in
    match s2 with
    | String "." s3 =>
        let '(m, fc, s4) := readDigits s3 ip 0 in
        if (ic =? 0) && (fc =? 0) then None
        else
          let '(e, rest) := readExponentPart s4 in
          Some (ofDecimal neg m (e - fc), rest)
    | _ =>
        if ic =? 0 then None
        else
          let '(e, rest) := readExponentPart s2 in
          Some (ofDecimal neg ip e, rest)
    end.

(** The Number of a literal [0x...], [0o...] or [0b...] without its prefix. *)
Definition ofRadixDigits (R : Z) (digits : string) : Number :=
  match allDigits R digits None with
  | Some n => ofZ n
  | None => S754_nan
  end.

(** [Number(s)] on a string: white space is trimmed at both ends, the empty
    string is 0, and the rest must be one numeric literal, else [NaN]. *)
Definition ToNumber (s : string) : Number :=
  match trimEnd (trimStart s) with
  | EmptyString => zero
  | String c0 (String c1 digits) as t =>
      if (code c0 =? 48) && ((code c1 =? 120) || (code c1 =? 88)) then ofRadixDigits 16 digits
      else if (code c0 =? 48) && ((code c1 =? 111) || (code c1 =? 79)) then ofRadixDigits 8 digits
      else if (code c0 =? 48) && ((code c1 =? 98) || (code c1 =? 66)) then ofRadixDigits 2 digits
      else
        match readDecimalLiteral t with
        | Some (x, EmptyString) => x
        | _ => S754_nan
        end
  | t =>
      match readDecimalLiteral t with
      | Some (x, EmptyString) => x
      | _ => S754_nan
      end
  end.

(** What the [onChange] of a date select stores: [const [y, m] =
    value.split('-').map(Number)], a missing element being [undefined]. *)
Definition readOptionValue (value : string) : option Number * option Number :=
  let numbers := map ToNumber (split "-" value) in
  (nth_error numbers 0, nth_error numbers 1).

(** ** The state of [DataChart], its handlers and what it renders *)

Module DataChart.
Record state := {
  rawData : list Row;
  loading : bool;
  error : option string;
  filterType : FilterType;
  selectedValue : string;
  startDate : Date.t;
  endDate : Date.t;
  searchTerm : string
}.
End DataChart.


(** What can happen to the component: the two callbacks of the CSV load, the
    two toggle buttons, the search box, the value select and the two date
    selects (with the cursor their handler stores). *)
Inductive Event :=
| complete (data : list Row)
| loadError
| clickSupplier
| clickItem
| changeSearch (value : string)
| changeSelect (value : string)
| changeStart (cursor : Date.t)
| changeEnd (cursor : Date.t).

Definition handle (st : DataChart.state) (ev : Event) : DataChart.state :=
  match ev with
  | complete data =>
      {| DataChart.rawData := data; DataChart.loading := false;
         DataChart.error := DataChart.error st;
         DataChart.filterType := DataChart.filterType st;
         DataChart.selectedValue := DataChart.selectedValue st;
         DataChart.startDate := DataChart.startDate st;
         DataChart.endDate := DataChart.endDate st;
         DataChart.searchTerm := DataChart.searchTerm st |}
  | loadError =>
      {| DataChart.rawData := DataChart.rawData st; DataChart.loading := false;
         DataChart.error := Some "Failed to load data";
         DataChart.filterType := DataChart.filterType st;
         DataChart.selectedValue := DataChart.selectedValue st;
         DataChart.startDate := DataChart.startDate st;
         DataChart.endDate := DataChart.endDate st;
         DataChart.searchTerm := DataChart.searchTerm st |}
  | clickSupplier =>
      {| DataChart.rawData := DataChart.rawData st; DataChart.loading := DataChart.loading st;
         DataChart.error := DataChart.error st;
         DataChart.filterType := supplier;
         DataChart.selectedValue := "";
         DataChart.startDate := DataChart.startDate st;
         DataChart.endDate := DataChart.endDate st;
         DataChart.searchTerm := "" |}
  | clickItem =>
      {| DataChart.rawData := DataChart.rawData st; DataChart.loading := DataChart.loading st;
         DataChart.error := DataChart.error st;
         DataChart.filterType := item;
         DataChart.selectedValue := "";
         DataChart.startDate := DataChart.startDate st;
         DataChart.endDate := DataChart.endDate st;
         DataChart.searchTerm := "" |}
  | changeSearch value =>
      {| DataChart.rawData := DataChart.rawData st; DataChart.loading := DataChart.loading st;
         DataChart.error := DataChart.error st;
         DataChart.filterType := DataChart.filterType st;
         DataChart.selectedValue := DataChart.selectedValue st;
         DataChart.startDate := DataChart.startDate st;
         DataChart.endDate := DataChart.endDate st;
         DataChart.searchTerm := value |}
  | changeSelect value =>
      {| DataChart.rawData := DataChart.rawData st; DataChart.loading := DataChart.loading st;
         DataChart.error := DataChart.error st;
         DataChart.filterType := DataChart.filterType st;
         DataChart.selectedValue := value;
         DataChart.startDate := DataChart.startDate st;
         DataChart.endDate := DataChart.endDate st;
         DataChart.searchTerm := DataChart.searchTerm st |}
  | changeStart cursor =>
      {| DataChart.rawData := DataChart.rawData st; DataChart.loading := DataChart.loading st;
         DataChart.error := DataChart.error st;
         DataChart.filterType := DataChart.filterType st;
         DataChart.selectedValue := DataChart.selectedValue st;
         DataChart.startDate := cursor;
         DataChart.endDate := DataChart.endDate st;
         DataChart.searchTerm := DataChart.searchTerm st |}
  | changeEnd cursor =>
      {| DataChart.rawData := DataChart.rawData st; DataChart.loading := DataChart.loading st;
         DataChart.error := DataChart.error st;
         DataChart.filterType := DataChart.filterType st;
         DataChart.selectedValue := DataChart.selectedValue st;
         DataChart.startDate := DataChart.startDate st;
         DataChart.endDate := cursor;
         DataChart.searchTerm := DataChart.searchTerm st |}
  end.

(** The options of the value select in a state. *)
Definition optionsOf (st : DataChart.state) : list string :=
  filteredOptions (DataChart.filterType st)
    (suppliers (deriveFilterDomain (DataChart.rawData st)))
    (items (deriveFilterDomain (DataChart.rawData st)))
    (DataChart.searchTerm st).

(** The hint under the value select, [filteredOptions.length === 100]. *)
Definition showsHint (st : DataChart.state) : bool :=
  (List.length (optionsOf st) =? 100)%nat.

(** What the component returns. *)
Inductive View :=
| LoadingView
| ErrorView (message : string)
| InvalidRange
| SelectPrompt
| NoDataFound
| ChartView (data : list MonthlyAggregate).

Definition render (localeCompare : string -> string -> Z) (st : DataChart.state) : View :=
  let data :=
    chartData localeCompare (DataChart.rawData st) (DataChart.selectedValue st)
      (DataChart.filterType st) (DataChart.startDate st) (DataChart.endDate st) in
  if DataChart.loading st then LoadingView
  else if truthy (DataChart.error st) then ErrorView (ToString (DataChart.error st))
  else if negb (isValidDateRange (DataChart.startDate st) (DataChart.endDate st))
  then InvalidRange
  else if (DataChart.selectedValue st =? "")%string then SelectPrompt
  else if (List.length data =? 0)%nat then NoDataFound
  else ChartView data.

(** ** [App]: the account form and the registration flag *)

Module App.
Record state := {
  user : option string;
  loading : bool;
  isRegistered : bool;
  registrationLoading : bool;
  isSignUp : bool;
  email : string;
  password : string;
  authError : string;
  authLoading : bool
}.
End App.

(** The collection [users] of the document store: under the uid of a user,
    the field [isRegistered] of the document, [None] when the document lacks
    it. *)
Definition Users := list (string * option bool).

(** How an awaited call of the identity or document service settles; a
    rejection carries [error.code], which may be [undefined]. *)
Inductive Outcome :=
| fulfilled
| rejected (code : option string).

Definition setUser (v : option string) (st : App.state) : App.state :=
  {| App.user := v; App.loading := App.loading st; App.isRegistered := App.isRegistered st;
     App.registrationLoading := App.registrationLoading st; App.isSignUp := App.isSignUp st;
     App.email := App.email st; App.password := App.password st;
     App.authError := App.authError st; App.authLoading := App.authLoading st |}.

Definition setLoading (v : bool) (st : App.state) : App.state :=
  {| App.user := App.user st; App.loading := v; App.isRegistered := App.isRegistered st;
     App.registrationLoading := App.registrationLoading st; App.isSignUp := App.isSignUp st;
     App.email := App.email st; App.password := App.password st;
     App.authError := App.authError st; App.authLoading := App.authLoading st |}.

Definition setIsRegistered (v : bool) (st : App.state) : App.state :=
  {| App.user := App.user st; App.loading := App.loading st; App.isRegistered := v;
     App.registrationLoading := App.registrationLoading st; App.isSignUp := App.isSignUp st;
     App.email := App.email st; App.password := App.password st;
     App.authError := App.authError st; App.authLoading := App.authLoading st |}.

Definition setRegistrationLoading (v : bool) (st : App.state) : App.state :=
  {| App.user := App.user st; App.loading := App.loading st;
     App.isRegistered := App.isRegistered st;
     App.registrationLoading := v; App.isSignUp := App.isSignUp st;
     App.email := App.email st; App.password := App.password st;
     App.authError := App.authError st; App.authLoading := App.authLoading st |}.

Definition setIsSignUp (v : bool) (st : App.state) : App.state :=
  {| App.user := App.user st; App.loading := App.loading st;
     App.isRegistered := App.isRegistered st;
     App.registrationLoading := App.registrationLoading st; App.isSignUp := v;
     App.email := App.email st; App.password := App.password st;
     App.authError := App.authError st; App.authLoading := App.authLoading st |}.

Definition setEmail (v : string) (st : App.state) : App.state :=
  {| App.user := App.user st; App.loading := App.loading st;
     App.isRegistered := App.isRegistered st;
     App.registrationLoading := App.registrationLoading st; App.isSignUp := App.isSignUp st;
     App.email := v; App.password := App.password st;
     App.authError := App.authError st; App.authLoading := App.authLoading st |}.

Definition setPassword (v : string) (st : App.state) : App.state :=
  {| App.user := App.user st; App.loading := App.loading st;
     App.isRegistered := App.isRegistered st;
     App.registrationLoading := App.registrationLoading st; App.isSignUp := App.isSignUp st;
     App.email := App.email st; App.password := v;
     App.authError := App.authError st; App.authLoading := App.authLoading st |}.

Definition setAuthError (v : string) (st : App.state) : App.state :=
  {| App.user := App.user st; App.loading := App.loading st;
     App.isRegistered := App.isRegistered st;
     App.registrationLoading := App.registrationLoading st; App.isSignUp := App.isSignUp st;
     App.email := App.email st; App.password := App.password st;
     App.authError := v; App.authLoading := App.authLoading st |}.

Definition setAuthLoading (v : bool) (st : App.state) : App.state :=
  {| App.user := App.user st; App.loading := App.loading st;
     App.isRegistered := App.isRegistered st;
     App.registrationLoading := App.registrationLoading st; App.isSignUp := App.isSignUp st;
     App.email := App.email st; App.password := App.password st;
     App.authError := App.authError st; App.authLoading := v |}.

(** [field || false] on the field of a document. *)
Definition orFalse (field : option bool) : bool :=
  match field with
  | Some b => b
  | None => false
  end.

(** [fetchRegistrationStatus(uid)], given how [getDoc] settles and, should it
    be called, how [setDoc] does; the [catch] only logs. *)
Definition fetchRegistrationStatus (uid : string) (getDoc setDoc : Outcome)
    (w : App.state * Users) : App.state * Users :=
  let '(st, users) := w in
  match getDoc with
  | rejected _ => (st, users)
  | fulfilled =>
      match get uid users with
      | Some field => (setIsRegistered (orFalse field) st, users)
      | None =>
          match setDoc with
          | rejected _ => (st, users)
          | fulfilled => (setIsRegistered false st, set uid (Some false) users)
          end
      end
  end.

(** The callback of [onAuthStateChanged]. *)
Definition authStateChanged (currentUser : option string) (getDoc setDoc : Outcome)
    (w : App.state * Users) : App.state * Users :=
  let '(st, users) := w in
  let w1 := (setUser currentUser st, users) in
  let '(st2, users2) :=
    match currentUser with
    | Some uid => fetchRegistrationStatus uid getDoc setDoc w1
    | None => w1
    end in
  (setLoading false st2, users2).

(** The [switch] on [error.code]. *)
Definition authErrorMessage (code : option string) : string :=
  match code with
  | Some c =>
      if (c =? "auth/email-already-in-use")%string
      then "This email is already registered. Try signing in."
      else if (c =? "auth/weak-password")%string
      then "Password should be at least 6 characters."
      else if (c =? "auth/invalid-email")%string
      then "Please enter a valid email address."
      else if (c =? "auth/invalid-credential")%string
      then "Invalid email or password."
      else if (c =? "auth/user-not-found")%string
      then "No account found with this email."
      else if (c =? "auth/wrong-password")%string
      then "Incorrect password."
      else "An error occurred. Please try again."
  | None => "An error occurred. Please try again."
  end.

(** [handleAuth], given how the sign-up or sign-in call settles. *)
Definition handleAuth (outcome : Outcome) (st : App.state) : App.state :=
  let st1 := setAuthLoading true (setAuthError "" st) in
  let st2 :=
    match outcome with
    | fulfilled => setPassword "" (setEmail "" st1)
    | rejected code => setAuthError (authErrorMessage code) st1
    end in
  setAuthLoading false st2.

(** [handleSignOut], given how [signOut] settles. *)
Definition handleSignOut (outcome : Outcome) (st : App.state) : App.state :=
  match outcome with
  | fulfilled => setIsRegistered false st
  | rejected _ => st
  end.

(** [toggleRegistration], given how [setDoc] settles. *)
Definition toggleRegistration (setDoc : Outcome) (w : App.state * Users)
    : App.state * Users :=
  let '(st, users) := w in
  match App.user st with
  | None => (st, users)
  | Some uid =>
      let st1 := setRegistrationLoading true st in
      let newStatus := negb (App.isRegistered st) in
      let '(st2, users2) :=
        match setDoc with
        | fulfilled => (setIsRegistered newStatus st1, set uid (Some newStatus) users)
        | rejected _ => (st1, users)
        end in
      (setRegistrationLoading false st2, users2)
  end.

Definition switchAuthMode (st : App.state) : App.state :=
  setAuthError "" (setIsSignUp (negb (App.isSignUp st)) st).

(** The flag on the screen is the flag of the document of the signed-in
    user. *)
Definition inSync (w : App.state * Users) : Prop :=
  match App.user (fst w) with
  | Some uid =>
      exists field, get uid (snd w) = Some field /\ orFalse field = App.isRegistered (fst w)
  | None => True
  end.

(** The number of calls that were fulfilled. *)
Definition fulfilledCount (outcomes : list Outcome) : nat :=
  List.length (filter (fun o => match o with fulfilled => true | rejected _ => false end) outcomes).

(** ** Notions used to state the properties of the rest *)

(** A string of decimal digits. *)
Fixpoint allDecimal (s : string) : bool :=
  match s with
  | String c s' => isDigit c && allDecimal s'
  | EmptyString => true
  end.




(** The entries of the domain that the search lets through, before the cut
    at 100. *)
Definition matchingOptions (st : DataChart.state) : list string :=
  let options :=
    match DataChart.filterType st with
    | supplier => suppliers (deriveFilterDomain (DataChart.rawData st))
    | item => items (deriveFilterDomain (DataChart.rawData st))
    end in
  if (DataChart.searchTerm st =? "")%string then options
  else
    filter (fun opt => includes (toLowerCase opt) (toLowerCase (DataChart.searchTerm st)))
      options.

(** A sequence of clicks on the registration button, each with the way its
    [setDoc] settles. *)
Definition toggles (outcomes : list Outcome) (w : App.state * Users) : App.state * Users :=
  fold_left (fun w setDoc => toggleRegistration setDoc w) outcomes w.

(** * Properties *)

(** ** The built-ins on known values *)

Example mathInt_known :
  mathInt (Some "2019") = Some 2019
  /\ mathInt (Some "08") = Some 8
  /\ mathInt (Some "  -12px") = Some (-12)
  /\ mathInt (Some "0x1f") = Some 31
  /\ mathInt (Some "0x") = None
  /\ mathInt (Some "N/A") = None
  /\ mathInt (Some "") = None
  /\ mathInt None = None.
Proof. repeat split. Qed.

(** Past 2^53 the integer read is rounded to the nearest Number, and past
    the greatest Number to [Infinity]. *)
Example parseInt_known :
  parseInt (Some "2019") = ofZ 2019
  /\ parseInt (Some "  -12px") = ofZ (-12)
  /\ parseInt (Some "-0") = S754_zero true
  /\ parseInt (Some "N/A") = S754_nan
  /\ parseInt None = S754_nan
  /\ parseInt (Some "9007199254740993") = ofZ 9007199254740992
  /\ parseInt (Some (padStart 310 "9" "")) = Infinity.
Proof. vm_compute. repeat split. Qed.

Example parseFloat_known :
  parseFloat (Some "12.5") = dyadic 25 (-1)
  /\ parseFloat (Some "  -.5e1x") = ofZ (-5)
  /\ parseFloat (Some "5.") = ofZ 5
  /\ parseFloat (Some "1e3") = ofZ 1000
  /\ parseFloat (Some "1e") = ofZ 1
  /\ parseFloat (Some "0.1") = S754_finite false 7205759403792794 (-56)
  /\ parseFloat (Some "1e400") = S754_infinity false
  /\ parseFloat (Some "-Infinity") = S754_infinity true
  /\ parseFloat (Some "-0") = S754_zero true
  /\ parseFloat (Some ".") = S754_nan
  /\ parseFloat (Some "N/A") = S754_nan
  /\ parseFloat None = S754_nan.
Proof. vm_compute. repeat split. Qed.

(** 0.1 + 0.2 is not 0.3, and 1.005 rounds down to 1. *)
Example Number_known :
  add (parseFloat (Some "0.1")) (parseFloat (Some "0.2")) <> parseFloat (Some "0.3")
  /\ round2 (parseFloat (Some "1.005")) = ofZ 1
  /\ Math_round (dyadic 5 (-1)) = ofZ 3
  /\ Math_round (dyadic (-5) (-1)) = ofZ (-2)
  /\ Math_round (dyadic (-1) (-1)) = S754_zero true
  /\ Math_round (parseFloat (Some "0.49999999999999994")) = zero.
Proof. vm_compute. repeat split. discriminate. Qed.

Example strings_known :
  padStart 2 "0" "1" = "01"
  /\ padStart 2 "0" "12" = "12"
  /\ padStart 2 "0" "" = "00"
  /\ toLowerCase "AcME Co." = "acme co."
  /\ includes "acme" "ac" = true
  /\ includes "ajax" "ac" = false
  /\ sort defaultCompare ["b"; "a"; "B"; "10"; "9"] = ["10"; "9"; "B"; "a"; "b"].
Proof. repeat split. Qed.

(** ** Numbers of integers *)

(** Below 2^53 in magnitude the arithmetic of Numbers on integers is the
    arithmetic of integers: the Number of such an integer has the integer
    itself, shifted to 53 bits, for mantissa, and sums, products by a
    positive integer and comparisons of such Numbers lose nothing as long as
    the result stays below 2^53. *)

(** The number of binary digits of a mantissa. *)
Lemma digits2_size (p : positive) : digits2_pos p = Pos.size p.
Proof. induction p; simpl; congruence. Qed.

Lemma digits2_log2 (p : positive) : Zpos (digits2_pos p) = Z.log2 (Zpos p) + 1.
Proof.
  rewrite digits2_size. destruct p; simpl; try reflexivity; lia.
Qed.

(** The shifts of [SpecFloat] as iterations and as powers of 2. *)
Lemma iter_pos_nat {A : Type} (f : A -> A) (n : positive) (x : A) :
  iter_pos f n x = Nat.iter (Pos.to_nat n) f x.
Proof.
  revert x. induction n as [n IH | n IH |]; intros x.
  - rewrite Pos2Nat.inj_xI. cbn [iter_pos]. rewrite !IH.
    replace (S (2 * Pos.to_nat n)) with (Pos.to_nat n + S (Pos.to_nat n))%nat by lia.
    rewrite Nat.iter_add, Nat.iter_succ_r. reflexivity.
  - rewrite Pos2Nat.inj_xO. cbn [iter_pos]. rewrite !IH.
    replace (2 * Pos.to_nat n)%nat with (Pos.to_nat n + Pos.to_nat n)%nat by lia.
    rewrite Nat.iter_add. reflexivity.
  - reflexivity.
Qed.

Lemma iter_xO (m d : positive) : Zpos (Pos.iter xO m d) = Zpos m * 2 ^ Zpos d.
Proof.
  revert m. induction d as [| d IH] using Pos.peano_ind; intros m.
  - simpl. lia.
  - rewrite Pos.iter_succ. rewrite Pos2Z.inj_xO, IH. rewrite Pos2Z.inj_succ.
    rewrite Z.pow_succ_r by lia. lia.
Qed.

(** Shifting out zeros leaves the record exact. *)
Lemma shr_iter (n : nat) (t q : positive) :
  Zpos t = Zpos q * 2 ^ Z.of_nat n ->
  Nat.iter n shr_1 (exactRecord (Zpos t)) = exactRecord (Zpos q).
Proof.
  revert q. induction n as [|n IH]; intros q H.
  - simpl in *. f_equal. lia.
  - rewrite Nat.iter_succ, (IH (q~0)%positive).
    + reflexivity.
    + rewrite H, Nat2Z.inj_succ, Z.pow_succ_r by lia. lia.
Qed.

Lemma shr_exact (t q : positive) (e n : Z) :
  0 <= n -> Zpos t = Zpos q * 2 ^ n ->
  shr (exactRecord (Zpos t)) e n = (exactRecord (Zpos q), e + n).
Proof.
  intros Hn H. destruct n as [|n|n]; try lia.
  - simpl in *. do 2 f_equal; lia.
  - cbn [shr]. rewrite iter_pos_nat. f_equal. apply shr_iter.
    rewrite positive_nat_Z. exact H.
Qed.

Lemma log2_bound (p : positive) :
  Zpos p < 2 ^ 53 -> 0 <= Z.log2 (Zpos p) <= 52.
Proof.
  intros H. split; [apply Z.log2_nonneg|].
  assert (Z.log2 (Zpos p) < 53); [|lia].
  apply Z.log2_lt_pow2; lia.
Qed.

(** Rounding an integer below 2^53 that is given with [k] more binary zeros
    than 53 bits hold returns the integer. *)
Lemma round_aux_exact (s : bool) (t p : positive) (k : Z) :
  0 <= k -> Zpos p < 2 ^ 53 -> Zpos t = Zpos p * 2 ^ k ->
  52 <= Z.log2 (Zpos p) + k ->
  binary_round_aux 53 1024 s (Zpos t) (- k) loc_Exact = canon s p.
Proof.
  intros Hk Hp Ht Hd. pose proof (log2_bound p Hp) as HL.
  set (L := Z.log2 (Zpos p)) in *.
  assert (Hlt : Z.log2 (Zpos t) = k + L).
  { rewrite Ht. apply Z.log2_mul_pow2; lia. }
  set (q := Z.to_pos (Zpos p * 2 ^ (52 - L))).
  assert (Hq : Zpos q = Zpos p * 2 ^ (52 - L)).
  { unfold q. rewrite Z2Pos.id; [reflexivity|].
    apply Z.mul_pos_pos; [lia|]. apply Z.pow_pos_nonneg; lia. }
  assert (Hlq : Z.log2 (Zpos q) = 52).
  { rewrite Hq, Z.log2_mul_pow2; lia. }
  unfold binary_round_aux.
  assert (H1 : shr_fexp 53 1024 (Zpos t) (- k) loc_Exact
               = (exactRecord (Zpos q), L - 52)).
  { unfold shr_fexp. cbn [Zdigits2 shr_record_of_loc].
    rewrite digits2_log2, Hlt.
    unfold fexp, emin.
    replace (Z.max (k + L + 1 + - k - 53) (3 - 1024 - 53) - - k)
      with (L - 52 + k) by lia.
    fold (exactRecord (Zpos t)).
    rewrite (shr_exact t q); [f_equal; lia | lia |].
    rewrite Hq, Ht, <- Z.mul_assoc, <- Z.pow_add_r by lia.
    do 2 f_equal. lia. }
  rewrite H1. cbn [shr_m exactRecord loc_of_shr_record shr_r shr_s round_nearest_even].
  assert (H2 : shr_fexp 53 1024 (Zpos q) (L - 52) loc_Exact
               = (exactRecord (Zpos q), L - 52)).
  { unfold shr_fexp. cbn [Zdigits2 shr_record_of_loc].
    rewrite digits2_log2, Hlq. unfold fexp, emin.
    replace (Z.max (52 + 1 + (L - 52) - 53) (3 - 1024 - 53) - (L - 52))
      with 0 by lia.
    reflexivity. }
  rewrite H2. cbn [shr_m exactRecord].
  replace (L - 52 <=? 1024 - 53) with true by (symmetry; apply Z.leb_le; lia).
  reflexivity.
Qed.

Lemma round_exact (s : bool) (t p : positive) (j : Z) :
  0 <= j -> Zpos p < 2 ^ 53 -> Zpos t = Zpos p * 2 ^ j ->
  binary_round 53 1024 s t (- j) = canon s p.
Proof.
  intros Hj Hp Ht. pose proof (log2_bound p Hp) as HL.
  assert (Hlt : Z.log2 (Zpos t) = j + Z.log2 (Zpos p)).
  { rewrite Ht. apply Z.log2_mul_pow2; lia. }
  unfold binary_round, shl_align.
  rewrite digits2_log2, Hlt. unfold fexp, emin.
  set (L := Z.log2 (Zpos p)) in *.
  replace (Z.max (j + L + 1 + - j - 53) (3 - 1024 - 53) - - j)
    with (L - 52 + j) by lia.
  destruct (L - 52 + j) as [|d|d] eqn:E.
  - apply round_aux_exact; trivial. fold L. lia.
  - apply round_aux_exact; trivial. fold L. lia.
  - replace (Z.max (j + L + 1 + - j - 53) (3 - 1024 - 53))
      with (- (52 - L)) by lia.
    apply round_aux_exact; trivial; try lia.
    rewrite iter_xO, Ht, <- Z.mul_assoc, <- Z.pow_add_r by lia.
    do 2 f_equal. lia.
Qed.

Lemma ofZ_pos (p : positive) : Zpos p < 2 ^ 53 -> ofZ (Zpos p) = canon false p.
Proof.
  intros H. unfold ofZ, dyadic, binary_normalize.
  apply (round_exact false p p 0); trivial; lia.
Qed.

Lemma ofZ_neg (p : positive) : Zpos p < 2 ^ 53 -> ofZ (Zneg p) = canon true p.
Proof.
  intros H. unfold ofZ, dyadic, binary_normalize.
  apply (round_exact true p p 0); trivial; lia.
Qed.

(** The Number of a non-zero integer of magnitude below 2^53. *)
Lemma ofZ_canon (n : Z) :
  safeInteger n -> n <> 0 -> ofZ n = canon (n <? 0) (Z.to_pos (Z.abs n)).
Proof.
  intros H Hn. destruct n as [|p|p]; [congruence| |]; cbn [Z.abs Z.to_pos Z.ltb Z.compare].
  - apply ofZ_pos. unfold safeInteger in H. lia.
  - apply ofZ_neg. unfold safeInteger in H. lia.
Qed.

Lemma canon_mantissa (p : positive) :
  Zpos p < 2 ^ 53 ->
  Zpos (Z.to_pos (Zpos p * 2 ^ (52 - Z.log2 (Zpos p))))
  = Zpos p * 2 ^ (52 - Z.log2 (Zpos p)).
Proof.
  intros H. pose proof (log2_bound p H). rewrite Z2Pos.id; [reflexivity|].
  apply Z.mul_pos_pos; [lia|]. apply Z.pow_pos_nonneg; lia.
Qed.

Lemma canon_compare (p q : positive) :
  Zpos p < 2 ^ 53 -> Zpos q < 2 ^ 53 ->
  match Z.log2 (Zpos p) - 52 ?= Z.log2 (Zpos q) - 52 with
  | Lt => Lt
  | Gt => Gt
  | Eq => Pos.compare_cont Eq
            (Z.to_pos (Zpos p * 2 ^ (52 - Z.log2 (Zpos p))))
            (Z.to_pos (Zpos q * 2 ^ (52 - Z.log2 (Zpos q))))
  end = (Zpos p ?= Zpos q).
Proof.
  intros Hp Hq.
  pose proof (log2_bound p Hp) as HLp. pose proof (log2_bound q Hq) as HLq.
  pose proof (Z.log2_spec (Zpos p) ltac:(lia)) as Sp.
  pose proof (Z.log2_spec (Zpos q) ltac:(lia)) as Sq.
  destruct (Z.compare_spec (Z.log2 (Zpos p) - 52) (Z.log2 (Zpos q) - 52)) as [E|E|E].
  - change (Pos.compare_cont Eq ?a ?b) with (Zpos a ?= Zpos b).
    rewrite !canon_mantissa by trivial.
    replace (Z.log2 (Zpos q)) with (Z.log2 (Zpos p)) by lia.
    symmetry. apply Zmult_compare_compat_r.
    apply Z.lt_gt, Z.pow_pos_nonneg; lia.
  - symmetry. apply Z.compare_lt_iff.
    assert (2 ^ Z.succ (Z.log2 (Zpos p)) <= 2 ^ Z.log2 (Zpos q)).
    { apply Z.pow_le_mono_r; lia. }
    lia.
  - symmetry. apply Z.compare_gt_iff.
    assert (2 ^ Z.succ (Z.log2 (Zpos q)) <= 2 ^ Z.log2 (Zpos p)).
    { apply Z.pow_le_mono_r; lia. }
    lia.
Qed.

(** Numbers of integers below 2^53 compare as the integers do. *)
Lemma SFcompare_ofZ (a b : Z) :
  safeInteger a -> safeInteger b ->
  SFcompare (ofZ a) (ofZ b) = Some (a ?= b).
Proof.
  unfold safeInteger. intros Ha Hb.
  destruct a as [|p|p], b as [|q|q];
    rewrite ?ofZ_pos, ?ofZ_neg by lia; try reflexivity.
  - cbn [SFcompare canon]. f_equal. apply canon_compare; lia.
  - cbn [SFcompare canon]. f_equal.
    change (Zneg p ?= Zneg q) with (CompOpp (Zpos p ?= Zpos q)).
    rewrite <- (canon_compare p q) by lia.
    destruct (Z.log2 (Zpos p) - 52 ?= Z.log2 (Zpos q) - 52); reflexivity.
Qed.


Lemma normalize_exact (n : Z) (sum j : Z) :
  0 <= j -> safeInteger n -> sum = n * 2 ^ j ->
  binary_normalize 53 1024 sum (- j) false = ofZ n.
Proof.
  unfold safeInteger. intros Hj Hn Hsum.
  assert (Hpow : 0 < 2 ^ j) by (apply Z.pow_pos_nonneg; lia).
  destruct n as [|p|p].
  - subst sum. reflexivity.
  - rewrite ofZ_pos by lia. destruct sum as [|t|t]; try nia.
    apply round_exact; trivial; lia.
  - rewrite ofZ_neg by lia. destruct sum as [|t|t]; try nia.
    apply round_exact; trivial; lia.
Qed.

Lemma shl_align_value (m : positive) (e ez : Z) :
  ez <= e -> Zpos (fst (shl_align m e ez)) = Zpos m * 2 ^ (e - ez).
Proof.
  intros H. unfold shl_align. destruct (ez - e) as [|d|d] eqn:E; try lia.
  - replace (e - ez) with 0 by lia. simpl. lia.
  - cbn [fst]. rewrite iter_xO. do 2 f_equal. lia.
Qed.

Lemma canon_value (s : bool) (p : positive) (ez : Z) :
  Zpos p < 2 ^ 53 -> ez <= Z.log2 (Zpos p) - 52 ->
  cond_Zopp s (Zpos (fst (shl_align
    (Z.to_pos (Zpos p * 2 ^ (52 - Z.log2 (Zpos p)))) (Z.log2 (Zpos p) - 52) ez)))
  = cond_Zopp s (Zpos p) * 2 ^ (- ez).
Proof.
  intros Hp He. pose proof (log2_bound p Hp).
  rewrite shl_align_value by trivial. rewrite canon_mantissa by trivial.
  rewrite <- Z.mul_assoc, <- Z.pow_add_r by lia.
  replace (52 - Z.log2 (Zpos p) + (Z.log2 (Zpos p) - 52 - ez)) with (- ez) by lia.
  destruct s; cbn [cond_Zopp]; lia.
Qed.

(** Adding the Numbers of two integers gives the Number of their sum, as long
    as the integers and the sum are below 2^53 in magnitude. *)
Lemma add_ofZ (a b : Z) :
  safeInteger a -> safeInteger b -> safeInteger (a + b) ->
  add (ofZ a) (ofZ b) = ofZ (a + b).
Proof.
  intros Ha Hb Hab.
  destruct (Z.eq_dec b 0) as [->|Nb].
  { rewrite Z.add_0_r. destruct (Z.eq_dec a 0) as [->|Na]; [reflexivity|].
    rewrite (ofZ_canon a) by trivial. reflexivity. }
  destruct (Z.eq_dec a 0) as [->|Na].
  { cbn [Z.add]. rewrite (ofZ_canon b) by trivial. reflexivity. }
  rewrite (ofZ_canon a), (ofZ_canon b) by trivial.
  assert (Pa : Zpos (Z.to_pos (Z.abs a)) < 2 ^ 53).
  { unfold safeInteger in Ha. rewrite Z2Pos.id; lia. }
  assert (Pb : Zpos (Z.to_pos (Z.abs b)) < 2 ^ 53).
  { unfold safeInteger in Hb. rewrite Z2Pos.id; lia. }
  pose proof (log2_bound _ Pa) as La. pose proof (log2_bound _ Pb) as Lb.
  unfold add, canon. cbn [SFadd].
  set (ez := Z.min _ _).
  rewrite !canon_value by (trivial; unfold ez; lia).
  replace ez with (- - ez) at 3 by lia.
  apply normalize_exact; [unfold ez; lia | trivial |].
  rewrite <- Z.mul_add_distr_r. f_equal.
  rewrite !Z2Pos.id by lia.
  destruct a, b; cbn [Z.ltb Z.compare cond_Zopp Z.abs]; lia.
Qed.

(** The same for a product. *)
Lemma mul_ofZ (a b : Z) :
  safeInteger a -> safeInteger b -> safeInteger (a * b) -> 0 < b ->
  mul (ofZ a) (ofZ b) = ofZ (a * b).
Proof.
  intros Ha Hb Hab Pb0.
  assert (Pb : Zpos (Z.to_pos (Z.abs b)) < 2 ^ 53).
  { unfold safeInteger in Hb. rewrite Z2Pos.id; lia. }
  rewrite (ofZ_canon b) by (trivial; lia).
  replace (b <? 0) with false by (symmetry; apply Z.ltb_ge; lia).
  destruct (Z.eq_dec a 0) as [->|Na].
  { reflexivity. }
  rewrite (ofZ_canon a) by trivial.
  assert (Pa : Zpos (Z.to_pos (Z.abs a)) < 2 ^ 53).
  { unfold safeInteger in Ha. rewrite Z2Pos.id; lia. }
  pose proof (log2_bound _ Pa) as La. pose proof (log2_bound _ Pb) as Lb.
  rewrite (ofZ_canon (a * b)) by (trivial; lia).
  replace (a * b <? 0) with (xorb (a <? 0) false)
    by (rewrite xorb_false_r; destruct (Z.ltb_spec a 0), (Z.ltb_spec (a * b) 0); trivial; nia).
  unfold mul, canon. cbn [SFmul].
  set (pa := Z.to_pos (Z.abs a)) in *. set (pb := Z.to_pos (Z.abs b)) in *.
  assert (Hab' : Z.to_pos (Z.abs (a * b)) = (pa * pb)%positive).
  { unfold pa, pb. rewrite Z.abs_mul, Z2Pos.inj_mul; lia. }
  rewrite Hab'.
  assert (Pab : Zpos (pa * pb) < 2 ^ 53).
  { rewrite <- Hab'. unfold safeInteger in Hab. rewrite Z2Pos.id; lia. }
  replace (Z.log2 (Zpos pa) - 52 + (Z.log2 (Zpos pb) - 52))
    with (- (104 - Z.log2 (Zpos pa) - Z.log2 (Zpos pb))) by lia.
  apply round_aux_exact; trivial; try lia.
  - rewrite Pos2Z.inj_mul, !canon_mantissa by trivial.
    replace (104 - Z.log2 (Zpos pa) - Z.log2 (Zpos pb))
      with ((52 - Z.log2 (Zpos pa)) + (52 - Z.log2 (Zpos pb))) by lia.
    rewrite Z.pow_add_r by lia. rewrite Pos2Z.inj_mul. ring.
  - pose proof (Z.log2_mul_below (Zpos pa) (Zpos pb) ltac:(lia) ltac:(lia)).
    rewrite Pos2Z.inj_mul. lia.
Qed.

Ltac rank_yes :=
  split; [intros _; do 2 eexists;
          split; [reflexivity|split; [reflexivity|cbn; lia]]
         | reflexivity].

Ltac rank_no :=
  split; [discriminate
         | intros ([[? ?] ?] & [[? ?] ?] & Hra & Hrb & Hlex); try discriminate;
           injection Hra as <- <- <-; injection Hrb as <- <- <-; lia].

Lemma SFleb_rank (x y : Number) :
  SFleb x y = true <->
  exists a b, rank x = Some a /\ rank y = Some b /\ lexle a b.
Proof.
  unfold SFleb, SFcompare, rank, lexle.
  destruct x as [[]|[]| |[] m e], y as [[]|[]| |[] m' e'];
    try change (Pos.compare_cont Eq m m') with (Zpos m ?= Zpos m');
    try destruct (Z.compare_spec e e');
    try destruct (Z.compare_spec (Zpos m) (Zpos m')); cbn [CompOpp];
    first [rank_yes | rank_no].
Qed.

(** The order of Numbers composes. *)
Lemma SFleb_trans (x y z : Number) :
  SFleb x y = true -> SFleb y z = true -> SFleb x z = true.
Proof.
  rewrite !SFleb_rank.
  intros (a & b & Ha & Hb & Hab) (b' & c & Hb' & Hc & Hbc).
  rewrite Hb in Hb'. injection Hb' as <-.
  exists a, c. split; [trivial|]. split; [trivial|].
  destruct a as [[a1 a2] a3], b as [[b1 b2] b3], c as [[c1 c2] c3].
  unfold lexle in *. lia.
Qed.

Lemma represents_ofZ (n : Z) : safeInteger n -> represents (ofZ n) n.
Proof. intros H. split; [exact H | now left]. Qed.

(** A Number of an integer below 2^53 is zero or finite. *)
Lemma ofZ_cases (n : Z) :
  safeInteger n ->
  (n = 0 /\ ofZ n = S754_zero false)
  \/ (n <> 0 /\ exists m e, ofZ n = S754_finite (n <? 0) m e).
Proof.
  intros H. destruct (Z.eq_dec n 0) as [-> | Hn]; [now left | right].
  split; [exact Hn |]. rewrite ofZ_canon by assumption. unfold canon. eauto.
Qed.

(** The sign of a zero does not count in a comparison. *)
Lemma SFcompare_zero_l (s : bool) (y : Number) :
  SFcompare (S754_zero s) y = SFcompare (S754_zero false) y.
Proof. destruct y; reflexivity. Qed.

Lemma SFcompare_zero_r (s : bool) (x : Number) :
  SFcompare x (S754_zero s) = SFcompare x (S754_zero false).
Proof. destruct x; reflexivity. Qed.

Lemma SFcompare_represents (x y : Number) (a b : Z) :
  represents x a -> represents y b -> SFcompare x y = Some (a ?= b).
Proof.
  intros [Ha [-> | [-> ->]]] [Hb [-> | [-> ->]]];
    rewrite ?SFcompare_zero_l, ?SFcompare_zero_r;
    try change (S754_zero false) with (ofZ 0);
    now apply SFcompare_ofZ.
Qed.

Lemma Number_le_represents (x y : Number) (a b : Z) :
  represents x a -> represents y b -> Number_le x y = (a <=? b).
Proof.
  intros Hx Hy. unfold Number_le, SFleb. rewrite (SFcompare_represents x y a b) by assumption.
  unfold Z.leb. destruct (a ?= b); reflexivity.
Qed.

Lemma Number_ge_represents (x y : Number) (a b : Z) :
  represents x a -> represents y b -> Number_ge x y = (b <=? a).
Proof. intros Hx Hy. unfold Number_ge. now apply (Number_le_represents y x). Qed.

(** Two Numbers that are the same integer stand alike in every comparison. *)
Lemma represents_order (x x' z : Number) (k : Z) :
  represents x k -> represents x' k ->
  SFleb z x = SFleb z x' /\ SFleb x z = SFleb x' z.
Proof.
  intros [_ Hx] [_ Hx'].
  destruct Hx as [-> | [-> ->]], Hx' as [-> | [E ->]]; try subst k;
    split; reflexivity.
Qed.

Lemma mul_represents (x : Number) (a : Z) :
  represents x a -> safeInteger (a * 12) -> represents (mul x (ofZ 12)) (a * 12).
Proof.
  intros [Ha [-> | [-> ->]]] H12.
  - rewrite mul_ofZ; [now apply represents_ofZ | assumption | | assumption | lia].
    unfold safeInteger. lia.
  - split; [exact H12 | right]. split; reflexivity.
Qed.

Lemma add_represents (x y : Number) (a b : Z) :
  represents x a -> represents y b -> safeInteger (a + b) ->
  represents (add x y) (a + b).
Proof.
  intros [Ha [-> | [-> ->]]] [Hb [-> | [-> ->]]] Hab.
  - rewrite add_ofZ by assumption. now apply represents_ofZ.
  - rewrite Z.add_0_r in *. split; [exact Ha | left].
    destruct (ofZ_cases a Ha) as [[-> ->] | (_ & m & e & ->)]; reflexivity.
  - cbn [Z.add] in *. split; [exact Hb | left].
    destruct (ofZ_cases b Hb) as [[-> ->] | (_ & m & e & ->)]; reflexivity.
  - split; [exact Hab | right]. split; reflexivity.
Qed.

Lemma represents_not_NaN (x : Number) (n : Z) : represents x n -> isNaN x = false.
Proof.
  intros [Hn [-> | [_ ->]]]; [| reflexivity].
  destruct (ofZ_cases n Hn) as [[_ ->] | (_ & m & e & ->)]; reflexivity.
Qed.

Lemma represents_finite (x : Number) (n : Z) :
  represents x n ->
  strictEquals x Infinity = false /\ strictEquals x (SFopp Infinity) = false.
Proof.
  intros [Hn [-> | [_ ->]]]; [| split; reflexivity].
  destruct (ofZ_cases n Hn) as [[_ ->] | (_ & m & e & ->)];
    [split; reflexivity |].
  unfold strictEquals, SFeqb, Infinity. cbn [SFopp SFcompare negb].
  destruct (n <? 0); split; reflexivity.
Qed.

(** [parseInt] against the integer read. *)
Lemma parseInt_mathInt (v : option string) (n : Z) :
  mathInt v = Some n -> n <> 0 -> parseInt v = ofZ n.
Proof.
  unfold mathInt, parseInt.
  destruct (stripSign (trimStart (ToString v))) as [sign s1].
  destruct (stripHexPrefix s1) as [R s2].
  destruct (digitsPrefix R s2 None) as [k |]; [| discriminate].
  intros [= <-] Hn. unfold ofZ, dyadic.
  destruct (sign * k); [contradiction | reflexivity | reflexivity].
Qed.

Lemma parseInt_represents (v : option string) (n : Z) :
  mathInt v = Some n -> safeInteger n -> represents (parseInt v) n.
Proof.
  intros Hv Hn. split; [exact Hn |].
  destruct (Z.eq_dec n 0) as [-> | Hne].
  - revert Hv. unfold mathInt, parseInt.
    destruct (stripSign (trimStart (ToString v))) as [sign s1].
    destruct (stripHexPrefix s1) as [R s2].
    destruct (digitsPrefix R s2 None) as [k |]; [| discriminate].
    intros [= ->]. cbn [binary_normalize].
    destruct (sign <? 0); [right; split; reflexivity | left; reflexivity].
  - left. now apply parseInt_mathInt.
Qed.

Lemma parseInt_NaN (v : option string) : mathInt v = None -> parseInt v = S754_nan.
Proof.
  unfold mathInt, parseInt.
  destruct (stripSign (trimStart (ToString v))) as [sign s1].
  destruct (stripHexPrefix s1) as [R s2].
  destruct (digitsPrefix R s2 None) as [k |]; [discriminate | reflexivity].
Qed.

(** The linear key of a cursor and of a row, when nothing is rounded. *)
Lemma cursor_represents (d : Date.t) :
  safeCursor d ->
  represents (add (mul (ofZ (Date.year d)) (ofZ 12)) (ofZ (Date.month d)))
    (Date.year d * 12 + Date.month d).
Proof.
  intros (Hy & Hm & Hy12 & Hk).
  apply add_represents; [| now apply represents_ofZ | exact Hk].
  apply mul_represents; [now apply represents_ofZ | exact Hy12].
Qed.

Lemma rowDate_represents (row : Row) (y m : Z) :
  mathInt (YEAR row) = Some y -> mathInt (MONTH row) = Some m -> exactKey y m ->
  represents (rowDate row) (y * 12 + m).
Proof.
  intros Hy Hm (Sy & Sm & Sy12 & Sk). unfold rowDate. cbv zeta.
  apply add_represents; [| now apply parseInt_represents | exact Sk].
  apply mul_represents; [now apply parseInt_represents | exact Sy12].
Qed.

Lemma rowDate_NaN (row : Row) :
  mathInt (YEAR row) = None \/ mathInt (MONTH row) = None -> rowDate row = S754_nan.
Proof.
  unfold rowDate. cbv zeta. intros [H | H]; rewrite (parseInt_NaN _ H).
  - reflexivity.
  - unfold add, SFadd. destruct (mul _ _) as [[] | [] | |]; reflexivity.
Qed.

Lemma safeRow_exactKey (row : Row) (y m : Z) :
  safeRow row -> mathInt (YEAR row) = Some y -> mathInt (MONTH row) = Some m ->
  exactKey y m.
Proof. unfold safeRow. intros H Hy Hm. now rewrite Hy, Hm in H. Qed.

(** Discharges the magnitude conditions on given cursors and rows. *)
Ltac magnitudes :=
  unfold safeCursor, safeRow, exactKey, safeInteger; vm_compute; repeat split.

(** ** The validity of a range *)

(** The claim C7 as it is stated fails past 2^53: in the year
    750599937895083 the linear keys of March and of April are both rounded
    to 2^53 + 8, so the code takes the range from April to March of that
    year for a valid one. *)
Lemma isValidDateRange_inexact :
  isValidDateRange (cursor farYear 4) (cursor farYear 3) = true
  /\ ~ (farYear * 12 + 3 >= farYear * 12 + 4).
Proof. split; [vm_compute; reflexivity | unfold farYear; lia]. Qed.

(** C7, amended: for two cursors whose year, month, [year * 12] and linear
    key are below 2^53 in magnitude, a range is valid exactly when the linear
    key of its end is at least the linear key of its start; a range that
    ends a year before it starts is invalid, and a range whose start and end
    coincide is valid. *)
Theorem isValidDateRange_spec :
  (forall startDate endDate : Date.t,
      safeCursor startDate -> safeCursor endDate ->
      (isValidDateRange startDate endDate = true <->
       Date.year endDate * 12 + Date.month endDate
       >= Date.year startDate * 12 + Date.month startDate))
  /\ isValidDateRange {| Date.year := 2020; Date.month := 1 |}
                      {| Date.year := 2019; Date.month := 1 |} = false
  /\ isValidDateRange {| Date.year := 2020; Date.month := 1 |}
                      {| Date.year := 2020; Date.month := 1 |} = true.
Proof.
  split; [| split; vm_compute; reflexivity].
  intros s e Hs He. unfold isValidDateRange. cbv zeta.
  rewrite (Number_ge_represents _ _ _ _ (cursor_represents e He) (cursor_represents s Hs)).
  rewrite Z.leb_le. lia.
Qed.

(** January to December of 2019. *)
Lemma isValidDateRange_spec_witness :
  safeCursor (cursor 2019 1) /\ safeCursor (cursor 2019 12)
  /\ isValidDateRange (cursor 2019 1) (cursor 2019 12) = true.
Proof.
  assert (H1 : safeCursor (cursor 2019 1))
    by magnitudes.
  assert (H12 : safeCursor (cursor 2019 12))
    by magnitudes.
  split; [exact H1 |]. split; [exact H12 |].
  apply (proj1 isValidDateRange_spec (cursor 2019 1) (cursor 2019 12) H1 H12).
  simpl. lia.
Defined.

(** ** Sorting *)

Section Sort.

Context {A : Type}.
Variable cmp : A -> A -> Z.

Lemma insertSorted_perm (x : A) (l : list A) :
  Permutation (insertSorted cmp x l) (x :: l).
Proof.
  induction l as [| y l IH]; simpl.
  - apply Permutation_refl.
  - destruct (cmp x y <=? 0).
    + apply Permutation_refl.
    + eapply perm_trans; [apply perm_skip, IH | apply perm_swap].
Qed.

Lemma sort_perm (l : list A) : Permutation (sort cmp l) l.
Proof.
  induction l as [| x l IH]; simpl.
  - apply perm_nil.
  - eapply perm_trans; [apply insertSorted_perm | apply perm_skip, IH].
Qed.

Lemma sort_In (l : list A) (x : A) : In x (sort cmp l) <-> In x l.
Proof.
  split; apply Permutation_in;
    [apply sort_perm | apply Permutation_sym, sort_perm].
Qed.

(** A consistent comparator: any two elements compare one way or the
    other, and the non-positive results compose. *)
Hypothesis cmp_total : forall a b, cmp a b <= 0 \/ cmp b a <= 0.
Hypothesis cmp_trans : forall a b c, cmp a b <= 0 -> cmp b c <= 0 -> cmp a c <= 0.

Lemma insertSorted_sorted (x : A) (l : list A) :
  StronglySorted (fun a b => cmp a b <= 0) l ->
  StronglySorted (fun a b => cmp a b <= 0) (insertSorted cmp x l).
Proof.
  induction 1 as [| y l Hl IH Hy]; simpl.
  - repeat constructor.
  - destruct (Z.leb_spec (cmp x y) 0) as [Hxy | Hxy].
    + constructor; [constructor; assumption |].
      constructor; [exact Hxy |].
      eapply Forall_impl; [| exact Hy].
      intros z Hz. exact (cmp_trans _ _ _ Hxy Hz).
    + constructor; [exact IH |].
      assert (Hyx : cmp y x <= 0) by (destruct (cmp_total x y); [lia | assumption]).
      rewrite Forall_forall. intros z Hz.
      apply (Permutation_in _ (insertSorted_perm x l)) in Hz.
      destruct Hz as [<- | Hz]; [exact Hyx |].
      rewrite Forall_forall in Hy. auto.
Qed.

Lemma sort_sorted (l : list A) :
  StronglySorted (fun a b => cmp a b <= 0) (sort cmp l).
Proof.
  induction l as [| x l IH]; simpl.
  - constructor.
  - apply insertSorted_sorted, IH.
Qed.

End Sort.

(** ** The code-unit order of strings *)

Lemma ascii_compare_refl (a : ascii) : Ascii.compare a a = Eq.
Proof. unfold Ascii.compare. apply N.compare_refl. Qed.

Lemma ascii_compare_lt_trans (a b c : ascii) :
  Ascii.compare a b = Lt -> Ascii.compare b c = Lt -> Ascii.compare a c = Lt.
Proof.
  unfold Ascii.compare. rewrite !N.compare_lt_iff. apply N.lt_trans.
Qed.

Lemma string_compare_refl (s : string) : String.compare s s = Eq.
Proof.
  induction s as [| a s IH]; simpl; [reflexivity |].
  now rewrite ascii_compare_refl.
Qed.

Lemma string_compare_lt_trans (s t u : string) :
  String.compare s t = Lt -> String.compare t u = Lt -> String.compare s u = Lt.
Proof.
  revert t u. induction s as [| a s IH]; intros [| b t] [| c u]; simpl;
    try discriminate; try reflexivity.
  destruct (Ascii.compare a b) eqn:Hab; try discriminate;
    destruct (Ascii.compare b c) eqn:Hbc; try discriminate; intros H1 H2.
  - apply Ascii.compare_eq_iff in Hab, Hbc. subst.
    rewrite ascii_compare_refl. eauto.
  - apply Ascii.compare_eq_iff in Hab. subst. now rewrite Hbc.
  - apply Ascii.compare_eq_iff in Hbc. subst. now rewrite Hab.
  - now rewrite (ascii_compare_lt_trans _ _ _ Hab Hbc).
Qed.

Lemma defaultCompare_le (x y : string) :
  defaultCompare x y <= 0 <-> x = y \/ String.compare x y = Lt.
Proof.
  unfold defaultCompare.
  destruct (String.compare x y) eqn:H.
  - apply String.compare_eq_iff in H. intuition lia.
  - intuition lia.
  - split; [lia |]. intros [-> | ?]; [| discriminate].
    rewrite string_compare_refl in H. discriminate.
Qed.

Lemma defaultCompare_total (x y : string) :
  defaultCompare x y <= 0 \/ defaultCompare y x <= 0.
Proof.
  unfold defaultCompare. rewrite (String.compare_antisym x y).
  destruct (String.compare y x); simpl; lia.
Qed.

Lemma defaultCompare_trans (x y z : string) :
  defaultCompare x y <= 0 -> defaultCompare y z <= 0 -> defaultCompare x z <= 0.
Proof.
  rewrite !defaultCompare_le.
  intros [-> | H1] [-> | H2]; auto.
  right. eapply string_compare_lt_trans; eassumption.
Qed.

(** A duplicate-free array sorted by the default comparator is strictly
    increasing in the code-unit order. *)
Lemma sorted_NoDup_strict (l : list string) :
  NoDup l ->
  StronglySorted (fun a b => defaultCompare a b <= 0) l ->
  StronglySorted codeUnitLt l.
Proof.
  induction 2 as [| x l Hl IH Hx]; constructor.
  - apply IH. now inversion H.
  - inversion H as [| ? ? Hnin _]; subst.
    rewrite Forall_forall in *. intros y Hy.
    destruct (proj1 (defaultCompare_le x y) (Hx y Hy)) as [-> | Hlt];
      [contradiction | exact Hlt].
Qed.

(** ** The scan of the first memo *)

Lemma Set_has_In (x : string) (s : list string) : Set_has x s = true <-> In x s.
Proof.
  unfold Set_has. rewrite existsb_exists. split.
  - intros (y & Hy & Heq). apply String.eqb_eq in Heq. now subst.
  - intros H. exists x. split; [exact H | apply String.eqb_refl].
Qed.

Lemma Set_add_In (x y : string) (s : list string) :
  In y (Set_add x s) <-> y = x \/ In y s.
Proof.
  unfold Set_add. destruct (Set_has x s) eqn:H.
  - apply Set_has_In in H. split; [auto |]. intros [-> | ?]; assumption.
  - rewrite in_app_iff. simpl. intuition.
Qed.

Lemma Set_add_NoDup (x : string) (s : list string) : NoDup s -> NoDup (Set_add x s).
Proof.
  intros Hs. unfold Set_add. destruct (Set_has x s) eqn:H; [exact Hs |].
  apply NoDup_app; [exact Hs | repeat constructor; intros [] |].
  intros y Hy [<- | []]. apply Set_has_In in Hy. congruence.
Qed.

Lemma truthy_spec (cell : option string) :
  truthy cell = true <-> exists s, cell = Some s /\ s <> "".
Proof.
  destruct cell as [s |]; simpl.
  - rewrite negb_true_iff, String.eqb_neq. split.
    + intros H. now exists s.
    + intros (s' & [= <-] & H). exact H.
  - split; [discriminate | intros (s & [=] & _)].
Qed.

Section Collect.

(** The cells gathered by the scan for one header. *)
Variable cell : Row -> option string.

Lemma collect_NoDup (rows : list Row) (s : list string) :
  NoDup s -> NoDup (collect cell rows s).
Proof.
  revert s. induction rows as [| row rows IH]; intros s Hs; simpl; [exact Hs |].
  apply IH. unfold addTruthy. destruct (truthy (cell row)); [| exact Hs].
  now apply Set_add_NoDup.
Qed.

Lemma collect_In (rows : list Row) (s : list string) (x : string) :
  In x (collect cell rows s) <->
  In x s \/ (x <> "" /\ exists row, In row rows /\ cell row = Some x).
Proof.
  revert s. induction rows as [| row rows IH]; intros s; simpl.
  - split; [auto |]. intros [H | (_ & row & [] & _)]. exact H.
  - rewrite IH. unfold addTruthy.
    destruct (truthy (cell row)) eqn:Ht.
    + apply truthy_spec in Ht. destruct Ht as (c & Hc & Hne).
      rewrite Hc. simpl. rewrite Set_add_In. split.
      * intros [[-> | H] | (Hx & r & Hr & Hcell)]; eauto 8.
      * intros [H | (Hx & r & [<- | Hr] & Hcell)]; eauto 8.
        left. left. congruence.
    + split.
      * intros [H | (Hx & r & Hr & Hcell)]; eauto 8.
      * intros [H | (Hx & r & [<- | Hr] & Hcell)]; eauto 8.
        assert (truthy (cell row) = true) by (apply truthy_spec; eauto).
        congruence.
Qed.

Lemma collect_sorted (rows : list Row) :
  let l := sort defaultCompare (collect cell rows []) in
  NoDup l /\ StronglySorted codeUnitLt l /\
  forall x, In x l <-> x <> "" /\ exists row, In row rows /\ cell row = Some x.
Proof.
  intros l.
  assert (Hnd : NoDup l).
  { eapply Permutation_NoDup; [apply Permutation_sym, sort_perm |].
    apply collect_NoDup. constructor. }
  split; [exact Hnd |]. split.
  - apply sorted_NoDup_strict; [exact Hnd |].
    apply sort_sorted; [apply defaultCompare_total | apply defaultCompare_trans].
  - intros x. unfold l. rewrite sort_In, collect_In. simpl. tauto.
Qed.

End Collect.

Lemma scan_supplierSet (rows : list Row) (st : Scan) :
  supplierSet (fold_left scanRow rows st)
  = fold_left (fun s row => addTruthy (SUPPLIER row) s) rows (supplierSet st).
Proof.
  revert st. induction rows as [| row rows IH]; intros st; simpl; [reflexivity |].
  rewrite IH. unfold scanRow. cbv zeta.
  now destruct (negb (isNaN (parseInt (YEAR row)))).
Qed.

Lemma scan_itemSet (rows : list Row) (st : Scan) :
  itemSet (fold_left scanRow rows st)
  = fold_left (fun s row => addTruthy (ITEM_DESCRIPTION row) s) rows (itemSet st).
Proof.
  revert st. induction rows as [| row rows IH]; intros st; simpl; [reflexivity |].
  rewrite IH. unfold scanRow. cbv zeta.
  now destruct (negb (isNaN (parseInt (YEAR row)))).
Qed.

Lemma scanRow_NaN (st : Scan) (row : Row) :
  mathInt (YEAR row) = None ->
  minYear (scanRow st row) = minYear st /\ maxYear (scanRow st row) = maxYear st.
Proof.
  intros H. unfold scanRow. cbv zeta. rewrite (parseInt_NaN _ H). split; reflexivity.
Qed.

Lemma scanRow_year (st : Scan) (row : Row) (y : Z) :
  mathInt (YEAR row) = Some y -> safeInteger y ->
  represents (parseInt (YEAR row)) y
  /\ minYear (scanRow st row) = Math_min (minYear st) (parseInt (YEAR row))
  /\ maxYear (scanRow st row) = Math_max (maxYear st) (parseInt (YEAR row)).
Proof.
  intros Hy Hs. pose proof (parseInt_represents _ _ Hy Hs) as Hr.
  split; [exact Hr |]. unfold scanRow. cbv zeta.
  rewrite (represents_not_NaN _ _ Hr). split; reflexivity.
Qed.

Lemma Math_min_represents (x y : Number) (a b : Z) :
  represents x a -> represents y b -> represents (Math_min x y) (Z.min a b).
Proof.
  intros Hx Hy. unfold Math_min. rewrite (SFcompare_represents x y a b) by assumption.
  destruct (Z.compare_spec a b) as [<- | Hlt | Hgt].
  - rewrite Z.min_id. now destruct x as [[] | | |].
  - now rewrite Z.min_l by lia.
  - now rewrite Z.min_r by lia.
Qed.

Lemma Math_max_represents (x y : Number) (a b : Z) :
  represents x a -> represents y b -> represents (Math_max x y) (Z.max a b).
Proof.
  intros Hx Hy. unfold Math_max. rewrite (SFcompare_represents x y a b) by assumption.
  destruct (Z.compare_spec a b) as [<- | Hlt | Hgt].
  - rewrite Z.max_id. now destruct x as [[] | | |].
  - now rewrite Z.max_r by lia.
  - now rewrite Z.max_l by lia.
Qed.

(** The first year that parses replaces the two infinities. *)
Lemma Math_min_Infinity (x : Number) :
  isNaN x = false -> Math_min Infinity x = x.
Proof. destruct x as [| [] | |]; try reflexivity; discriminate. Qed.

Lemma Math_max_Infinity (x : Number) :
  isNaN x = false -> Math_max (SFopp Infinity) x = x.
Proof. destruct x as [| [] | |]; try reflexivity; discriminate. Qed.

(** The scan from two integers on, when the years that parse are below 2^53
    in magnitude. *)
Lemma scan_years (rows : list Row) (st : Scan) (lo hi : Z) :
  (forall y, In y (parsedYears rows) -> safeInteger y) ->
  represents (minYear st) lo -> represents (maxYear st) hi ->
  exists lo' hi',
    represents (minYear (fold_left scanRow rows st)) lo'
    /\ represents (maxYear (fold_left scanRow rows st)) hi'
    /\ (lo' = lo \/ In lo' (parsedYears rows)) /\ lo' <= lo
    /\ (hi' = hi \/ In hi' (parsedYears rows)) /\ hi <= hi'
    /\ forall y, In y (parsedYears rows) -> lo' <= y <= hi'.
Proof.
  revert st lo hi. induction rows as [| row rows IH]; intros st lo hi Hsafe Hlo Hhi.
  - exists lo, hi. simpl. intuition lia.
  - cbn [fold_left]. cbn [parsedYears flat_map] in *. fold (parsedYears rows) in *.
    destruct (mathInt (YEAR row)) as [y |] eqn:Hy.
    + assert (Sy : safeInteger y) by (apply Hsafe; now left).
      destruct (scanRow_year st row y Hy Sy) as (Hr & Emin & Emax).
      destruct (IH (scanRow st row) (Z.min lo y) (Z.max hi y))
        as (lo' & hi' & Hlo' & Hhi' & Inlo & Lelo & Inhi & Lehi & Hall).
      * intros z Hz. apply Hsafe. now right.
      * rewrite Emin. now apply Math_min_represents.
      * rewrite Emax. now apply Math_max_represents.
      * exists lo', hi'. split; [exact Hlo' |]. split; [exact Hhi' |].
        cbn [app In].
        split.
        { destruct Inlo as [-> | ?]; [| auto].
          destruct (Z.min_spec lo y) as [[_ ->] | [_ ->]]; auto. }
        split; [lia |]. split.
        { destruct Inhi as [-> | ?]; [| auto].
          destruct (Z.max_spec hi y) as [[_ ->] | [_ ->]]; auto. }
        split; [lia |].
        intros z [<- | Hz]; [lia | auto].
    + destruct (scanRow_NaN st row Hy) as [Emin Emax].
      apply IH; [exact Hsafe | now rewrite Emin | now rewrite Emax].
Qed.

(** The scan from the two infinities on. *)
Lemma scan_years_first (rows : list Row) (st : Scan) :
  (forall y, In y (parsedYears rows) -> safeInteger y) ->
  minYear st = Infinity -> maxYear st = SFopp Infinity ->
  (parsedYears rows = []
   /\ minYear (fold_left scanRow rows st) = Infinity
   /\ maxYear (fold_left scanRow rows st) = SFopp Infinity)
  \/ exists lo hi,
       represents (minYear (fold_left scanRow rows st)) lo
       /\ represents (maxYear (fold_left scanRow rows st)) hi
       /\ In lo (parsedYears rows) /\ In hi (parsedYears rows)
       /\ forall y, In y (parsedYears rows) -> lo <= y <= hi.
Proof.
  revert st. induction rows as [| row rows IH]; intros st Hsafe Hmin Hmax.
  - left. simpl. auto.
  - cbn [fold_left]. cbn [parsedYears flat_map] in *. fold (parsedYears rows) in *.
    destruct (mathInt (YEAR row)) as [y |] eqn:Hy.
    + right.
      assert (Sy : safeInteger y) by (apply Hsafe; now left).
      destruct (scanRow_year st row y Hy Sy) as (Hr & Emin & Emax).
      rewrite Hmin, Math_min_Infinity in Emin by (eapply represents_not_NaN; eassumption).
      rewrite Hmax, Math_max_Infinity in Emax by (eapply represents_not_NaN; eassumption).
      destruct (scan_years rows (scanRow st row) y y)
        as (lo' & hi' & Hlo' & Hhi' & Inlo & Lelo & Inhi & Lehi & Hall).
      * intros z Hz. apply Hsafe. now right.
      * now rewrite Emin.
      * now rewrite Emax.
      * exists lo', hi'. cbn [app In].
        split; [exact Hlo' |]. split; [exact Hhi' |].
        split; [destruct Inlo; auto |]. split; [destruct Inhi; auto |].
        intros z [<- | Hz]; [lia | apply Hall, Hz].
    + destruct (scanRow_NaN st row Hy) as [Emin Emax].
      apply IH; [exact Hsafe | congruence | congruence].
Qed.

(** Every Number but [NaN] is its own equal. *)
Lemma SFleb_refl (x : Number) : isNaN x = false -> SFleb x x = true.
Proof.
  intros Hx. apply SFleb_rank.
  destruct x as [s | [] | | [] m e]; try discriminate;
    (eexists; eexists; split; [reflexivity |]; split; [reflexivity |]; cbn; lia).
Qed.

Lemma SFcompare_defined (x y : Number) :
  isNaN x = false -> isNaN y = false -> exists c, SFcompare x y = Some c.
Proof.
  destruct x as [| | |], y as [| | |]; try discriminate; intros _ _; cbn [SFcompare]; eauto.
Qed.

Lemma Math_min_le (x y : Number) :
  isNaN x = false -> isNaN y = false ->
  isNaN (Math_min x y) = false /\ SFleb (Math_min x y) y = true.
Proof.
  intros Hx Hy. destruct (SFcompare_defined x y Hx Hy) as (c & Hc).
  unfold Math_min. rewrite Hc. destruct c.
  - destruct x as [[] | | |]; (split; [assumption |]);
      first [now apply SFleb_refl | unfold SFleb; now rewrite Hc].
  - split; [assumption |]. unfold SFleb. now rewrite Hc.
  - split; [assumption |]. now apply SFleb_refl.
Qed.

Lemma SFcompare_flip (x y : Number) (c : comparison) :
  SFcompare x y = Some c -> SFcompare y x = Some (CompOpp c).
Proof.
  unfold SFcompare.
  destruct x as [| [] | | [] m e], y as [| [] | | [] m' e']; try discriminate;
    intros [= <-]; try reflexivity; f_equal;
    change (Pos.compare_cont Eq m m') with (Pos.compare m m');
    change (Pos.compare_cont Eq m' m) with (Pos.compare m' m);
    rewrite (Z.compare_antisym e e'), (Pos.compare_antisym m m');
    destruct (e ?= e'), (m ?= m')%positive; reflexivity.
Qed.

Lemma Math_max_ge (x y : Number) :
  isNaN x = false -> isNaN y = false ->
  isNaN (Math_max x y) = false /\ SFleb y (Math_max x y) = true.
Proof.
  intros Hx Hy. destruct (SFcompare_defined x y Hx Hy) as (c & Hc).
  pose proof (SFcompare_flip _ _ _ Hc) as Hflip.
  unfold Math_max. rewrite Hc. destruct c; cbn [CompOpp] in Hflip.
  - destruct x as [[] | | |]; (split; [assumption |]);
      first [now apply SFleb_refl | unfold SFleb; now rewrite Hflip].
  - split; [assumption |]. now apply SFleb_refl.
  - split; [assumption |]. unfold SFleb. now rewrite Hflip.
Qed.

(** Whatever the years are, [minYear] and [maxYear] are left at the two
    infinities or in order. *)
Lemma scan_ordered (rows : list Row) (st : Scan) :
  (minYear st = Infinity /\ maxYear st = SFopp Infinity)
  \/ (isNaN (minYear st) = false /\ isNaN (maxYear st) = false
      /\ SFleb (minYear st) (maxYear st) = true) ->
  (minYear (fold_left scanRow rows st) = Infinity
   /\ maxYear (fold_left scanRow rows st) = SFopp Infinity)
  \/ (isNaN (minYear (fold_left scanRow rows st)) = false
      /\ isNaN (maxYear (fold_left scanRow rows st)) = false
      /\ SFleb (minYear (fold_left scanRow rows st))
               (maxYear (fold_left scanRow rows st)) = true).
Proof.
  revert st. induction rows as [| row rows IH]; intros st Hst; [exact Hst |].
  cbn [fold_left]. apply IH. unfold scanRow. cbv zeta.
  destruct (isNaN (parseInt (YEAR row))) eqn:Hnan; cbn [negb minYear maxYear];
    [exact Hst | right].
  destruct Hst as [[-> ->] | (Hmin & Hmax & Hle)].
  - rewrite Math_min_Infinity, Math_max_Infinity by exact Hnan.
    split; [exact Hnan |]. split; [exact Hnan |]. now apply SFleb_refl.
  - destruct (Math_min_le _ _ Hmin Hnan) as [Nmin Lmin].
    destruct (Math_max_ge _ _ Hmax Hnan) as [Nmax Lmax].
    split; [exact Nmin |]. split; [exact Nmax |].
    eapply SFleb_trans; eassumption.
Qed.

Lemma strictEquals_Infinity (x : Number) :
  strictEquals x Infinity = true -> x = Infinity.
Proof. destruct x as [| [] | | [] ? ?]; try discriminate; reflexivity. Qed.

Lemma strictEquals_negInfinity (x : Number) :
  strictEquals x (SFopp Infinity) = true -> x = SFopp Infinity.
Proof. destruct x as [| [] | | [] ? ?]; try discriminate; reflexivity. Qed.

Lemma SFleb_Infinity (y : Number) : SFleb Infinity y = true -> y = Infinity.
Proof. destruct y as [| [] | | [] ? ?]; try discriminate; reflexivity. Qed.

Lemma SFleb_negInfinity (x : Number) :
  SFleb x (SFopp Infinity) = true -> x = SFopp Infinity.
Proof. destruct x as [| [] | | [] ? ?]; try discriminate; reflexivity. Qed.

(** The year bounds are in order, whatever the record set. *)
Lemma yearRange_ordered (rawData : list Row) :
  Number_le (Bounds.min (yearRange (deriveFilterDomain rawData)))
            (Bounds.max (yearRange (deriveFilterDomain rawData))) = true.
Proof.
  unfold deriveFilterDomain.
  destruct rawData as [| row rows]; [vm_compute; reflexivity |].
  cbn [List.length Nat.eqb yearRange Bounds.min Bounds.max].
  pose proof (scan_ordered (row :: rows)
                {| supplierSet := []; itemSet := [];
                   minYear := Infinity; maxYear := SFopp Infinity |}
                (or_introl (conj eq_refl eq_refl))) as H.
  set (st := fold_left scanRow (row :: rows) _) in *.
  destruct H as [[Hmin Hmax] | (Nmin & Nmax & Hle)].
  - rewrite Hmin, Hmax. vm_compute. reflexivity.
  - unfold Number_le.
    destruct (strictEquals (minYear st) Infinity) eqn:Emin,
             (strictEquals (maxYear st) (SFopp Infinity)) eqn:Emax.
    + vm_compute. reflexivity.
    + apply strictEquals_Infinity in Emin. rewrite Emin in Hle.
      apply SFleb_Infinity in Hle. rewrite Hle. vm_compute. reflexivity.
    + apply strictEquals_negInfinity in Emax. rewrite Emax in Hle.
      apply SFleb_negInfinity in Hle. rewrite Hle. vm_compute. reflexivity.
    + exact Hle.
Qed.

(** The year bounds when the years that parse are below 2^53 in magnitude:
    two integers that span them. *)
Lemma yearRange_bounds (rawData : list Row) :
  (forall y, In y (parsedYears rawData) -> safeInteger y) ->
  (parsedYears rawData = []
   /\ yearRange (deriveFilterDomain rawData)
      = {| Bounds.min := ofZ 2020; Bounds.max := ofZ 2024 |})
  \/ exists lo hi,
       represents (Bounds.min (yearRange (deriveFilterDomain rawData))) lo
       /\ represents (Bounds.max (yearRange (deriveFilterDomain rawData))) hi
       /\ In lo (parsedYears rawData) /\ In hi (parsedYears rawData)
       /\ forall y, In y (parsedYears rawData) -> lo <= y <= hi.
Proof.
  intros Hsafe. unfold deriveFilterDomain.
  destruct rawData as [| row rows]; [left; split; reflexivity |].
  cbn [List.length Nat.eqb yearRange Bounds.min Bounds.max].
  pose proof (scan_years_first (row :: rows)
                {| supplierSet := []; itemSet := [];
                   minYear := Infinity; maxYear := SFopp Infinity |}
                Hsafe eq_refl eq_refl) as H.
  set (st := fold_left scanRow (row :: rows) _) in *.
  destruct H as [(Hnil & Hmin & Hmax) | (lo & hi & Hlo & Hhi & Hrest)].
  - left. split; [exact Hnil |]. rewrite Hmin, Hmax. reflexivity.
  - right. exists lo, hi.
    rewrite (proj1 (represents_finite _ _ Hlo)), (proj2 (represents_finite _ _ Hhi)).
    auto.
Qed.

(** C8: the supplier sequence and the item sequence of the filter domain
    have no duplicate, are increasing in the code-unit (lexicographic) order,
    and hold exactly the non-empty values of their column; an empty or
    missing cell never enters them. *)
Theorem deriveFilterDomain_sorted_distinct (rawData : list Row) :
  (NoDup (suppliers (deriveFilterDomain rawData))
   /\ StronglySorted codeUnitLt (suppliers (deriveFilterDomain rawData))
   /\ forall x, In x (suppliers (deriveFilterDomain rawData)) <->
                x <> "" /\ exists row, In row rawData /\ SUPPLIER row = Some x)
  /\
  (NoDup (items (deriveFilterDomain rawData))
   /\ StronglySorted codeUnitLt (items (deriveFilterDomain rawData))
   /\ forall x, In x (items (deriveFilterDomain rawData)) <->
                x <> "" /\ exists row, In row rawData /\ ITEM_DESCRIPTION row = Some x).
Proof.
  unfold deriveFilterDomain.
  destruct rawData as [| row rows].
  - simpl. repeat split; try constructor; try contradiction;
      intros (_ & r & [] & _).
  - cbn [List.length Nat.eqb suppliers items].
    rewrite scan_supplierSet, scan_itemSet.
    split;
      [exact (collect_sorted SUPPLIER (row :: rows))
      | exact (collect_sorted ITEM_DESCRIPTION (row :: rows))].
Qed.

(** The claim C9 as it is stated fails on a year of 310 digits: [parseInt]
    reads it as [Infinity], which the code then takes for the [minYear] that
    no year has touched, so the lower bound is 2020 although a year parses,
    and the upper bound is [Infinity]. *)
Lemma yearRange_infinite_year :
  parsedYears hugeYear = [10 ^ 310 - 1]
  /\ map (fun row => parseInt (YEAR row)) hugeYear = [Infinity]
  /\ yearRange (deriveFilterDomain hugeYear)
     = {| Bounds.min := ofZ 2020; Bounds.max := Infinity |}
  /\ strictEquals (ofZ 2020) Infinity = false.
Proof. vm_compute. repeat split. Qed.

(** C9, amended: the year bound of the filter domain always has
    [min <= max]; when some year parses and the years that parse are below
    2^53 in magnitude, the bound is the least and the greatest of the parsed
    years; when none parses (the empty record set included) it is the fixed
    window 2020 to 2024. *)
Theorem yearRange_spec (rawData : list Row) :
  Number_le (Bounds.min (yearRange (deriveFilterDomain rawData)))
            (Bounds.max (yearRange (deriveFilterDomain rawData))) = true
  /\ ((forall y, In y (parsedYears rawData) -> safeInteger y) ->
      parsedYears rawData <> [] ->
      exists lo hi,
        represents (Bounds.min (yearRange (deriveFilterDomain rawData))) lo
        /\ represents (Bounds.max (yearRange (deriveFilterDomain rawData))) hi
        /\ In lo (parsedYears rawData) /\ In hi (parsedYears rawData)
        /\ forall y, In y (parsedYears rawData) -> lo <= y <= hi)
  /\ (parsedYears rawData = [] ->
      yearRange (deriveFilterDomain rawData)
      = {| Bounds.min := ofZ 2020; Bounds.max := ofZ 2024 |}).
Proof.
  split; [apply yearRange_ordered |]. split.
  - intros Hsafe Hne.
    destruct (yearRange_bounds rawData Hsafe) as [[Hnil _] | H]; [contradiction | exact H].
  - intros Hnil.
    destruct (yearRange_bounds rawData) as [[_ H] | (lo & _ & _ & _ & Hin & _)].
    + rewrite Hnil. contradiction.
    + exact H.
    + rewrite Hnil in Hin. contradiction.
Qed.

(** Three records, of which the second has no year that parses: the bounds
    are 2017 and 2019; and a record set in which no year parses. *)
Lemma yearRange_spec_witness :
  (exists lo hi,
      represents (Bounds.min (yearRange (deriveFilterDomain
        [sale "Acme" "2019" "1" "1" "0" "0"; sale "Acme" "N/A" "1" "1" "0" "0";
         sale "Beta" "2017" "3" "1" "0" "0"]))) lo
      /\ represents (Bounds.max (yearRange (deriveFilterDomain
        [sale "Acme" "2019" "1" "1" "0" "0"; sale "Acme" "N/A" "1" "1" "0" "0";
         sale "Beta" "2017" "3" "1" "0" "0"]))) hi
      /\ In lo [2019; 2017] /\ In hi [2019; 2017]
      /\ forall y, In y [2019; 2017] -> lo <= y <= hi)
  /\ yearRange (deriveFilterDomain [sale "Acme" "N/A" "1" "1" "0" "0"])
     = {| Bounds.min := ofZ 2020; Bounds.max := ofZ 2024 |}.
Proof.
  split.
  - apply (yearRange_spec
             [sale "Acme" "2019" "1" "1" "0" "0"; sale "Acme" "N/A" "1" "1" "0" "0";
              sale "Beta" "2017" "3" "1" "0" "0"]).
    + simpl. unfold safeInteger. intros y [<- | [<- | []]]; lia.
    + discriminate.
  - apply (yearRange_spec [sale "Acme" "N/A" "1" "1" "0" "0"]). reflexivity.
Defined.

(** ** Plain objects *)

Section Object.

Context {V : Type}.
Implicit Types (o : list (string * V)) (k : string) (v : V).

Lemma get_set_same k v o : get k (set k v o) = Some v.
Proof.
  induction o as [| [k' w] o IH]; simpl.
  - now rewrite String.eqb_refl.
  - destruct (String.eqb_spec k' k) as [-> | Hne]; simpl.
    + now rewrite String.eqb_refl.
    + destruct (String.eqb_spec k' k); [contradiction | exact IH].
Qed.

Lemma get_set_other k k' v o : k <> k' -> get k (set k' v o) = get k o.
Proof.
  intros Hne. induction o as [| [k0 w] o IH]; simpl.
  - destruct (String.eqb_spec k' k); [congruence | reflexivity].
  - destruct (String.eqb_spec k0 k') as [-> | Hne']; simpl.
    + destruct (String.eqb_spec k' k); [congruence | reflexivity].
    + destruct (String.eqb_spec k0 k); [reflexivity | exact IH].
Qed.

Lemma get_In k v o : get k o = Some v -> In (k, v) o.
Proof.
  induction o as [| [k' w] o IH]; simpl; [discriminate |].
  destruct (String.eqb_spec k' k) as [-> | Hne].
  - intros [= ->]. now left.
  - intros H. right. auto.
Qed.

Lemma get_None k o : get k o = None -> ~ In k (map fst o).
Proof.
  induction o as [| [k' w] o IH]; simpl; [tauto |].
  destruct (String.eqb_spec k' k) as [-> | Hne]; [discriminate |].
  intros H [? | ?]; [contradiction | now apply IH].
Qed.

Lemma In_get k v o : NoDup (map fst o) -> In (k, v) o -> get k o = Some v.
Proof.
  induction o as [| [k' w] o IH]; simpl; [contradiction |].
  intros Hnd [[= -> ->] | Hin].
  - now rewrite String.eqb_refl.
  - inversion Hnd as [| ? ? Hnin Hnd']; subst.
    destruct (String.eqb_spec k' k) as [-> | Hne]; [| auto].
    exfalso. apply Hnin. now apply (in_map fst) in Hin.
Qed.

Lemma set_keys k v o :
  map fst (set k v o)
  = match get k o with Some _ => map fst o | None => (map fst o ++ [k])%list end.
Proof.
  induction o as [| [k' w] o IH]; simpl; [reflexivity |].
  destruct (String.eqb_spec k' k) as [-> | Hne]; simpl; [reflexivity |].
  rewrite IH. now destruct (get k o).
Qed.

Lemma set_keys_NoDup k v o : NoDup (map fst o) -> NoDup (map fst (set k v o)).
Proof.
  intros Hnd. rewrite set_keys. destruct (get k o) eqn:Hget; [exact Hnd |].
  apply NoDup_app; [exact Hnd | repeat constructor; intros [] |].
  intros k' Hk' [<- | []]. now apply get_None in Hget.
Qed.

Lemma In_set k v k' v' o :
  In (k', v') (set k v o) -> (k' = k /\ v' = v) \/ In (k', v') o.
Proof.
  induction o as [| [k0 w] o IH]; simpl.
  - intros [[= <- <-] | []]. now left.
  - destruct (String.eqb_spec k0 k) as [-> | Hne]; simpl.
    + intros [[= <- <-] | H]; auto.
    + intros [H | H]; [auto |]. destruct (IH H); auto.
Qed.

End Object.

(** ** Grouping by month *)

Lemma accumulate_month (rows : list Row) (d : MonthlyAggregate) :
  month (accumulate rows d) = month d.
Proof.
  revert d. induction rows as [| row rows IH]; intros d; simpl; [reflexivity |].
  unfold accumulate in IH. now rewrite IH.
Qed.

Lemma accumulate_retailSales (rows : list Row) (d : MonthlyAggregate) :
  retailSales (accumulate rows d)
  = fold_left (fun sum row => add sum (contribution (RETAIL_SALES row))) rows (retailSales d).
Proof.
  revert d. induction rows as [| row rows IH]; intros d; simpl; [reflexivity |].
  unfold accumulate in IH. now rewrite IH.
Qed.

Lemma accumulate_warehouseSales (rows : list Row) (d : MonthlyAggregate) :
  warehouseSales (accumulate rows d)
  = fold_left (fun sum row => add sum (contribution (WAREHOUSE_SALES row))) rows
      (warehouseSales d).
Proof.
  revert d. induction rows as [| row rows IH]; intros d; simpl; [reflexivity |].
  unfold accumulate in IH. now rewrite IH.
Qed.

Lemma accumulate_retailTransfers (rows : list Row) (d : MonthlyAggregate) :
  retailTransfers (accumulate rows d)
  = fold_left (fun sum row => add sum (contribution (RETAIL_TRANSFERS row))) rows
      (retailTransfers d).
Proof.
  revert d. induction rows as [| row rows IH]; intros d; simpl; [reflexivity |].
  unfold accumulate in IH. now rewrite IH.
Qed.

Lemma groupRow_set (o : list (string * MonthlyAggregate)) (row : Row) :
  groupRow o row
  = set (rowKey row) (addRow row (orEmpty (rowKey row) (get (rowKey row) o))) o.
Proof. unfold groupRow. now destruct (get (rowKey row) o). Qed.

(** Every key has a hyphen, which no property inherited by [{}] and no array
    index has. *)
Lemma rowKey_hyphen (row : Row) : occursIn "-" (rowKey row).
Proof.
  exists (ToString (YEAR row)), (padStart 2 "0" (ToString (MONTH row))).
  reflexivity.
Qed.

(** What [monthlyData] holds under a key once the loop has run. *)
Lemma get_grouped (key : string) (rows : list Row) (o : list (string * MonthlyAggregate)) :
  get key (fold_left groupRow rows o)
  = match withKey key rows with
    | [] => get key o
    | _ :: _ => Some (accumulate (withKey key rows) (orEmpty key (get key o)))
    end.
Proof.
  revert o. induction rows as [| row rows IH]; intros o; [reflexivity |].
  cbn [fold_left]. rewrite IH, groupRow_set. unfold withKey. cbn [filter].
  fold (withKey key rows).
  destruct (String.eqb_spec (rowKey row) key) as [<- | Hne].
  - rewrite get_set_same. now destruct (withKey (rowKey row) rows).
  - rewrite get_set_other by congruence. reflexivity.
Qed.

Lemma grouped_keys_NoDup (rows : list Row) (o : list (string * MonthlyAggregate)) :
  NoDup (map fst o) -> NoDup (map fst (fold_left groupRow rows o)).
Proof.
  revert o. induction rows as [| row rows IH]; intros o Hnd; [exact Hnd |].
  cbn [fold_left]. apply IH. rewrite groupRow_set. now apply set_keys_NoDup.
Qed.

(** Every aggregate of [monthlyData] is the accumulation, from the empty
    aggregate, of the rows that carry its key, and there is such a row. *)
Lemma grouped_In (rows : list Row) (key : string) (d : MonthlyAggregate) :
  In (key, d) (fold_left groupRow rows []) ->
  withKey key rows <> [] /\ d = accumulate (withKey key rows) (emptyAggregate key).
Proof.
  intros Hin.
  apply In_get in Hin; [| apply grouped_keys_NoDup; constructor].
  rewrite get_grouped in Hin. simpl in Hin.
  destruct (withKey key rows); [discriminate |].
  split; [discriminate | congruence].
Qed.

Lemma grouped_month (rows : list Row) :
  map month (Object_values (fold_left groupRow rows []))
  = map fst (fold_left groupRow rows []).
Proof.
  unfold Object_values. rewrite map_map. apply map_ext_in.
  intros [key d] Hin. apply grouped_In in Hin. destruct Hin as [_ ->].
  simpl. now rewrite accumulate_month.
Qed.

Lemma grouped_has_key (rows : list Row) (row : Row) :
  In row rows ->
  exists d, In d (Object_values (fold_left groupRow rows [])) /\ month d = rowKey row.
Proof.
  intros Hin.
  assert (Hk : In row (withKey (rowKey row) rows)).
  { apply filter_In. split; [exact Hin | apply String.eqb_refl]. }
  pose proof (get_grouped (rowKey row) rows []) as Hget.
  destruct (withKey (rowKey row) rows) as [| r rs] eqn:E; [contradiction |].
  apply get_In in Hget.
  eexists. split.
  - unfold Object_values. apply in_map_iff. eexists. split; [| exact Hget]. reflexivity.
  - simpl. now rewrite accumulate_month.
Qed.

(** ** The filter and the guard of [chartData] *)

(** A row whose year or month does not parse is left out. *)
Lemma keepRow_NaN (ft : FilterType) (v : string) (s e : Date.t) (row : Row) :
  mathInt (YEAR row) = None \/ mathInt (MONTH row) = None ->
  keepRow ft v s e row = false.
Proof.
  intros H. unfold keepRow. destruct (negb _); [reflexivity |]. cbv zeta.
  rewrite (rowDate_NaN row H). apply andb_false_r.
Qed.

(** The filter on the integers read, when nothing is rounded. *)
Lemma keepRow_spec (ft : FilterType) (v : string) (s e : Date.t) (row : Row) :
  safeCursor s -> safeCursor e -> safeRow row ->
  (keepRow ft v s e row = true <->
   filterField ft row = Some v /\
   exists y m, mathInt (YEAR row) = Some y /\ mathInt (MONTH row) = Some m /\
     Date.year s * 12 + Date.month s <= y * 12 + m <= Date.year e * 12 + Date.month e).
Proof.
  intros Hs He Hrow.
  destruct (mathInt (YEAR row)) as [y |] eqn:Hy;
    [destruct (mathInt (MONTH row)) as [m |] eqn:Hm |].
  - pose proof (rowDate_represents row y m Hy Hm (safeRow_exactKey _ _ _ Hrow Hy Hm)) as Hr.
    unfold keepRow, selected.
    destruct (filterField ft row) as [c |]; cbn [negb].
    2: { split; [discriminate | intros ([=] & _)]. }
    destruct (String.eqb_spec c v) as [-> | Hne]; cbn [negb].
    2: { split; [discriminate | intros ([= ?] & _); contradiction]. }
    cbv zeta.
    rewrite (Number_ge_represents _ _ _ _ Hr (cursor_represents s Hs)),
      (Number_le_represents _ _ _ _ Hr (cursor_represents e He)).
    rewrite andb_true_iff, !Z.leb_le. split.
    + intros [H1 H2]. split; [reflexivity |]. exists y, m. repeat split; assumption.
    + intros (_ & y' & m' & [= <-] & [= <-] & H). exact H.
  - rewrite keepRow_NaN by (now right).
    split; [discriminate | intros (_ & ? & ? & _ & [=] & _)].
  - rewrite keepRow_NaN by (now left).
    split; [discriminate | intros (_ & ? & ? & [=] & _)].
Qed.

(** A row is kept only under a valid range. *)
Lemma keepRow_valid (ft : FilterType) (v : string) (s e : Date.t) (row : Row) :
  keepRow ft v s e row = true -> isValidDateRange s e = true.
Proof.
  unfold keepRow, isValidDateRange, Number_ge, Number_le.
  destruct (negb _); [discriminate |]. cbv zeta.
  rewrite andb_true_iff. intros [H1 H2]. eapply SFleb_trans; eassumption.
Qed.

Lemma filtered_invalid (rawData : list Row) (v : string) (ft : FilterType) (s e : Date.t) :
  isValidDateRange s e = false -> filtered rawData v ft s e = [].
Proof.
  intros Hinv.
  destruct (filtered rawData v ft s e) as [| row rows] eqn:E; [reflexivity |].
  assert (Hin : In row (filtered rawData v ft s e)) by (rewrite E; now left).
  apply filter_In in Hin. destruct Hin as [_ Hkeep].
  apply keepRow_valid in Hkeep. congruence.
Qed.

Section Chart.

Variable localeCompare : string -> string -> Z.

Lemma chartData_empty_selection (rawData : list Row) (ft : FilterType) (s e : Date.t) :
  chartData localeCompare rawData "" ft s e = [].
Proof. reflexivity. Qed.

(** Past the test of [selectedValue] the two other tests of the guard do
    not change the result: the pipeline returns the empty array on its own
    for an empty record set and for an invalid range. *)
Lemma chartData_selected (rawData : list Row) (v : string) (ft : FilterType)
    (s e : Date.t) :
  v <> "" ->
  chartData localeCompare rawData v ft s e
  = map roundAggregate
      (sort (byMonth localeCompare) (Object_values (monthlyData rawData v ft s e))).
Proof.
  intros Hv. unfold chartData.
  destruct (String.eqb_spec v "") as [? | _]; [contradiction |]. simpl.
  destruct rawData as [| row rows]; [reflexivity |]. simpl.
  destruct (isValidDateRange s e) eqn:Hvalid; [reflexivity |]. simpl.
  unfold monthlyData. now rewrite filtered_invalid.
Qed.

Lemma chartData_In (rawData : list Row) (v : string) (ft : FilterType)
    (s e : Date.t) (d : MonthlyAggregate) :
  In d (chartData localeCompare rawData v ft s e) <->
  v <> "" /\
  exists d0, In (month d0, d0) (monthlyData rawData v ft s e) /\ d = roundAggregate d0.
Proof.
  destruct (String.eqb_spec v "") as [-> | Hv].
  - rewrite chartData_empty_selection. simpl. tauto.
  - rewrite chartData_selected by exact Hv.
    rewrite in_map_iff. split.
    + intros (d0 & <- & Hin). split; [exact Hv |]. exists d0.
      split; [| reflexivity].
      apply sort_In in Hin. unfold Object_values in Hin.
      apply in_map_iff in Hin. destruct Hin as ([k d1] & <- & Hin). simpl.
      pose proof (grouped_In _ _ _ Hin) as [_ Hd1].
      replace (month d1) with k; [exact Hin |].
      rewrite Hd1, accumulate_month. reflexivity.
    + intros (_ & d0 & Hin & ->). exists d0. split; [reflexivity |].
      apply sort_In. unfold Object_values. apply in_map_iff.
      exists (month d0, d0). split; [reflexivity | exact Hin].
Qed.

(** An aggregate of the chart is the rounded accumulation of the kept rows
    that carry its key, of which there is at least one. *)
Lemma chartData_aggregate (rawData : list Row) (v : string) (ft : FilterType)
    (s e : Date.t) (d : MonthlyAggregate) :
  In d (chartData localeCompare rawData v ft s e) ->
  withKey (month d) (filtered rawData v ft s e) <> [] /\
  d = roundAggregate
        (accumulate (withKey (month d) (filtered rawData v ft s e))
           (emptyAggregate (month d))).
Proof.
  intros Hin. apply chartData_In in Hin. destruct Hin as (_ & d0 & Hin & ->).
  apply grouped_In in Hin. simpl. destruct Hin as [Hne Hd0].
  split; [exact Hne | now rewrite <- Hd0].
Qed.

Lemma chartData_has_key (rawData : list Row) (v : string) (ft : FilterType)
    (s e : Date.t) (row : Row) :
  v <> "" ->
  In row (filtered rawData v ft s e) ->
  exists d, In d (chartData localeCompare rawData v ft s e) /\ month d = rowKey row.
Proof.
  intros Hv Hin. rewrite chartData_selected by exact Hv.
  destruct (grouped_has_key _ _ Hin) as (d0 & Hd0 & Hkey).
  exists (roundAggregate d0). split; [| exact Hkey].
  apply in_map, sort_In, Hd0.
Qed.

Lemma chartData_months (rawData : list Row) (v : string) (ft : FilterType)
    (s e : Date.t) :
  Permutation (map month (chartData localeCompare rawData v ft s e))
    (map fst (monthlyData rawData v ft s e)) \/
  chartData localeCompare rawData v ft s e = [].
Proof.
  destruct (String.eqb_spec v "") as [-> | Hv]; [now right | left].
  rewrite chartData_selected by exact Hv.
  rewrite map_map. cbn [roundAggregate month].
  unfold monthlyData. rewrite <- grouped_month.
  apply Permutation_map, sort_perm.
Qed.

End Chart.

(** ** The pipeline on the example of the specification *)

(** C1: on the two Acme records of January 2019 (retail sales 10 and 2.5,
    warehouse sales 5 and 0, retail transfers 0 and 1), with the supplier
    Acme selected and the range January 2019 to December 2019, the pipeline
    returns the single aggregate of month 2019-01 with retail sales 12.5,
    warehouse sales 5 and retail transfers 1, whatever the collation
    (12.5 is 25 * 2^-1). *)
Theorem chartData_acme (localeCompare : string -> string -> Z) :
  chartData localeCompare acmeJanuary "Acme" supplier (cursor 2019 1) (cursor 2019 12)
  = [ {| month := "2019-01";
         retailSales := dyadic 25 (-1);
         warehouseSales := ofZ 5;
         retailTransfers := ofZ 1 |} ].
Proof. vm_compute. reflexivity. Qed.

(** ** The guard *)

(** C5: with an empty selected value, or an empty record set, or an invalid
    range, the pipeline returns the empty sequence; the function is total, so
    nothing is raised. *)
Theorem chartData_guard (localeCompare : string -> string -> Z) (rawData : list Row)
    (selectedValue : string) (filterType : FilterType) (startDate endDate : Date.t) :
  selectedValue = "" \/ rawData = [] \/ isValidDateRange startDate endDate = false ->
  chartData localeCompare rawData selectedValue filterType startDate endDate = [].
Proof.
  intros [-> | [-> | Hinv]]; unfold chartData.
  - reflexivity.
  - simpl. now rewrite orb_true_r.
  - rewrite Hinv. simpl. now rewrite orb_true_r.
Qed.

(** An empty selected value with a non-empty record set, on an invalid and on
    a valid range. *)
Lemma chartData_guard_witness :
  chartData defaultCompare acmeJanuary "" supplier (cursor 2020 1) (cursor 2019 1) = []
  /\ chartData defaultCompare acmeJanuary "" supplier (cursor 2019 1) (cursor 2019 12) = []
  /\ chartData defaultCompare acmeJanuary "Acme" supplier (cursor 2020 1) (cursor 2019 1) = [].
Proof.
  split; [| split].
  - apply chartData_guard. left. reflexivity.
  - apply chartData_guard. left. reflexivity.
  - apply chartData_guard. right. right. reflexivity.
Defined.

(** ** The range filter *)

(** The claim C2 as it is stated fails past 2^53: under the range from
    April to April of the year 750599937895083, a valid one, the code keeps
    the record of March of that year, whose linear key it rounds to the key
    of April. *)
Lemma range_filter_inexact :
  isValidDateRange (cursor farYear 4) (cursor farYear 4) = true
  /\ filtered farMarch "Acme" supplier (cursor farYear 4) (cursor farYear 4) = farMarch
  /\ map (fun row => (mathInt (YEAR row), mathInt (MONTH row))) farMarch
     = [(Some farYear, Some 3)]
  /\ ~ (farYear * 12 + 4 <= farYear * 12 + 3 <= farYear * 12 + 4).
Proof.
  split; [vm_compute; reflexivity |]. split; [vm_compute; reflexivity |].
  split; [vm_compute; reflexivity |]. unfold farYear. lia.
Qed.

(** C2, amended: when the years, the months and the linear keys of the two
    cursors and of the records are below 2^53 in magnitude, a record is kept
    by the filter exactly when it is a record of the set whose selected
    field is the selected value and whose year and month parse to a linear
    key between the keys of the two cursors, both ends included, and every
    aggregate of the output carries the key of a kept record, so of a record
    within the range; whatever the magnitudes, a record whose year or month
    does not parse is left out. *)
Theorem filtered_in_range (localeCompare : string -> string -> Z) (rawData : list Row)
    (selectedValue : string) (filterType : FilterType) (startDate endDate : Date.t) :
  (safeCursor startDate -> safeCursor endDate ->
   (forall row, In row rawData -> safeRow row) ->
   (forall row,
       In row (filtered rawData selectedValue filterType startDate endDate) <->
       In row rawData /\ filterField filterType row = Some selectedValue /\
       exists y m, mathInt (YEAR row) = Some y /\ mathInt (MONTH row) = Some m /\
         Date.year startDate * 12 + Date.month startDate <= y * 12 + m
         <= Date.year endDate * 12 + Date.month endDate)
   /\ (forall d,
       In d (chartData localeCompare rawData selectedValue filterType startDate endDate) ->
       exists row y m,
         In row rawData /\ rowKey row = month d /\
         mathInt (YEAR row) = Some y /\ mathInt (MONTH row) = Some m /\
         Date.year startDate * 12 + Date.month startDate <= y * 12 + m
         <= Date.year endDate * 12 + Date.month endDate))
  /\ (forall row,
      mathInt (YEAR row) = None \/ mathInt (MONTH row) = None ->
      ~ In row (filtered rawData selectedValue filterType startDate endDate)).
Proof.
  split.
  - intros Hs He Hrows.
    assert (Hfiltered : forall row,
        In row (filtered rawData selectedValue filterType startDate endDate) <->
        In row rawData /\ filterField filterType row = Some selectedValue /\
        exists y m, mathInt (YEAR row) = Some y /\ mathInt (MONTH row) = Some m /\
          Date.year startDate * 12 + Date.month startDate <= y * 12 + m
          <= Date.year endDate * 12 + Date.month endDate).
    { intros row. unfold filtered. rewrite filter_In. split.
      - intros [Hin Hkeep]. split; [exact Hin |].
        now apply (keepRow_spec filterType selectedValue startDate endDate row Hs He
                     (Hrows row Hin)).
      - intros (Hin & Hrest). split; [exact Hin |].
        now apply (keepRow_spec filterType selectedValue startDate endDate row Hs He
                     (Hrows row Hin)). }
    split; [exact Hfiltered |].
    intros d Hd. apply chartData_aggregate in Hd. destruct Hd as [Hne _].
    destruct (withKey (month d)
                (filtered rawData selectedValue filterType startDate endDate))
      as [| row rows] eqn:E; [contradiction |].
    assert (Hrow : In row (withKey (month d)
                (filtered rawData selectedValue filterType startDate endDate)))
      by (rewrite E; now left).
    apply filter_In in Hrow. destruct Hrow as [Hin Hkey].
    apply String.eqb_eq in Hkey.
    apply Hfiltered in Hin. destruct Hin as (Hraw & _ & y & m & Hy & Hm & Hrange).
    exists row, y, m. auto.
  - intros row Hnone Hin. apply filter_In in Hin. destruct Hin as [_ Hkeep].
    rewrite keepRow_NaN in Hkeep by exact Hnone. discriminate.
Qed.

(** On the two records of the example, kept within 2019, and a record
    without a year left out. *)
Lemma filtered_in_range_witness :
  (exists y m,
      mathInt (Some "2019") = Some y /\ mathInt (Some "1") = Some m /\
      2019 * 12 + 1 <= y * 12 + m <= 2019 * 12 + 12)
  /\ ~ In (sale "Acme" "N/A" "1" "10" "5" "0")
         (filtered [sale "Acme" "N/A" "1" "10" "5" "0"] "Acme" supplier
            (cursor 2019 1) (cursor 2019 12)).
Proof.
  assert (H1 : safeCursor (cursor 2019 1))
    by magnitudes.
  assert (H12 : safeCursor (cursor 2019 12))
    by magnitudes.
  assert (Hrows : forall row, In row acmeJanuary -> safeRow row).
  { intros row [<- | [<- | []]]; magnitudes. }
  destruct (filtered_in_range defaultCompare acmeJanuary "Acme" supplier
              (cursor 2019 1) (cursor 2019 12)) as [Hsafe _].
  destruct (Hsafe H1 H12 Hrows) as [Hkept _].
  destruct (filtered_in_range defaultCompare [sale "Acme" "N/A" "1" "10" "5" "0"]
              "Acme" supplier (cursor 2019 1) (cursor 2019 12)) as [_ Hout].
  split.
  - apply (proj1 (Hkept (sale "Acme" "2019" "1" "10" "5" "0"))). vm_compute. now left.
  - apply Hout. left. reflexivity.
Defined.

(** ** The sums *)

Lemma contribution_NaN (cell : option string) :
  parseFloat cell = S754_nan -> contribution cell = zero.
Proof. unfold contribution. now intros ->. Qed.

(** [Math.round] of a Number that is not an integer is the Number of the
    nearest integer, a tie going up; of the nearest integer there is one. *)
Lemma Math_round_nearest (s : bool) (m : positive) (e : Z) (n : Z) :
  e < 0 -> nearestHalfUp s m e n ->
  Math_round (S754_finite s m e) = if n =? 0 then S754_zero s else ofZ n.
Proof.
  intros He. unfold nearestHalfUp, Math_round. cbv zeta.
  rewrite Z.max_r, Z.max_l by lia. rewrite Z.mul_1_r.
  replace (0 <=? e) with false by (symmetry; apply Z.leb_gt; exact He).
  set (v := if s then Zneg m else Zpos m).
  assert (Hd : 0 < 2 ^ (- e)) by (apply Z.pow_pos_nonneg; lia).
  set (d := 2 ^ (- e)) in *. intros H.
  replace ((2 * v + d) / (2 * d)) with n; [reflexivity |].
  apply (Z.div_unique_pos _ _ _ (2 * v + d - 2 * d * n)); lia.
Qed.

Lemma nearestHalfUp_exists (s : bool) (m : positive) (e : Z) :
  exists n, nearestHalfUp s m e n.
Proof.
  unfold nearestHalfUp. cbv zeta.
  set (v := if s then Zneg m else Zpos m).
  assert (Hd : 0 < 2 ^ Z.max 0 (- e)) by (apply Z.pow_pos_nonneg; lia).
  set (d := 2 ^ Z.max 0 (- e)) in *. set (k := 2 * v * 2 ^ Z.max 0 e).
  exists ((k + d) / (2 * d)).
  pose proof (Z.div_mod (k + d) (2 * d) ltac:(lia)) as Hdiv.
  pose proof (Z.mod_pos_bound (k + d) (2 * d) ltac:(lia)) as Hmod.
  lia.
Qed.

(** The claim C3 as it is stated fails on a sale of 0.004: the month's
    aggregate is rounded to 0, the record contributes 0.004. *)
Lemma sum_consistency_fails :
  sumOf retailSales
    (chartData defaultCompare belowHalfCent "Acme" supplier (cursor 2019 1) (cursor 2019 12))
  <> sumOf (fun row => contribution (RETAIL_SALES row))
       (filtered belowHalfCent "Acme" supplier (cursor 2019 1) (cursor 2019 12)).
Proof. vm_compute. discriminate. Qed.

(** The two sides of the failing equation: 0 against the Number of 0.004,
    which are not equal as Numbers either. *)
Example sum_consistency_sides :
  sumOf retailSales
    (chartData defaultCompare belowHalfCent "Acme" supplier (cursor 2019 1) (cursor 2019 12))
  = zero
  /\ sumOf (fun row => contribution (RETAIL_SALES row))
       (filtered belowHalfCent "Acme" supplier (cursor 2019 1) (cursor 2019 12))
     = parseFloat (Some "0.004")
  /\ SFeqb zero (parseFloat (Some "0.004")) = false.
Proof. vm_compute. auto. Qed.

(** Cells with two decimals do not save the equation: 0.1 and 0.2 in one
    month add up to 0.30000000000000004, which the output rounds to 0.3. *)
Example sum_consistency_cents :
  sumOf retailSales
    (chartData defaultCompare
       [sale "Acme" "2019" "1" "0.1" "0" "0"; sale "Acme" "2019" "1" "0.2" "0" "0"]
       "Acme" supplier (cursor 2019 1) (cursor 2019 12))
  = parseFloat (Some "0.3")
  /\ sumOf (fun row => contribution (RETAIL_SALES row))
       (filtered
          [sale "Acme" "2019" "1" "0.1" "0" "0"; sale "Acme" "2019" "1" "0.2" "0" "0"]
          "Acme" supplier (cursor 2019 1) (cursor 2019 12))
     = parseFloat (Some "0.30000000000000004")
  /\ SFeqb (parseFloat (Some "0.3")) (parseFloat (Some "0.30000000000000004")) = false.
Proof. vm_compute. auto. Qed.

(** Nor is the rounding the only obstacle: the months are summed apart and
    the sum of Numbers depends on the order.  Of the sales 1e20 and -1e20 in
    January around a sale of 1 in February, the records add up to 0 and the
    aggregates, which the rounding leaves as they are, to 1. *)
Example sum_consistency_order :
  sumOf retailSales
    (chartData defaultCompare cancelling "Acme" supplier (cursor 2019 1) (cursor 2019 12))
  = ofZ 1
  /\ sumOf (fun row => contribution (RETAIL_SALES row))
       (filtered cancelling "Acme" supplier (cursor 2019 1) (cursor 2019 12))
     = zero
  /\ map retailSales
       (chartData defaultCompare cancelling "Acme" supplier (cursor 2019 1) (cursor 2019 12))
     = map (fun key =>
              sumOf (fun row => contribution (RETAIL_SALES row))
                (withKey key
                   (filtered cancelling "Acme" supplier (cursor 2019 1) (cursor 2019 12))))
         ["2019-01"; "2019-02"].
Proof. vm_compute. auto. Qed.

(** C3, amended: each measure of each aggregate of the output is
    [Math.round (100 * sum) / 100] in binary64 arithmetic, where [sum] is the
    sum of that measure over the records kept by both filters that carry the
    aggregate's key, taken in the order of the record set from 0, a cell
    that does not parse contributing 0; [Math.round] of a Number that is not
    an integer is the nearest integer, the greater one in a tie, and leaves
    an integer as it is; and every kept record has the aggregate of its key
    in the output, whatever its measure cells hold. *)
Theorem chartData_measures (localeCompare : string -> string -> Z) (rawData : list Row)
    (selectedValue : string) (filterType : FilterType) (startDate endDate : Date.t) :
  (forall d,
      In d (chartData localeCompare rawData selectedValue filterType startDate endDate) ->
      retailSales d
      = div (Math_round
               (mul (sumOf (fun row => contribution (RETAIL_SALES row))
                       (withKey (month d)
                          (filtered rawData selectedValue filterType startDate endDate)))
                    (ofZ 100)))
            (ofZ 100)
      /\ warehouseSales d
         = div (Math_round
                  (mul (sumOf (fun row => contribution (WAREHOUSE_SALES row))
                          (withKey (month d)
                             (filtered rawData selectedValue filterType startDate endDate)))
                       (ofZ 100)))
               (ofZ 100)
      /\ retailTransfers d
         = div (Math_round
                  (mul (sumOf (fun row => contribution (RETAIL_TRANSFERS row))
                          (withKey (month d)
                             (filtered rawData selectedValue filterType startDate endDate)))
                       (ofZ 100)))
               (ofZ 100))
  /\ (forall s m e,
      (exists n, nearestHalfUp s m e n)
      /\ (forall n, e < 0 -> nearestHalfUp s m e n ->
          Math_round (S754_finite s m e) = if n =? 0 then S754_zero s else ofZ n)
      /\ (0 <= e -> Math_round (S754_finite s m e) = S754_finite s m e))
  /\ (forall cell, parseFloat cell = S754_nan -> contribution cell = zero)
  /\ (selectedValue <> "" ->
      forall row,
        In row (filtered rawData selectedValue filterType startDate endDate) ->
        exists d,
          In d (chartData localeCompare rawData selectedValue filterType startDate endDate)
          /\ month d = rowKey row).
Proof.
  split; [| split; [| split]].
  - intros d Hd. apply chartData_aggregate in Hd. destruct Hd as [_ Hd].
    set (rows := withKey (month d)
                   (filtered rawData selectedValue filterType startDate endDate)) in *.
    pose proof (f_equal retailSales Hd) as Hretail.
    pose proof (f_equal warehouseSales Hd) as Hwarehouse.
    pose proof (f_equal retailTransfers Hd) as Htransfers.
    cbn [roundAggregate retailSales warehouseSales retailTransfers] in *.
    rewrite accumulate_retailSales in Hretail.
    rewrite accumulate_warehouseSales in Hwarehouse.
    rewrite accumulate_retailTransfers in Htransfers.
    repeat split; assumption.
  - intros s m e. split; [apply nearestHalfUp_exists |]. split.
    + intros n He Hn. now apply Math_round_nearest.
    + intros He. unfold Math_round.
      now replace (0 <=? e) with true by (symmetry; apply Z.leb_le; exact He).
  - exact contribution_NaN.
  - intros Hv row Hrow. now apply chartData_has_key.
Qed.

(** A record whose retail sales read N/A: its month is in the output, with
    retail sales 0 and warehouse sales 5; and [Math.round] of 2.5, which is
    5 * 2^50 * 2^-51 and lies halfway between 2 and 3, is 3. *)
Lemma chartData_measures_witness :
  (exists d,
      In d (chartData defaultCompare [sale "Acme" "2019" "1" "N/A" "5" "0"] "Acme" supplier
              (cursor 2019 1) (cursor 2019 12))
      /\ month d = "2019-01" /\ retailSales d = zero /\ warehouseSales d = ofZ 5)
  /\ contribution (Some "N/A") = zero
  /\ Math_round (S754_finite false 5629499534213120 (-51)) = ofZ 3.
Proof.
  destruct (chartData_measures defaultCompare
              [sale "Acme" "2019" "1" "N/A" "5" "0"] "Acme" supplier
              (cursor 2019 1) (cursor 2019 12)) as (Hsum & Hround & Hnan & Hgroup).
  split; [| split].
  - destruct (Hgroup ltac:(discriminate) (sale "Acme" "2019" "1" "N/A" "5" "0"))
      as (d & Hd & Hmonth).
    { vm_compute. now left. }
    exists d. destruct (Hsum d Hd) as (Hretail & Hwarehouse & _).
    split; [exact Hd |]. split; [exact Hmonth |].
    rewrite Hmonth in Hretail, Hwarehouse.
    split; [rewrite Hretail | rewrite Hwarehouse]; vm_compute; reflexivity.
  - apply Hnan. vm_compute. reflexivity.
  - destruct (Hround false 5629499534213120%positive (-51)) as (_ & Hnearest & _).
    apply (Hnearest 3); [lia |]. unfold nearestHalfUp. vm_compute. split; [discriminate | reflexivity].
Defined.

(** ** The keys of the output *)

Lemma roundAggregate_sorted (localeCompare : string -> string -> Z)
    (l : list MonthlyAggregate) :
  StronglySorted (fun a b => localeCompare (month a) (month b) <= 0) l ->
  StronglySorted (fun a b => localeCompare (month a) (month b) <= 0)
    (map roundAggregate l).
Proof.
  induction 1 as [| d l Hl IH Hd]; simpl; constructor; [exact IH |].
  rewrite Forall_forall in *. intros d' Hd'.
  apply in_map_iff in Hd'. destruct Hd' as (d0 & <- & Hd0). simpl. auto.
Qed.

(** ** Calendar keys *)

Lemma ascii_compare_code (a b : ascii) : Ascii.compare a b = (code a ?= code b).
Proof. unfold Ascii.compare, code. symmetry. apply N2Z.inj_compare. Qed.

(** Case analysis on the eight bits of a character. *)
Ltac by_bits a := destruct a as [[] [] [] [] [] [] [] []].

Lemma digit_stripSign (a : ascii) (s : string) :
  isDigit a = true -> stripSign (String a s) = (1, String a s).
Proof. by_bits a; try discriminate; reflexivity. Qed.

Lemma digit_trimStart (a : ascii) (s : string) :
  isDigit a = true -> trimStart (String a s) = String a s.
Proof. by_bits a; try discriminate; reflexivity. Qed.

Lemma digit_stripHexPrefix (a b : ascii) (s : string) :
  isDigit b = true ->
  stripHexPrefix (String a (String b s)) = (10, String a (String b s)).
Proof.
  intros Hb. by_bits a; try reflexivity.
  by_bits b; try discriminate; reflexivity.
Qed.

Lemma digit_radixDigit (a : ascii) :
  isDigit a = true ->
  radixDigit 10 a = Some (code a - 48) /\ 48 <= code a <= 57.
Proof.
  by_bits a; try discriminate; intros _;
    (split; [reflexivity | vm_compute; split; discriminate]).
Qed.

Lemma fourDigitYear_mathInt (a b c d : ascii) :
  isDigit a = true -> isDigit b = true -> isDigit c = true -> isDigit d = true ->
  mathInt (Some (String a (String b (String c (String d "")))))
  = Some ((((code a - 48) * 10 + (code b - 48)) * 10 + (code c - 48)) * 10 + (code d - 48)).
Proof.
  intros Ha Hb Hc Hd. unfold mathInt, ToString.
  rewrite (digit_trimStart _ _ Ha), (digit_stripSign _ _ Ha),
    (digit_stripHexPrefix _ _ _ Hb).
  cbn [digitsPrefix].
  rewrite (proj1 (digit_radixDigit _ Ha)), (proj1 (digit_radixDigit _ Hb)),
    (proj1 (digit_radixDigit _ Hc)), (proj1 (digit_radixDigit _ Hd)).
  f_equal. lia.
Qed.

Lemma calendarMonth_In (s : string) :
  calendarMonth (Some s) = true -> In s calendarMonths.
Proof.
  unfold calendarMonth. rewrite existsb_exists.
  intros (m & Hin & Heq). apply String.eqb_eq in Heq. now subst.
Qed.

(** The padded months compare as their values do. *)
Lemma calendarMonth_compare (s1 s2 : string) :
  In s1 calendarMonths -> In s2 calendarMonths ->
  exists m1 m2,
    mathInt (Some s1) = Some m1 /\ mathInt (Some s2) = Some m2 /\
    1 <= m1 <= 12 /\ 1 <= m2 <= 12 /\
    String.compare ("-" ++ padStart 2 "0" s1) ("-" ++ padStart 2 "0" s2) = (m1 ?= m2).
Proof.
  intros H1 H2. unfold calendarMonths in H1, H2. simpl in H1, H2.
  repeat match type of H1 with _ \/ _ => destruct H1 as [<- | H1] end;
    try contradiction;
    repeat match type of H2 with _ \/ _ => destruct H2 as [<- | H2] end;
    try contradiction;
    (eexists; eexists; split; [cbv; reflexivity |]; split; [cbv; reflexivity |];
     split; [lia |]; split; [lia |]; reflexivity).
Qed.

Lemma fourDigit_compare (a b c d a' b' c' d' : ascii) (rest rest' : string) :
  48 <= code a <= 57 -> 48 <= code b <= 57 -> 48 <= code c <= 57 -> 48 <= code d <= 57 ->
  48 <= code a' <= 57 -> 48 <= code b' <= 57 -> 48 <= code c' <= 57 -> 48 <= code d' <= 57 ->
  String.compare (String a (String b (String c (String d rest))))
                 (String a' (String b' (String c' (String d' rest'))))
  = match ((((code a - 48) * 10 + (code b - 48)) * 10 + (code c - 48)) * 10 + (code d - 48))
          ?= ((((code a' - 48) * 10 + (code b' - 48)) * 10 + (code c' - 48)) * 10 + (code d' - 48))
    with
    | Eq => String.compare rest rest'
    | other => other
    end.
Proof.
  intros. cbn [String.compare]. rewrite !ascii_compare_code.
  destruct (Z.compare_spec (code a) (code a'));
    [destruct (Z.compare_spec (code b) (code b'));
      [destruct (Z.compare_spec (code c) (code c'));
        [destruct (Z.compare_spec (code d) (code d')) | |] | |] | |];
  match goal with
  | |- context [?x ?= ?y] =>
      destruct (Z.compare_spec x y); try reflexivity; lia
  end.
Qed.

Lemma fourDigitYear_inv (cell : option string) :
  fourDigitYear cell = true ->
  exists a b c d,
    cell = Some (String a (String b (String c (String d "")))) /\
    isDigit a = true /\ isDigit b = true /\ isDigit c = true /\ isDigit d = true.
Proof.
  destruct cell as [[| a [| b [| c [| d [| ? ?]]]]] |]; try discriminate.
  simpl. rewrite !andb_true_iff. intros [[[Ha Hb] Hc] Hd]. now exists a, b, c, d.
Qed.

(** The keys of two calendar rows compare, as strings of code units, the way
    their linear keys do. *)
Lemma rowKey_chronological (row1 row2 : Row) :
  calendarRow row1 = true -> calendarRow row2 = true ->
  exists k1 k2,
    linearKey row1 = Some k1 /\ linearKey row2 = Some k2 /\
    String.compare (rowKey row1) (rowKey row2) = (k1 ?= k2).
Proof.
  unfold calendarRow. rewrite !andb_true_iff. intros [Hy1 Hm1] [Hy2 Hm2].
  apply fourDigitYear_inv in Hy1, Hy2.
  destruct Hy1 as (a & b & c & d & Hy1 & Ha & Hb & Hc & Hd).
  destruct Hy2 as (a' & b' & c' & d' & Hy2 & Ha' & Hb' & Hc' & Hd').
  destruct (MONTH row1) as [s1 |] eqn:Es1; [| discriminate].
  destruct (MONTH row2) as [s2 |] eqn:Es2; [| discriminate].
  apply calendarMonth_In in Hm1, Hm2.
  destruct (calendarMonth_compare _ _ Hm1 Hm2)
    as (m1 & m2 & Hp1 & Hp2 & Hr1 & Hr2 & Hcmp).
  unfold linearKey, rowKey. rewrite Hy1, Hy2, Es1, Es2, Hp1, Hp2.
  rewrite !fourDigitYear_mathInt by assumption.
  eexists. eexists. split; [reflexivity |]. split; [reflexivity |].
  cbn [ToString String.append].
  rewrite fourDigit_compare by (apply digit_radixDigit; assumption).
  change (String "-" (padStart 2 "0" s1)) with ("-" ++ padStart 2 "0" s1).
  change (String "-" (padStart 2 "0" s2)) with ("-" ++ padStart 2 "0" s2).
  rewrite Hcmp.
  set (y1 := ((code a - 48) * 10 + (code b - 48)) * 10 + (code c - 48)) in *.
  set (y2 := ((code a' - 48) * 10 + (code b' - 48)) * 10 + (code c' - 48)) in *.
  destruct (Z.compare_spec (y1 * 10 + (code d - 48)) (y2 * 10 + (code d' - 48)));
    [destruct (Z.compare_spec m1 m2) | |]; symmetry;
    first [apply Z.compare_eq_iff | apply Z.compare_lt_iff | apply Z.compare_gt_iff]; lia.
Qed.

Lemma StronglySorted_distinct (R : MonthlyAggregate -> MonthlyAggregate -> Prop)
    (l : list MonthlyAggregate) :
  NoDup (map month l) -> StronglySorted R l ->
  StronglySorted (fun a b => R a b /\ month a <> month b) l.
Proof.
  induction 2 as [| d l Hl IH Hd]; constructor.
  - apply IH. now inversion H.
  - inversion H as [| ? ? Hnin _]; subst.
    rewrite Forall_forall in *. intros d' Hd'. split; [auto |].
    intros Heq. apply Hnin. rewrite Heq. now apply in_map.
Qed.

Lemma StronglySorted_impl {A : Type} (R S : A -> A -> Prop) (l : list A) :
  (forall a b, R a b -> S a b) -> StronglySorted R l -> StronglySorted S l.
Proof.
  intros HRS. induction 1 as [| x l Hl IH Hx]; constructor; [exact IH |].
  eapply Forall_impl; [| exact Hx]. auto.
Qed.

(** The claim C4 as it is stated fails past 2^53: under the range from
    April to April of the year 750599937895083 the output has an entry for
    March of that year, a month of which no record lies within the range. *)
Lemma chartData_month_unmatched :
  map month
    (chartData defaultCompare farMarch "Acme" supplier (cursor farYear 4) (cursor farYear 4))
  = ["750599937895083-03"]
  /\ ~ (exists row y m,
          In row farMarch /\ filterField supplier row = Some "Acme"
          /\ mathInt (YEAR row) = Some y /\ mathInt (MONTH row) = Some m
          /\ farYear * 12 + 4 <= y * 12 + m <= farYear * 12 + 4).
Proof.
  split; [vm_compute; reflexivity |].
  intros (row & y & m & [<- | []] & _ & Hy & Hm & H).
  vm_compute in Hy, Hm. injection Hy as <-. injection Hm as <-.
  unfold farYear in H. lia.
Qed.

(** C4, amended: the output has no two aggregates with the same month key.
    When the years, the months and the linear keys of the two cursors and of
    the records are below 2^53 in magnitude, every aggregate in it carries
    the key of a record of the set whose selected field is the selected
    value and whose year and month parse to a linear key between the keys of
    the two cursors: a month without such a record has no entry.  For a
    collation that compares any two keys and composes, the output is sorted
    ascending by the key under the collation; when moreover the collation
    orders the keys of calendar rows (a four-digit year, a month from 1 to
    12) as their code units do, the order of the output is chronological on
    them: the linear keys increase. *)
Theorem chartData_keys (localeCompare : string -> string -> Z)
    (rawData : list Row) (selectedValue : string) (filterType : FilterType)
    (startDate endDate : Date.t) :
  NoDup (map month
           (chartData localeCompare rawData selectedValue filterType startDate endDate))
  /\ (safeCursor startDate -> safeCursor endDate ->
      (forall row, In row rawData -> safeRow row) ->
      forall d,
        In d (chartData localeCompare rawData selectedValue filterType startDate endDate) ->
        exists row y m,
          In row rawData
          /\ filterField filterType row = Some selectedValue
          /\ mathInt (YEAR row) = Some y /\ mathInt (MONTH row) = Some m
          /\ Date.year startDate * 12 + Date.month startDate <= y * 12 + m
             <= Date.year endDate * 12 + Date.month endDate
          /\ rowKey row = month d)
  /\ ((forall a b, localeCompare a b <= 0 \/ localeCompare b a <= 0) ->
      (forall a b c,
          localeCompare a b <= 0 -> localeCompare b c <= 0 -> localeCompare a c <= 0) ->
      StronglySorted (fun a b => localeCompare (month a) (month b) <= 0)
        (chartData localeCompare rawData selectedValue filterType startDate endDate)
      /\ ((forall row1 row2,
              calendarRow row1 = true -> calendarRow row2 = true ->
              localeCompare (rowKey row1) (rowKey row2) <= 0 ->
              defaultCompare (rowKey row1) (rowKey row2) <= 0) ->
          StronglySorted
            (fun a b => forall row1 row2 k1 k2,
                 calendarRow row1 = true -> calendarRow row2 = true ->
                 rowKey row1 = month a -> rowKey row2 = month b ->
                 linearKey row1 = Some k1 -> linearKey row2 = Some k2 ->
                 k1 < k2)
            (chartData localeCompare rawData selectedValue filterType
               startDate endDate))).
Proof.
  assert (Hnd : NoDup (map month
           (chartData localeCompare rawData selectedValue filterType startDate endDate))).
  { destruct (chartData_months localeCompare rawData selectedValue filterType
                startDate endDate) as [Hperm | ->]; [| constructor].
    eapply Permutation_NoDup; [apply Permutation_sym, Hperm |].
    apply grouped_keys_NoDup. constructor. }
  split; [exact Hnd |]. split.
  - intros Hs He Hrows d Hd.
    apply chartData_aggregate in Hd. destruct Hd as [Hne _].
    destruct (withKey (month d)
                (filtered rawData selectedValue filterType startDate endDate))
      as [| row rows] eqn:E; [contradiction |].
    assert (Hrow : In row (withKey (month d)
                (filtered rawData selectedValue filterType startDate endDate)))
      by (rewrite E; now left).
    apply filter_In in Hrow. destruct Hrow as [Hin Hkey].
    apply String.eqb_eq in Hkey. apply filter_In in Hin. destruct Hin as [Hin Hkeep].
    apply (keepRow_spec filterType selectedValue startDate endDate row Hs He
             (Hrows row Hin)) in Hkeep.
    destruct Hkeep as (Hfield & y & m & Hy & Hm & Hrange).
    exists row, y, m. auto 7.
  - intros collation_total collation_trans.
    assert (Hsorted : StronglySorted (fun a b => localeCompare (month a) (month b) <= 0)
       (chartData localeCompare rawData selectedValue filterType startDate endDate)).
    { destruct (String.eqb_spec selectedValue "") as [-> | Hv]; [constructor |].
      rewrite chartData_selected by exact Hv.
      apply roundAggregate_sorted.
      apply (sort_sorted (byMonth localeCompare)); unfold byMonth; eauto. }
    split; [exact Hsorted |].
    intros Hagree.
    eapply StronglySorted_impl; [| exact (StronglySorted_distinct _ _ Hnd Hsorted)].
    intros a b [Hab Hne] row1 row2 k1 k2 Hc1 Hc2 Hk1 Hk2 Hd1 Hd2.
    rewrite <- Hk1, <- Hk2 in Hab, Hne.
    apply (Hagree _ _ Hc1 Hc2), defaultCompare_le in Hab.
    destruct Hab as [? | Hlt]; [contradiction |].
    destruct (rowKey_chronological _ _ Hc1 Hc2) as (k1' & k2' & Hd1' & Hd2' & Hcmp).
    rewrite Hcmp in Hlt. apply Z.compare_lt_iff in Hlt. congruence.
Qed.

(** The code-unit order as collation, on November and February of 2019. *)
Lemma chartData_keys_witness :
  map month
    (chartData defaultCompare twoMonths "Acme" supplier (cursor 2019 1) (cursor 2019 12))
  = ["2019-02"; "2019-11"]
  /\ (exists row y m,
         In row twoMonths /\ filterField supplier row = Some "Acme"
         /\ mathInt (YEAR row) = Some y /\ mathInt (MONTH row) = Some m
         /\ 2019 * 12 + 1 <= y * 12 + m <= 2019 * 12 + 12
         /\ rowKey row = "2019-11")
  /\ StronglySorted (fun a b => defaultCompare (month a) (month b) <= 0)
       (chartData defaultCompare twoMonths "Acme" supplier (cursor 2019 1) (cursor 2019 12))
  /\ StronglySorted
       (fun a b => forall row1 row2 k1 k2,
            calendarRow row1 = true -> calendarRow row2 = true ->
            rowKey row1 = month a -> rowKey row2 = month b ->
            linearKey row1 = Some k1 -> linearKey row2 = Some k2 ->
            k1 < k2)
       (chartData defaultCompare twoMonths "Acme" supplier (cursor 2019 1) (cursor 2019 12)).
Proof.
  split; [vm_compute; reflexivity |].
  destruct (chartData_keys defaultCompare twoMonths "Acme" supplier
              (cursor 2019 1) (cursor 2019 12)) as (_ & Hmatch & Hsorted).
  split.
  - assert (H1 : safeCursor (cursor 2019 1)) by magnitudes.
    assert (H12 : safeCursor (cursor 2019 12)) by magnitudes.
    assert (Hrows : forall row, In row twoMonths -> safeRow row).
    { intros row [<- | [<- | []]]; magnitudes. }
    apply (Hmatch H1 H12 Hrows
             {| month := "2019-11"; retailSales := ofZ 1;
                warehouseSales := zero; retailTransfers := zero |}).
    vm_compute. right. now left.
  - destruct (Hsorted defaultCompare_total defaultCompare_trans) as [Hkeys Hchrono].
    split; [exact Hkeys |].
    apply Hchrono. intros row1 row2 _ _ H. exact H.
Defined.

(** ** Months outside 1..12 *)

(** The claim C10 as it is stated fails past 2^53: of the thirteenth month
    of the year 3002399751580333 and the January of the next year, the code
    rounds the linear keys apart, to 2^55 + 48 and to 2^55 + 40, and under
    the range from that January to that January it keeps the second record
    and leaves the first out. *)
Lemma thirteenth_month_inexact :
  map (fun row => (mathInt (YEAR row), mathInt (MONTH row))) [farThirteenth; farJanuary]
  = [(Some 3002399751580333, Some 13); (Some (3002399751580333 + 1), Some 1)]
  /\ keepRow supplier "Acme" (cursor 3002399751580334 1) (cursor 3002399751580334 1)
       farThirteenth = false
  /\ keepRow supplier "Acme" (cursor 3002399751580334 1) (cursor 3002399751580334 1)
       farJanuary = true
  /\ rowDate farThirteenth = ofZ (2 ^ 55 + 48)
  /\ rowDate farJanuary = ofZ (2 ^ 55 + 40).
Proof. vm_compute. repeat split. Qed.

(** Rows with the same integer key are kept or left out together, when
    nothing is rounded in their keys. *)
Lemma keepRow_linearKey (ft : FilterType) (v : string) (s e : Date.t) (row1 row2 : Row) :
  filterField ft row1 = filterField ft row2 ->
  safeRow row1 -> safeRow row2 -> linearKey row1 = linearKey row2 ->
  keepRow ft v s e row1 = keepRow ft v s e row2.
Proof.
  intros Hfield H1 H2 Hkey. unfold keepRow, selected. rewrite Hfield.
  destruct (negb _); [reflexivity |]. cbv zeta. unfold Number_ge, Number_le.
  unfold linearKey in Hkey.
  destruct (mathInt (YEAR row1)) as [y1 |] eqn:Hy1;
    [destruct (mathInt (MONTH row1)) as [m1 |] eqn:Hm1 |];
    (destruct (mathInt (YEAR row2)) as [y2 |] eqn:Hy2;
     [destruct (mathInt (MONTH row2)) as [m2 |] eqn:Hm2 |]); try discriminate.
  - injection Hkey as Hkey.
    pose proof (rowDate_represents row1 y1 m1 Hy1 Hm1
                  (safeRow_exactKey _ _ _ H1 Hy1 Hm1)) as Hr1.
    pose proof (rowDate_represents row2 y2 m2 Hy2 Hm2
                  (safeRow_exactKey _ _ _ H2 Hy2 Hm2)) as Hr2.
    rewrite <- Hkey in Hr2.
    destruct (represents_order _ _ (add (mul (ofZ (Date.year s)) (ofZ 12))
                                        (ofZ (Date.month s))) _ Hr1 Hr2) as [-> _].
    destruct (represents_order _ _ (add (mul (ofZ (Date.year e)) (ofZ 12))
                                        (ofZ (Date.month e))) _ Hr1 Hr2) as [_ ->].
    reflexivity.
  - now rewrite (rowDate_NaN row1), (rowDate_NaN row2) by auto.
  - now rewrite (rowDate_NaN row1), (rowDate_NaN row2) by auto.
  - now rewrite (rowDate_NaN row1), (rowDate_NaN row2) by auto.
  - now rewrite (rowDate_NaN row1), (rowDate_NaN row2) by auto.
Qed.

(** C10, amended: the filter never looks at the month on its own.  Two
    records with the same selected field and the same linear key, of which
    the year, the month and the key are below 2^53 in magnitude, are kept or
    left out together; so a record of month 13 of a year is kept exactly
    when a record of month 1 of the next year is; and a kept record has the
    aggregate of its own key, year-month as written in its cells, in the
    output: the thirteenth month of 2019 appears as 2019-13 next to
    2020-01. *)
Theorem month_unchecked (localeCompare : string -> string -> Z) :
  (forall filterType selectedValue startDate endDate row1 row2,
      filterField filterType row1 = filterField filterType row2 ->
      safeRow row1 -> safeRow row2 ->
      linearKey row1 = linearKey row2 ->
      keepRow filterType selectedValue startDate endDate row1
      = keepRow filterType selectedValue startDate endDate row2)
  /\ (forall filterType selectedValue startDate endDate row13 row1 y,
      filterField filterType row13 = filterField filterType row1 ->
      mathInt (YEAR row13) = Some y -> mathInt (MONTH row13) = Some 13 ->
      mathInt (YEAR row1) = Some (y + 1) -> mathInt (MONTH row1) = Some 1 ->
      exactKey y 13 -> exactKey (y + 1) 1 ->
      keepRow filterType selectedValue startDate endDate row13
      = keepRow filterType selectedValue startDate endDate row1)
  /\ (forall rawData selectedValue filterType startDate endDate row,
      selectedValue <> "" -> In row rawData ->
      keepRow filterType selectedValue startDate endDate row = true ->
      exists d,
        In d (chartData localeCompare rawData selectedValue filterType startDate endDate)
        /\ month d
           = ToString (YEAR row) ++ "-" ++ padStart 2 "0" (ToString (MONTH row)))
  /\ map month
       (chartData defaultCompare thirteenthMonth "Acme" supplier
          (cursor 2020 1) (cursor 2020 1))
     = ["2019-13"; "2020-01"].
Proof.
  split; [intros; now apply keepRow_linearKey |]. split; [| split].
  - intros ft v s e row13 row1 y Hfield Hy13 Hm13 Hy1 Hm1 Hk13 Hk1.
    apply keepRow_linearKey; [exact Hfield | | |].
    + unfold safeRow. now rewrite Hy13, Hm13.
    + unfold safeRow. now rewrite Hy1, Hm1.
    + unfold linearKey. rewrite Hy13, Hm13, Hy1, Hm1. f_equal. lia.
  - intros rawData v ft s e row Hv Hin Hkeep.
    apply chartData_has_key; [exact Hv |].
    apply filter_In. split; assumption.
  - vm_compute. reflexivity.
Qed.

(** The two records of [thirteenthMonth] under the range January 2020 to
    January 2020. *)
Lemma month_unchecked_witness :
  keepRow supplier "Acme" (cursor 2020 1) (cursor 2020 1)
    (sale "Acme" "2019" "13" "1" "0" "0")
  = keepRow supplier "Acme" (cursor 2020 1) (cursor 2020 1)
      (sale "Acme" "2020" "1" "2" "0" "0")
  /\ exists d,
       In d (chartData defaultCompare thirteenthMonth "Acme" supplier
               (cursor 2020 1) (cursor 2020 1))
       /\ month d = "2019-13".
Proof.
  pose proof (month_unchecked defaultCompare) as (_ & H13 & Hgroup & _).
  split.
  - apply (H13 supplier "Acme" (cursor 2020 1) (cursor 2020 1)
             (sale "Acme" "2019" "13" "1" "0" "0")
             (sale "Acme" "2020" "1" "2" "0" "0") 2019);
      first [reflexivity | magnitudes].
  - apply (Hgroup thirteenthMonth "Acme" supplier (cursor 2020 1) (cursor 2020 1)
             (sale "Acme" "2019" "13" "1" "0" "0")).
    + discriminate.
    + simpl. now left.
    + vm_compute. reflexivity.
Defined.

(** ** The search of the options *)

Lemma prefix_occurs (t s : string) :
  prefix t s = true <-> exists after, s = t ++ after.
Proof.
  revert s. induction t as [| a t IH]; intros s; simpl.
  - destruct s; (split; [intros _; eexists; reflexivity | reflexivity]).
  - destruct s as [| b s]; simpl.
    + split; [discriminate | intros (after & [=])].
    + destruct (ascii_dec a b) as [<- | Hne].
      * rewrite IH. split.
        -- intros (after & ->). now exists after.
        -- intros (after & [= ->]). now exists after.
      * split; [discriminate | intros (after & H); injection H as -> _; contradiction].
Qed.

Lemma includes_occursIn (s t : string) : includes s t = true <-> occursIn t s.
Proof.
  unfold occursIn. induction s as [| a s IH].
  - cbn [includes]. rewrite orb_false_r, prefix_occurs. split.
    + intros (after & H). exists "", after. exact H.
    + intros ([| b before] & after & H); [now exists after | discriminate].
  - cbn [includes]. rewrite orb_true_iff, IH, prefix_occurs. split.
    + intros [(after & H) | (before & after & ->)].
      * exists "", after. exact H.
      * exists (String a before), after. reflexivity.
    + intros ([| b before] & after & H).
      * left. now exists after.
      * right. injection H as <- ->. now exists before, after.
Qed.

Lemma In_firstn {A : Type} (n : nat) (l : list A) (x : A) :
  In x (firstn n l) -> In x l.
Proof.
  intros H. rewrite <- (firstn_skipn n l). apply in_or_app. now left.
Qed.

(** The claim C6 as it is stated fails on its own example: Ajax does not
    contain ac. *)
Lemma filteredOptions_ac_not_ajax :
  filteredOptions supplier ["Acme"; "Ajax"; "Beta"] [] "ac" <> ["Acme"; "Ajax"].
Proof. vm_compute. discriminate. Qed.

(** C6, amended: the search ac against the sorted domain Acme, Ajax, Beta
    returns Acme alone; a non-empty search term returns, in the order of the
    domain, the first 100 of the entries whose lower-cased text contains the
    lower-cased term as a substring, and nothing else. *)
Theorem filteredOptions_search (filterType : FilterType) (suppliers items : list string)
    (searchTerm : string) :
  searchTerm <> "" ->
  filteredOptions supplier ["Acme"; "Ajax"; "Beta"] [] "ac" = ["Acme"]
  /\ filteredOptions filterType suppliers items searchTerm
     = firstn 100
         (filter (fun opt => includes (toLowerCase opt) (toLowerCase searchTerm))
            (match filterType with supplier => suppliers | item => items end))
  /\ (forall opt,
      includes (toLowerCase opt) (toLowerCase searchTerm) = true <->
      occursIn (toLowerCase searchTerm) (toLowerCase opt))
  /\ (forall opt,
      In opt (filteredOptions filterType suppliers items searchTerm) ->
      In opt (match filterType with supplier => suppliers | item => items end)
      /\ occursIn (toLowerCase searchTerm) (toLowerCase opt))
  /\ (List.length (filteredOptions filterType suppliers items searchTerm) <= 100)%nat.
Proof.
  intros Hterm.
  assert (Heq : filteredOptions filterType suppliers items searchTerm
     = firstn 100
         (filter (fun opt => includes (toLowerCase opt) (toLowerCase searchTerm))
            (match filterType with supplier => suppliers | item => items end))).
  { unfold filteredOptions.
    destruct (String.eqb_spec searchTerm ""); [contradiction | reflexivity]. }
  split; [reflexivity |]. split; [exact Heq |]. split; [| split].
  - intros opt. apply includes_occursIn.
  - intros opt Hin. rewrite Heq in Hin.
    apply In_firstn in Hin. apply filter_In in Hin.
    destruct Hin as [Hin Hinc]. split; [exact Hin | now apply includes_occursIn].
  - rewrite Heq. apply firstn_le_length.
Qed.

(** The search ac on the three suppliers. *)
Lemma filteredOptions_search_witness :
  filteredOptions supplier ["Acme"; "Ajax"; "Beta"] [] "ac"
  = firstn 100
      (filter (fun opt => includes (toLowerCase opt) (toLowerCase "ac"))
         ["Acme"; "Ajax"; "Beta"]).
Proof.
  apply (filteredOptions_search supplier ["Acme"; "Ajax"; "Beta"] [] "ac").
  discriminate.
Defined.


(** * The rest of the component *)

(** ** The options of the date selects *)

Lemma countUp_In (n : nat) (i x : Z) :
  In x (countUp n i) <-> i <= x < i + Z.of_nat n.
Proof.
  revert i. induction n as [| n IH]; intros i.
  - simpl. lia.
  - cbn [countUp In]. rewrite IH. lia.
Qed.


Lemma countUp_sorted (n : nat) (i : Z) : StronglySorted Z.lt (countUp n i).
Proof.
  revert i. induction n as [| n IH]; intros i; simpl; constructor; [apply IH |].
  apply Forall_forall. intros x Hx. apply countUp_In in Hx. lia.
Qed.

Lemma forRange_In (from to x : Z) : In x (forRange from to) <-> from <= x <= to.
Proof. unfold forRange. rewrite countUp_In. lia. Qed.

Lemma StronglySorted_app {A : Type} (R : A -> A -> Prop) (l1 l2 : list A) :
  StronglySorted R l1 -> StronglySorted R l2 ->
  (forall x y, In x l1 -> In y l2 -> R x y) ->
  StronglySorted R (l1 ++ l2).
Proof.
  induction 1 as [| x l1 Hl1 IH Hx]; intros Hl2 Hcross; simpl; [exact Hl2 |].
  constructor.
  - apply IH; [exact Hl2 |]. intros a b Ha Hb. apply Hcross; [now right | exact Hb].
  - apply Forall_app. split; [exact Hx |].
    apply Forall_forall. intros y Hy. apply Hcross; [now left | exact Hy].
Qed.

Lemma StronglySorted_map {A B : Type} (R : A -> A -> Prop) (S : B -> B -> Prop)
    (f : A -> B) (l : list A) :
  (forall a b, R a b -> S (f a) (f b)) ->
  StronglySorted R l -> StronglySorted S (map f l).
Proof.
  intros HRS. induction 1 as [| x l Hl IH Hx]; simpl; constructor; [exact IH |].
  apply Forall_forall. intros y Hy. apply in_map_iff in Hy.
  destruct Hy as (a & <- & Ha). rewrite Forall_forall in Hx. auto.
Qed.


Lemma generateDateOptions_In (yearRange : YearRange.t) (opt : Date.t) :
  In opt (generateDateOptions yearRange) <->
  YearRange.min yearRange <= Date.year opt <= YearRange.max yearRange
  /\ 1 <= Date.month opt <= 12.
Proof.
  unfold generateDateOptions. destruct opt as [y m].
  rewrite in_flat_map. cbn [Date.year Date.month]. split.
  - intros (y' & Hy' & Hin). apply in_map_iff in Hin.
    destruct Hin as (m' & [= <- <-] & Hm').
    apply forRange_In in Hy', Hm'. lia.
  - intros [Hy Hm]. exists y. split; [now apply forRange_In |].
    apply in_map_iff. exists m. split; [reflexivity | now apply forRange_In].
Qed.










Lemma generateDateOptions_increasing (yearRange : YearRange.t) :
  StronglySorted
    (fun a b => Date.year a * 12 + Date.month a < Date.year b * 12 + Date.month b)
    (generateDateOptions yearRange).
Proof.
  unfold generateDateOptions.
  generalize (countUp_sorted
                (Z.to_nat (YearRange.max yearRange - YearRange.min yearRange + 1))
                (YearRange.min yearRange)).
  fold (forRange (YearRange.min yearRange) (YearRange.max yearRange)).
  generalize (forRange (YearRange.min yearRange) (YearRange.max yearRange)).
  induction 1 as [| y years Hyears IH Hy]; cbn [flat_map]; [constructor |].
  apply StronglySorted_app.
  - apply (StronglySorted_map Z.lt); [| apply countUp_sorted].
    intros a b Hab. simpl. lia.
  - exact IH.
  - intros a b Ha Hb.
    apply in_map_iff in Ha. destruct Ha as (m & <- & Hm).
    apply in_flat_map in Hb. destruct Hb as (y' & Hy' & Hb).
    apply in_map_iff in Hb. destruct Hb as (m' & <- & Hm').
    apply forRange_In in Hm, Hm'. rewrite Forall_forall in Hy.
    specialize (Hy _ Hy'). simpl. lia.
Qed.

Lemma generateDateOptions_NoDup (yearRange : YearRange.t) :
  NoDup (generateDateOptions yearRange).
Proof.
  induction (generateDateOptions_increasing yearRange) as [| a l Hl IH Ha];
    constructor; [| exact IH].
  intros Hin. rewrite Forall_forall in Ha. specialize (Ha _ Hin). lia.
Qed.

(** X2: the options come in chronological order: along the array the linear
    key [year * 12 + month] increases strictly, so no cursor is listed
    twice. *)
Theorem generateDateOptions_sorted (yearRange : YearRange.t) :
  StronglySorted
    (fun a b => Date.year a * 12 + Date.month a < Date.year b * 12 + Date.month b)
    (generateDateOptions yearRange)
  /\ NoDup (generateDateOptions yearRange).
Proof.
  split; [apply generateDateOptions_increasing | apply generateDateOptions_NoDup].
Qed.




(** ** The values and the labels of the date options *)

Example ToNumber_known :
  ToNumber "2019" = ofZ 2019
  /\ ToNumber "" = zero
  /\ ToNumber "  12 " = ofZ 12
  /\ ToNumber "0x1f" = ofZ 31
  /\ ToNumber "0b101" = ofZ 5
  /\ ToNumber "1e3" = ofZ 1000
  /\ ToNumber "-.5" = dyadic (-1) (-1)
  /\ ToNumber "12px" = S754_nan
  /\ ToNumber "1e" = S754_nan
  /\ ToNumber "-0x10" = S754_nan
  /\ ToNumber "Infinityx" = S754_nan.
Proof. vm_compute. repeat split. Qed.

Example split_known :
  split "-" "2019-1" = ["2019"; "1"]
  /\ split "-" "-5-1" = [""; "5"; "1"]
  /\ split "-" "2019" = ["2019"]
  /\ split "-" "" = [""]
  /\ Number_toString 2019 = "2019"
  /\ Number_toString 0 = "0"
  /\ Number_toString (-5) = "-5".
Proof. repeat split. Qed.

Lemma readExponentPart_value (s : string) : fst (readExponentPart s) = readExponent s.
Proof.
  destruct s as [| c s]; [reflexivity |]. simpl.
  destruct ((code c =? 101) || (code c =? 69)); [| reflexivity].
  destruct (stripSign s) as [sign s'']. destruct (readDigits s'' 0 0) as [[v count] rest].
  now destruct (count =? 0).
Qed.

(** [parseFloat] is the literal that [Number] reads, without the demand that
    nothing follows it. *)
Lemma parseFloat_readDecimalLiteral (cell : option string) :
  parseFloat cell
  = match readDecimalLiteral (trimStart (ToString cell)) with
    | Some (x, _) => x
    | None => S754_nan
    end.
Proof.
  unfold parseFloat, readDecimalLiteral.
  destruct (stripSign (trimStart (ToString cell))) as [sgn s1].
  destruct (prefix "Infinity" s1); [reflexivity |].
  destruct (readDigits s1 0 0) as [[ip ic] s2].
  assert (Hplain : (if ic =? 0 then S754_nan
                    else ofDecimal (sgn <? 0) ip (readExponent s2))
                   = match (if ic =? 0 then None
                            else let '(e, rest) := readExponentPart s2 in
                                 Some (ofDecimal (sgn <? 0) ip e, rest))
                     with
                     | Some (x, _) => x
                     | None => S754_nan
                     end).
  { destruct (ic =? 0); [reflexivity |]. rewrite <- readExponentPart_value.
    now destruct (readExponentPart s2). }
  destruct s2 as [| c s3]; [exact Hplain |].
  by_bits c; try exact Hplain.
  destruct (readDigits s3 ip 0) as [[m fc] s4].
  destruct ((ic =? 0) && (fc =? 0)); [reflexivity |].
  rewrite <- readExponentPart_value. now destruct (readExponentPart s4).
Qed.

Lemma digit_facts (c : ascii) :
  isDigit c = true ->
  isWhiteSpace c = false /\ Ascii.eqb c "-" = false
  /\ decimalDigit c = Some (code c - 48) /\ 0 <= code c - 48 <= 9.
Proof.
  by_bits c; try discriminate; intros _;
    (split; [reflexivity |]; split; [reflexivity |]; split; [reflexivity |];
     vm_compute; split; discriminate).
Qed.

Lemma allDecimal_uint (d : Decimal.uint) :
  allDecimal (NilEmpty.string_of_uint d) = true.
Proof. induction d; simpl; auto. Qed.

Lemma trimStart_decimal (s : string) : allDecimal s = true -> trimStart s = s.
Proof.
  destruct s as [| c s]; [reflexivity |]. simpl. rewrite andb_true_iff.
  intros [Hc _]. now rewrite (proj1 (digit_facts c Hc)).
Qed.

Lemma trimEnd_decimal (s : string) : allDecimal s = true -> trimEnd s = s.
Proof.
  induction s as [| c s IH]; [reflexivity |]. simpl. rewrite andb_true_iff.
  intros [Hc Hs]. rewrite (IH Hs). destruct s; [| reflexivity].
  now rewrite (proj1 (digit_facts c Hc)).
Qed.

Lemma split_decimal (a : string) :
  allDecimal a = true ->
  split "-" a = [a] /\ forall b, split "-" (a ++ String "-" b) = a :: split "-" b.
Proof.
  induction a as [| c a IH]; [split; reflexivity |]. simpl. rewrite andb_true_iff.
  intros [Hc Ha]. destruct (IH Ha) as [IH1 IH2].
  destruct (digit_facts c Hc) as (_ & -> & _). split.
  - now rewrite IH1.
  - intros b. now rewrite IH2.
Qed.

Lemma append_hyphen_inj (a a' b b' : string) :
  allDecimal a = true -> allDecimal a' = true ->
  a ++ String "-" b = a' ++ String "-" b' -> a = a' /\ b = b'.
Proof.
  revert a'. induction a as [| c a IH]; intros [| c' a']; simpl;
    rewrite ?andb_true_iff.
  - intros _ _ [= ->]. auto.
  - intros _ [Hc' _] [= <- _]. discriminate.
  - intros [Hc _] _ [= -> _]. discriminate.
  - intros [_ Ha] [_ Ha'] [= -> H]. destruct (IH _ Ha Ha' H) as [-> ->]. auto.
Qed.

(** The digits of a number that is not negative, and of a negative one. *)
Lemma Number_toString_digits (n : Z) :
  exists d,
    d <> Decimal.Nil /\ Z.of_N (Pos.of_uint d) = Z.abs n /\
    Number_toString n
    = if n <? 0 then String "-" (NilEmpty.string_of_uint d)
      else NilEmpty.string_of_uint d.
Proof.
  unfold Number_toString. destruct n as [| p | p]; simpl.
  - exists (Decimal.D0 Decimal.Nil). repeat split. discriminate.
  - exists (Pos.to_uint p). split; [apply Unsigned.to_uint_nonnil |].
    split; [now rewrite Unsigned.of_to |].
    pose proof (Unsigned.to_uint_nonnil p). now destruct (Pos.to_uint p).
  - exists (Pos.to_uint p). split; [apply Unsigned.to_uint_nonnil |].
    split; [now rewrite Unsigned.of_to |].
    pose proof (Unsigned.to_uint_nonnil p). now destruct (Pos.to_uint p).
Qed.

Lemma readDigits_uint_acc (d : Decimal.uint) (acc : positive) (count : Z) :
  readDigits (NilEmpty.string_of_uint d) (Zpos acc) count
  = (Zpos (Pos.of_uint_acc d acc),
     count + Z.of_nat (String.length (NilEmpty.string_of_uint d)), "").
Proof.
  revert acc count. induction d; intros acc count;
    cbn [NilEmpty.string_of_uint readDigits Pos.of_uint_acc String.length].
  1: { f_equal. f_equal. lia. }
  all: match goal with
       | |- context [decimalDigit ?c] =>
           change (decimalDigit c) with (Some (code c - 48)); cbv beta iota
       end;
       match goal with
       | |- readDigits _ ?a _ = (Z.pos (Pos.of_uint_acc _ ?q), _, _) =>
           replace a with (Z.pos q) by (vm_compute (code _); lia)
       end;
       rewrite IHd; f_equal; f_equal; lia.
Qed.

Lemma readDigits_uint (d : Decimal.uint) (count : Z) :
  readDigits (NilEmpty.string_of_uint d) 0 count
  = (Z.of_N (Pos.of_uint d),
     count + Z.of_nat (String.length (NilEmpty.string_of_uint d)), "").
Proof.
  revert count. induction d; intros count;
    cbn [NilEmpty.string_of_uint readDigits Pos.of_uint String.length].
  1: { f_equal. f_equal. lia. }
  1: { change (decimalDigit "0") with (Some 0). cbv beta iota.
       change (0 * 10 + 0) with 0. rewrite IHd. f_equal. f_equal. lia. }
  all: match goal with
       | |- context [decimalDigit ?c] =>
           change (decimalDigit c) with (Some (code c - 48)); cbv beta iota
       end;
       match goal with
       | |- readDigits _ ?a _ = (Z.of_N (N.pos (Pos.of_uint_acc _ ?q)), _, _) =>
           replace a with (Z.pos q) by (vm_compute; reflexivity)
       end;
       rewrite readDigits_uint_acc; f_equal; f_equal; lia.
Qed.

Lemma digit_head (c : ascii) (s : string) :
  isDigit c = true ->
  stripSign (String c s) = (1, String c s) /\ prefix "Infinity" (String c s) = false.
Proof. by_bits c; try discriminate; intros _; split; reflexivity. Qed.

Lemma digit_not_radix_letter (c : ascii) :
  isDigit c = true ->
  (code c =? 120) || (code c =? 88) = false
  /\ (code c =? 111) || (code c =? 79) = false
  /\ (code c =? 98) || (code c =? 66) = false.
Proof. by_bits c; try discriminate; intros _; repeat split. Qed.

Lemma ofDecimal_integer (n : Z) : 0 <= n -> ofDecimal false n 0 = ofZ n.
Proof.
  destruct n as [| p | p]; [reflexivity | | lia]. intros _.
  unfold ofDecimal, ofZ, dyadic, binary_normalize. simpl (0 <=? 0).
  change (Z.to_pos (10 ^ 0)) with 1%positive. now rewrite Pos.mul_1_r.
Qed.

Lemma readDecimalLiteral_uint (d : Decimal.uint) :
  d <> Decimal.Nil ->
  readDecimalLiteral (NilEmpty.string_of_uint d)
  = Some (ofZ (Z.of_N (Pos.of_uint d)), "").
Proof.
  intros Hd. unfold readDecimalLiteral.
  pose proof (allDecimal_uint d) as Hall.
  pose proof (readDigits_uint d 0) as Hread.
  destruct (NilEmpty.string_of_uint d) as [| c s] eqn:E; [now destruct d |].
  simpl in Hall. apply andb_true_iff in Hall. destruct Hall as [Hc _].
  destruct (digit_head c s Hc) as [-> ->]. simpl (1 <? 0).
  rewrite Hread. cbn [String.length].
  destruct (Z.eqb_spec (0 + Z.of_nat (S (String.length s))) 0) as [? | _]; [lia |].
  cbn [readExponentPart]. now rewrite ofDecimal_integer by lia.
Qed.

(** [Number] reads back the digits of a number that is not negative. *)
Lemma ToNumber_uint (d : Decimal.uint) :
  d <> Decimal.Nil ->
  ToNumber (NilEmpty.string_of_uint d) = ofZ (Z.of_N (Pos.of_uint d)).
Proof.
  intros Hd. unfold ToNumber.
  pose proof (allDecimal_uint d) as Hall.
  rewrite (trimStart_decimal _ Hall), (trimEnd_decimal _ Hall).
  pose proof (readDecimalLiteral_uint d Hd) as Hread.
  destruct (NilEmpty.string_of_uint d) as [| c0 [| c1 digits]] eqn:E.
  - now destruct d.
  - now rewrite Hread.
  - simpl in Hall. rewrite !andb_true_iff in Hall. destruct Hall as (_ & Hc1 & _).
    destruct (digit_not_radix_letter c1 Hc1) as (-> & -> & ->).
    rewrite !andb_false_r. now rewrite Hread.
Qed.

Lemma ToNumber_toString (n : Z) : 0 <= n -> ToNumber (Number_toString n) = ofZ n.
Proof.
  intros Hn. destruct (Number_toString_digits n) as (d & Hd & Hval & Hstr).
  destruct (Z.ltb_spec n 0); [lia |].
  rewrite Hstr, ToNumber_uint by exact Hd. f_equal. lia.
Qed.

Lemma Number_toString_decimal (n : Z) :
  0 <= n -> allDecimal (Number_toString n) = true.
Proof.
  intros Hn. destruct (Number_toString_digits n) as (d & _ & _ & Hstr).
  destruct (Z.ltb_spec n 0); [lia |]. rewrite Hstr. apply allDecimal_uint.
Qed.

(** X4: reading back the value of an option whose year and month are not
    negative gives the Numbers of that year and that month: choosing an
    option of a date select stores the cursor the option stands for. *)
Theorem readOptionValue_optionValue (opt : Date.t) :
  0 <= Date.year opt -> 0 <= Date.month opt ->
  readOptionValue (optionValue opt)
  = (Some (ofZ (Date.year opt)), Some (ofZ (Date.month opt))).
Proof.
  intros Hy Hm. unfold readOptionValue, optionValue.
  change ("-" ++ Number_toString (Date.month opt))
    with (String "-" (Number_toString (Date.month opt))).
  rewrite (proj2 (split_decimal _ (Number_toString_decimal _ Hy))).
  rewrite (proj1 (split_decimal _ (Number_toString_decimal _ Hm))).
  cbn [map nth_error]. now rewrite !ToNumber_toString.
Qed.

(** The option of January 2019. *)
Lemma readOptionValue_optionValue_witness :
  readOptionValue (optionValue (cursor 2019 1)) = (Some (ofZ 2019), Some (ofZ 1)).
Proof. apply (readOptionValue_optionValue (cursor 2019 1)); simpl; lia. Defined.

(** X5: the value of an option with a negative year starts with a hyphen, so
    it splits into an empty first piece: the handler stores the year 0 and,
    as the month, the year without its sign. *)
Theorem readOptionValue_negative_year (opt : Date.t) :
  Date.year opt < 0 -> 0 <= Date.month opt ->
  readOptionValue (optionValue opt) = (Some zero, Some (ofZ (- Date.year opt))).
Proof.
  intros Hy Hm. unfold readOptionValue, optionValue.
  destruct (Number_toString_digits (Date.year opt)) as (d & Hd & Hval & Hstr).
  destruct (Z.ltb_spec (Date.year opt) 0); [| lia].
  rewrite Hstr.
  change (String "-" (NilEmpty.string_of_uint d) ++ "-" ++ Number_toString (Date.month opt))
    with (String "-" (NilEmpty.string_of_uint d
                      ++ String "-" (Number_toString (Date.month opt)))).
  cbn [split]. change (Ascii.eqb "-" "-") with true. cbv iota.
  rewrite (proj2 (split_decimal _ (allDecimal_uint d))).
  cbn [map nth_error]. rewrite ToNumber_uint by exact Hd.
  f_equal. f_equal. f_equal. lia.
Qed.

(** The option of January of the year -5. *)
Lemma readOptionValue_negative_year_witness :
  readOptionValue (optionValue (cursor (-5) 1)) = (Some zero, Some (ofZ 5)).
Proof. apply (readOptionValue_negative_year (cursor (-5) 1)); simpl; lia. Defined.

Lemma Number_toString_inj (n n' : Z) :
  Number_toString n = Number_toString n' -> n = n'.
Proof.
  intros H.
  destruct (Number_toString_digits n) as (d & Hd & Hval & Hstr).
  destruct (Number_toString_digits n') as (d' & Hd' & Hval' & Hstr').
  rewrite Hstr, Hstr' in H.
  assert (Huint : forall u u', NilEmpty.string_of_uint u = NilEmpty.string_of_uint u' ->
                               u = u').
  { intros u u' Hu. apply (f_equal NilEmpty.uint_of_string) in Hu.
    rewrite !NilEmpty.usu in Hu. now injection Hu. }
  destruct (Z.ltb_spec n 0), (Z.ltb_spec n' 0).
  - injection H as H. apply Huint in H. subst d'. lia.
  - exfalso. destruct d'; try contradiction; discriminate.
  - exfalso. destruct d; try contradiction; discriminate.
  - apply Huint in H. subst d'. lia.
Qed.

(** The option value determines the cursor. *)
Lemma optionValue_inj (a b : Date.t) : optionValue a = optionValue b -> a = b.
Proof.
  destruct a as [y m], b as [y' m']. unfold optionValue. cbn [Date.year Date.month].
  intros H.
  destruct (Number_toString_digits y) as (d & Hd & Hval & Hstr).
  destruct (Number_toString_digits y') as (d' & Hd' & Hval' & Hstr').
  rewrite Hstr, Hstr' in H.
  change ("-" ++ Number_toString m) with (String "-" (Number_toString m)) in H.
  change ("-" ++ Number_toString m') with (String "-" (Number_toString m')) in H.
  assert (Huint : NilEmpty.string_of_uint d ++ String "-" (Number_toString m)
                  = NilEmpty.string_of_uint d' ++ String "-" (Number_toString m') ->
                  d = d' /\ m = m').
  { intros Heq.
    apply append_hyphen_inj in Heq; try apply allDecimal_uint.
    destruct Heq as [Hu Hm]. split; [| now apply Number_toString_inj].
    apply (f_equal NilEmpty.uint_of_string) in Hu.
    rewrite !NilEmpty.usu in Hu. now injection Hu. }
  destruct (Z.ltb_spec y 0), (Z.ltb_spec y' 0).
  - injection H as H. destruct (Huint H) as [-> ->]. f_equal. lia.
  - exfalso. destruct d'; try contradiction; discriminate.
  - exfalso. destruct d; try contradiction; discriminate.
  - destruct (Huint H) as [-> ->]. f_equal. lia.
Qed.

Lemma NoDup_map_inj {A B : Type} (f : A -> B) (l : list A) :
  (forall x y, In x l -> In y l -> f x = f y -> x = y) ->
  NoDup l -> NoDup (map f l).
Proof.
  intros Hinj. induction 1 as [| x l Hx Hl IH]; simpl; constructor.
  - intros Hin. apply in_map_iff in Hin. destruct Hin as (y & Hy & Hyl).
    apply Hx. replace x with y; [exact Hyl |].
    apply Hinj; [now right | now left | exact Hy].
  - apply IH. intros a b Ha Hb. apply Hinj; now right.
Qed.

Lemma formatDateOption_month (y m : Z) :
  1 <= m <= 12 ->
  exists name,
    nth_error monthNames (Z.to_nat (m - 1)) = Some name
    /\ formatDateOption {| Date.year := y; Date.month := m |}
       = name ++ " " ++ Number_toString y.
Proof.
  intros Hm. unfold formatDateOption, at_. cbn [Date.year Date.month].
  destruct (Z.ltb_spec (m - 1) 0); [lia |].
  assert (Hcases : m = 1 \/ m = 2 \/ m = 3 \/ m = 4 \/ m = 5 \/ m = 6 \/ m = 7
                   \/ m = 8 \/ m = 9 \/ m = 10 \/ m = 11 \/ m = 12) by lia.
  repeat (destruct Hcases as [-> | Hcases]; [eexists; split; reflexivity |]).
  subst m. eexists; split; reflexivity.
Qed.

Lemma formatDateOption_inj (a b : Date.t) :
  1 <= Date.month a <= 12 -> 1 <= Date.month b <= 12 ->
  formatDateOption a = formatDateOption b -> a = b.
Proof.
  destruct a as [y m], b as [y' m']. cbn [Date.year Date.month]. intros Hm Hm'.
  unfold formatDateOption, at_. cbn [Date.year Date.month].
  destruct (Z.ltb_spec (m - 1) 0); [lia |].
  destruct (Z.ltb_spec (m' - 1) 0); [lia |].
  assert (Hcases : m = 1 \/ m = 2 \/ m = 3 \/ m = 4 \/ m = 5 \/ m = 6 \/ m = 7
                   \/ m = 8 \/ m = 9 \/ m = 10 \/ m = 11 \/ m = 12) by lia.
  assert (Hcases' : m' = 1 \/ m' = 2 \/ m' = 3 \/ m' = 4 \/ m' = 5 \/ m' = 6 \/ m' = 7
                   \/ m' = 8 \/ m' = 9 \/ m' = 10 \/ m' = 11 \/ m' = 12) by lia.
  clear Hm Hm' H H0.
  repeat (destruct Hcases as [-> | Hcases]); try subst m;
    repeat (destruct Hcases' as [-> | Hcases']); try subst m';
    cbn; intros Heq; try discriminate Heq;
    injection Heq as Heq; apply Number_toString_inj in Heq; now subst.
Qed.

(** X6: no two options of a date select have the same value, nor the same
    React key: the value [year-month] determines the cursor, whatever the
    signs. *)
Theorem optionValue_distinct (yearRange : YearRange.t) :
  (forall a b : Date.t, optionValue a = optionValue b -> a = b)
  /\ NoDup (map optionValue (generateDateOptions yearRange))
  /\ NoDup (map (fun opt => "start-" ++ optionValue opt) (generateDateOptions yearRange)).
Proof.
  split; [exact optionValue_inj |]. split.
  - apply NoDup_map_inj; [| apply generateDateOptions_NoDup].
    intros a b _ _. apply optionValue_inj.
  - apply NoDup_map_inj; [| apply generateDateOptions_NoDup].
    intros a b _ _ H. apply optionValue_inj. now injection H.
Qed.

(** The value 1-11 read as month 11 of the year 1. *)
Lemma optionValue_distinct_witness :
  {| Date.year := 1; Date.month := 10 + 1 |} = cursor 1 11.
Proof.
  apply (proj1 (optionValue_distinct {| YearRange.min := 1; YearRange.max := 1 |})).
  reflexivity.
Defined.

(** X7: the label of every generated option is a month name of the table, a
    space and the year, never [undefined]; no two options of a select carry
    the same label; a cursor whose month is outside 1..12 would be labelled
    [undefined] and the year. *)
Theorem formatDateOption_labels (yearRange : YearRange.t) :
  (forall opt,
      In opt (generateDateOptions yearRange) ->
      exists name,
        In name monthNames
        /\ formatDateOption opt = name ++ " " ++ Number_toString (Date.year opt))
  /\ NoDup (map formatDateOption (generateDateOptions yearRange))
  /\ (forall opt,
      Date.month opt < 1 \/ 12 < Date.month opt ->
      formatDateOption opt = "undefined " ++ Number_toString (Date.year opt)).
Proof.
  split; [| split].
  - intros [y m] Hin. apply generateDateOptions_In in Hin. destruct Hin as [_ Hm].
    destruct (formatDateOption_month y m Hm) as (name & Hname & Hlabel).
    exists name. split; [now apply nth_error_In in Hname | exact Hlabel].
  - apply NoDup_map_inj; [| apply generateDateOptions_NoDup].
    intros a b Ha Hb. apply generateDateOptions_In in Ha, Hb.
    apply formatDateOption_inj; tauto.
  - intros [y m] Hm. unfold formatDateOption, at_. cbn [Date.year Date.month] in *.
    destruct (Z.ltb_spec (m - 1) 0); [reflexivity |].
    replace (nth_error monthNames (Z.to_nat (m - 1))) with (@None string);
      [reflexivity |].
    symmetry. apply nth_error_None. simpl. lia.
Qed.

(** The thirteenth month of 2019 and the month 0 of 2020. *)
Lemma formatDateOption_labels_witness :
  formatDateOption (cursor 2019 13) = "undefined 2019"
  /\ formatDateOption (cursor 2020 0) = "undefined 2020".
Proof.
  split.
  - apply (proj2 (proj2 (formatDateOption_labels
                           {| YearRange.min := 2019; YearRange.max := 2020 |}))
             (cursor 2019 13)).
    right. simpl. lia.
  - apply (proj2 (proj2 (formatDateOption_labels
                           {| YearRange.min := 2019; YearRange.max := 2020 |}))
             (cursor 2020 0)).
    left. simpl. lia.
Defined.

(** ** What [DataChart] renders *)


Lemma filter_idem {A : Type} (f : A -> bool) (l : list A) :
  filter f (filter f l) = filter f l.
Proof.
  induction l as [| a l IH]; simpl; [reflexivity |].
  destruct (f a) eqn:Hfa; simpl; [rewrite Hfa, IH |]; auto.
Qed.




(** X9: a click on either toggle button empties the selection and the search
    term: whatever was shown before, the pipeline's output is empty, neither
    the chart nor the no-data message is rendered, and the value select lists
    the first 100 entries of the chosen domain. *)
Theorem toggle_resets (localeCompare : string -> string -> Z) (st : DataChart.state)
    (ev : Event) :
  ev = clickSupplier \/ ev = clickItem ->
  DataChart.selectedValue (handle st ev) = ""
  /\ chartData localeCompare (DataChart.rawData (handle st ev))
       (DataChart.selectedValue (handle st ev)) (DataChart.filterType (handle st ev))
       (DataChart.startDate (handle st ev)) (DataChart.endDate (handle st ev)) = []
  /\ (forall data, render localeCompare (handle st ev) <> ChartView data)
  /\ render localeCompare (handle st ev) <> NoDataFound
  /\ optionsOf (handle st ev)
     = firstn 100
         (match ev with
          | clickItem => items (deriveFilterDomain (DataChart.rawData st))
          | _ => suppliers (deriveFilterDomain (DataChart.rawData st))
          end).
Proof.
  intros [-> | ->]; (split; [reflexivity |]; split; [reflexivity |]);
    (split; [| split; [| reflexivity]]); unfold render; cbn [handle DataChart.loading
      DataChart.error DataChart.startDate DataChart.endDate DataChart.selectedValue];
    destruct (DataChart.loading st); try discriminate;
    destruct (truthy (DataChart.error st)); try discriminate;
    destruct (isValidDateRange (DataChart.startDate st) (DataChart.endDate st));
    simpl; try discriminate; intros; discriminate.
Qed.

(** A click on Item while the chart of Acme is shown. *)
Lemma toggle_resets_witness :
  render defaultCompare
    (handle {| DataChart.rawData := acmeJanuary; DataChart.loading := false;
               DataChart.error := None; DataChart.filterType := supplier;
               DataChart.selectedValue := "Acme";
               DataChart.startDate := cursor 2019 1;
               DataChart.endDate := cursor 2019 12;
               DataChart.searchTerm := "ac" |} clickItem)
  <> NoDataFound.
Proof.
  apply (toggle_resets defaultCompare
           {| DataChart.rawData := acmeJanuary; DataChart.loading := false;
              DataChart.error := None; DataChart.filterType := supplier;
              DataChart.selectedValue := "Acme";
              DataChart.startDate := cursor 2019 1;
              DataChart.endDate := cursor 2019 12;
              DataChart.searchTerm := "ac" |} clickItem).
  now right.
Defined.





Lemma optionsOf_firstn (st : DataChart.state) :
  optionsOf st = firstn 100 (matchingOptions st).
Proof.
  unfold optionsOf, matchingOptions, filteredOptions.
  now destruct (DataChart.searchTerm st =? "")%string.
Qed.

(** X11: the hint to narrow the search is shown exactly when at least 100
    entries of the domain pass the search, and the select lists all of them
    whenever at most 100 do: with exactly 100 the hint is shown although
    nothing is cut. *)
Theorem showsHint_iff (st : DataChart.state) :
  (showsHint st = true <-> (100 <= List.length (matchingOptions st))%nat)
  /\ ((List.length (matchingOptions st) <= 100)%nat ->
      optionsOf st = matchingOptions st).
Proof.
  unfold showsHint. rewrite optionsOf_firstn, length_firstn. split.
  - rewrite Nat.eqb_eq. lia.
  - intros Hlen. apply firstn_all2. lia.
Qed.

(** Two suppliers, one passing the search. *)
Lemma showsHint_iff_witness :
  showsHint {| DataChart.rawData := acmeJanuary; DataChart.loading := false;
               DataChart.error := None; DataChart.filterType := supplier;
               DataChart.selectedValue := ""; DataChart.startDate := cursor 2019 1;
               DataChart.endDate := cursor 2019 12; DataChart.searchTerm := "ac" |}
  = false.
Proof.
  assert (Hall : optionsOf
            {| DataChart.rawData := acmeJanuary; DataChart.loading := false;
               DataChart.error := None; DataChart.filterType := supplier;
               DataChart.selectedValue := ""; DataChart.startDate := cursor 2019 1;
               DataChart.endDate := cursor 2019 12; DataChart.searchTerm := "ac" |}
          = ["Acme"]).
  { rewrite (proj2 (showsHint_iff _)); [reflexivity | simpl; lia]. }
  unfold showsHint. now rewrite Hall.
Defined.

Lemma StronglySorted_filter {A : Type} (R : A -> A -> Prop) (f : A -> bool) (l : list A) :
  StronglySorted R l -> StronglySorted R (filter f l).
Proof.
  induction 1 as [| x l Hl IH Hx]; simpl; [constructor |].
  destruct (f x); [| exact IH]. constructor; [exact IH |].
  rewrite Forall_forall in *. intros y Hy. apply filter_In in Hy. now apply Hx.
Qed.

Lemma StronglySorted_firstn {A : Type} (R : A -> A -> Prop) (n : nat) (l : list A) :
  StronglySorted R l -> StronglySorted R (firstn n l).
Proof.
  intros Hl. revert n. induction Hl as [| x l Hl IH Hx]; intros [| n]; simpl;
    try constructor; [apply IH |].
  rewrite Forall_forall in *. intros y Hy. apply In_firstn in Hy. now apply Hx.
Qed.

Lemma codeUnitLt_irrefl (l : list string) : StronglySorted codeUnitLt l -> NoDup l.
Proof.
  induction 1 as [| x l Hl IH Hx]; constructor; [| exact IH].
  intros Hin. rewrite Forall_forall in Hx. specialize (Hx _ Hin).
  unfold codeUnitLt in Hx. rewrite string_compare_refl in Hx. discriminate.
Qed.

(** The domain of either filter type is strictly sorted and holds the
    non-empty cells of its column. *)
Lemma domain_sorted (rawData : list Row) (ft : FilterType) :
  StronglySorted codeUnitLt
    (match ft with
     | supplier => suppliers (deriveFilterDomain rawData)
     | item => items (deriveFilterDomain rawData)
     end)
  /\ forall x,
       In x (match ft with
             | supplier => suppliers (deriveFilterDomain rawData)
             | item => items (deriveFilterDomain rawData)
             end) ->
       x <> "" /\ exists row, In row rawData /\ filterField ft row = Some x.
Proof.
  unfold deriveFilterDomain. destruct rawData as [| row rows].
  - destruct ft; simpl; (split; [constructor | contradiction]).
  - cbn [List.length Nat.eqb suppliers items].
    rewrite scan_supplierSet, scan_itemSet.
    destruct ft; cbn [filterField].
    + destruct (collect_sorted SUPPLIER (row :: rows)) as (_ & Hs & Hin).
      split; [exact Hs | intros x Hx; now apply Hin].
    + destruct (collect_sorted ITEM_DESCRIPTION (row :: rows)) as (_ & Hs & Hin).
      split; [exact Hs | intros x Hx; now apply Hin].
Qed.

(** X12: in every state the value select lists its options in strictly
    increasing code-unit order, without duplicate (so the React keys differ),
    and each option is the non-empty cell of some row in the column of the
    current filter type: selecting it selects at least that row. *)
Theorem optionsOf_sorted (st : DataChart.state) :
  StronglySorted codeUnitLt (optionsOf st)
  /\ NoDup (optionsOf st)
  /\ forall opt,
       In opt (optionsOf st) ->
       opt <> ""
       /\ exists row,
            In row (DataChart.rawData st)
            /\ selected (DataChart.filterType st) opt row = true.
Proof.
  destruct (domain_sorted (DataChart.rawData st) (DataChart.filterType st))
    as [Hsorted Hin].
  assert (Hopts : StronglySorted codeUnitLt (optionsOf st)).
  { unfold optionsOf, filteredOptions.
    destruct (DataChart.searchTerm st =? "")%string;
      destruct (DataChart.filterType st);
      try apply StronglySorted_firstn; try apply StronglySorted_filter; exact Hsorted. }
  split; [exact Hopts |]. split; [now apply codeUnitLt_irrefl |].
  intros opt Hopt.
  assert (Hdom : In opt (match DataChart.filterType st with
                         | supplier => suppliers (deriveFilterDomain (DataChart.rawData st))
                         | item => items (deriveFilterDomain (DataChart.rawData st))
                         end)).
  { unfold optionsOf, filteredOptions in Hopt.
    destruct (DataChart.searchTerm st =? "")%string; apply In_firstn in Hopt;
      [exact Hopt | now apply filter_In in Hopt]. }
  destruct (Hin opt Hdom) as (Hne & row & Hrow & Hfield).
  split; [exact Hne |]. exists row. split; [exact Hrow |].
  unfold selected. rewrite Hfield. apply String.eqb_refl.
Qed.

(** The options of the search ac over the two Acme records. *)
Lemma optionsOf_sorted_witness :
  "Acme" <> ""
  /\ exists row, In row acmeJanuary /\ selected supplier "Acme" row = true.
Proof.
  apply (proj2 (proj2 (optionsOf_sorted
           {| DataChart.rawData := acmeJanuary; DataChart.loading := false;
              DataChart.error := None; DataChart.filterType := supplier;
              DataChart.selectedValue := ""; DataChart.startDate := cursor 2019 1;
              DataChart.endDate := cursor 2019 12; DataChart.searchTerm := "ac" |}))
           "Acme").
  simpl. now left.
Defined.

(** ** The pipeline ignores what the filter drops *)

(** X13: the records that fail the selection or the range filter have no
    effect on the output: the pipeline run on the kept records alone returns
    the same sequence as on the whole record set. *)
Theorem chartData_filtered (localeCompare : string -> string -> Z) (rawData : list Row)
    (selectedValue : string) (filterType : FilterType) (startDate endDate : Date.t) :
  chartData localeCompare
    (filtered rawData selectedValue filterType startDate endDate)
    selectedValue filterType startDate endDate
  = chartData localeCompare rawData selectedValue filterType startDate endDate.
Proof.
  destruct (String.eqb_spec selectedValue "") as [-> | Hv]; [reflexivity |].
  rewrite !chartData_selected by exact Hv.
  unfold monthlyData, filtered. now rewrite filter_idem.
Qed.

(** ** [App]: the account form *)

Lemma authErrorMessage_nonempty (code : option string) : authErrorMessage code <> "".
Proof.
  unfold authErrorMessage. destruct code as [c |]; [| discriminate].
  repeat match goal with
         | |- context [if ?b then _ else _] => destruct b; [discriminate |]
         end.
  discriminate.
Qed.

(** X14: when [handleAuth] is over the form is no longer busy; the error box
    has a message exactly when the call was rejected, whatever its code;
    the email and the password are cleared after a success and kept after a
    failure; the signed-in user and the registration flag are not touched. *)
Theorem handleAuth_outcome (outcome : Outcome) (st : App.state) :
  App.authLoading (handleAuth outcome st) = false
  /\ (App.authError (handleAuth outcome st) <> "" <-> exists code, outcome = rejected code)
  /\ (outcome = fulfilled ->
      App.email (handleAuth outcome st) = ""
      /\ App.password (handleAuth outcome st) = "")
  /\ (forall code,
      outcome = rejected code ->
      App.authError (handleAuth outcome st) = authErrorMessage code
      /\ App.email (handleAuth outcome st) = App.email st
      /\ App.password (handleAuth outcome st) = App.password st)
  /\ App.user (handleAuth outcome st) = App.user st
  /\ App.isRegistered (handleAuth outcome st) = App.isRegistered st.
Proof.
  destruct outcome as [| code]; cbn [handleAuth setAuthLoading setAuthError setPassword
    setEmail App.authLoading App.authError App.email App.password App.user
    App.isRegistered].
  - split; [reflexivity |]. split.
    { split; [intros H; now contradiction H | intros (code & [=])]. }
    split; [intros _; split; reflexivity |].
    split; [intros code [=] | split; reflexivity].
  - split; [reflexivity |]. split.
    { split; [intros _; now exists code | intros _; apply authErrorMessage_nonempty]. }
    split; [discriminate |].
    split; [intros code' [= <-]; repeat split | split; reflexivity].
Qed.

(** A sign-in rejected for a wrong password, and one that succeeds. *)
Lemma handleAuth_outcome_witness :
  App.authError
    (handleAuth (rejected (Some "auth/wrong-password"))
       {| App.user := None; App.loading := false; App.isRegistered := false;
          App.registrationLoading := false; App.isSignUp := false;
          App.email := "a@b.c"; App.password := "secret";
          App.authError := ""; App.authLoading := false |})
  = "Incorrect password."
  /\ App.password
       (handleAuth fulfilled
          {| App.user := None; App.loading := false; App.isRegistered := false;
             App.registrationLoading := false; App.isSignUp := false;
             App.email := "a@b.c"; App.password := "secret";
             App.authError := "old"; App.authLoading := false |})
     = "".
Proof.
  split.
  - destruct (handleAuth_outcome (rejected (Some "auth/wrong-password"))
                {| App.user := None; App.loading := false; App.isRegistered := false;
                   App.registrationLoading := false; App.isSignUp := false;
                   App.email := "a@b.c"; App.password := "secret";
                   App.authError := ""; App.authLoading := false |})
      as (_ & _ & _ & Hrejected & _).
    now destruct (Hrejected (Some "auth/wrong-password") eq_refl) as [-> _].
  - destruct (handleAuth_outcome fulfilled
                {| App.user := None; App.loading := false; App.isRegistered := false;
                   App.registrationLoading := false; App.isSignUp := false;
                   App.email := "a@b.c"; App.password := "secret";
                   App.authError := "old"; App.authLoading := false |})
      as (_ & _ & Hfulfilled & _).
    now destruct (Hfulfilled eq_refl).
Defined.

(** ** [App]: the registration flag and its document *)

(** X15: the callback of the auth state always ends the loading view and
    never changes a document that exists.  For a user whose [getDoc] is
    fulfilled, and whose [setDoc] is too when the document has to be created,
    the flag on the screen afterwards is the flag of the user's document, a
    created document holding [false]; when [getDoc] is rejected neither the
    flag nor the store changes. *)
Theorem authStateChanged_sync (currentUser : option string) (getDoc setDoc : Outcome)
    (st : App.state) (users : Users) :
  App.loading (fst (authStateChanged currentUser getDoc setDoc (st, users))) = false
  /\ App.user (fst (authStateChanged currentUser getDoc setDoc (st, users))) = currentUser
  /\ (forall uid field,
      get uid users = Some field ->
      get uid (snd (authStateChanged currentUser getDoc setDoc (st, users))) = Some field)
  /\ (getDoc = fulfilled ->
      (setDoc = fulfilled
       \/ exists uid field, currentUser = Some uid /\ get uid users = Some field) ->
      inSync (authStateChanged currentUser getDoc setDoc (st, users)))
  /\ (forall uid,
      currentUser = Some uid -> getDoc = fulfilled -> setDoc = fulfilled ->
      get uid users = None ->
      get uid (snd (authStateChanged currentUser getDoc setDoc (st, users)))
      = Some (Some false))
  /\ (forall code,
      getDoc = rejected code ->
      snd (authStateChanged currentUser getDoc setDoc (st, users)) = users
      /\ App.isRegistered (fst (authStateChanged currentUser getDoc setDoc (st, users)))
         = App.isRegistered st).
Proof.
  unfold authStateChanged.
  destruct currentUser as [uid |].
  2: { cbn. split; [reflexivity |]. split; [reflexivity |]. split; [auto |].
       split; [intros _ _; exact I |]. split; [intros uid [=] |].
       intros code _. split; reflexivity. }
  unfold fetchRegistrationStatus.
  destruct getDoc as [| code].
  2: { cbn. split; [reflexivity |]. split; [reflexivity |]. split; [auto |].
       split; [intros [=] |]. split; [intros uid' _ [=] |].
       intros code' _. split; reflexivity. }
  destruct (get uid users) as [field |] eqn:Hget.
  - cbn. split; [reflexivity |]. split; [reflexivity |]. split; [auto |].
    split; [intros _ _; unfold inSync; cbn; exists field; split;
            [exact Hget | reflexivity] |].
    split; [intros uid' [= <-] _ _ H; congruence |]. intros code [=].
  - destruct setDoc as [| code].
    + cbn. split; [reflexivity |]. split; [reflexivity |].
      split; [intros uid' field Hfield; rewrite get_set_other;
              [exact Hfield | congruence] |].
      split; [intros _ _; unfold inSync; cbn; exists (Some false); split;
              [apply get_set_same | reflexivity] |].
      split; [intros uid' [= <-] _ _ _; apply get_set_same |]. intros code [=].
    + cbn. split; [reflexivity |]. split; [reflexivity |]. split; [auto |].
      split; [intros _ [[=] | (uid' & field & [= <-] & Hfield)]; congruence |].
      split; [intros uid' _ _ [=] |]. intros code' [=].
Qed.

(** A first sign-in: the document is created, unregistered. *)
Lemma authStateChanged_sync_witness :
  inSync
    (authStateChanged (Some "u1") fulfilled fulfilled
       ({| App.user := None; App.loading := true; App.isRegistered := false;
           App.registrationLoading := false; App.isSignUp := false;
           App.email := ""; App.password := "";
           App.authError := ""; App.authLoading := false |},
        [("u0", Some true)]))
  /\ get "u1"
       (snd (authStateChanged (Some "u1") fulfilled fulfilled
          ({| App.user := None; App.loading := true; App.isRegistered := false;
              App.registrationLoading := false; App.isSignUp := false;
              App.email := ""; App.password := "";
              App.authError := ""; App.authLoading := false |},
           [("u0", Some true)])))
     = Some (Some false).
Proof.
  destruct (authStateChanged_sync (Some "u1") fulfilled fulfilled
              {| App.user := None; App.loading := true; App.isRegistered := false;
                 App.registrationLoading := false; App.isSignUp := false;
                 App.email := ""; App.password := "";
                 App.authError := ""; App.authLoading := false |}
              [("u0", Some true)])
    as (_ & _ & _ & Hsync & Hcreated & _).
  split.
  - apply Hsync; [reflexivity | now left].
  - apply (Hcreated "u1"); reflexivity.
Defined.

Lemma toggleRegistration_step (setDoc : Outcome) (st : App.state) (users : Users) :
  inSync (st, users) ->
  inSync (toggleRegistration setDoc (st, users))
  /\ App.user (fst (toggleRegistration setDoc (st, users))) = App.user st
  /\ (App.user st = None -> toggleRegistration setDoc (st, users) = (st, users))
  /\ (App.user st <> None ->
      App.registrationLoading (fst (toggleRegistration setDoc (st, users))) = false
      /\ App.isRegistered (fst (toggleRegistration setDoc (st, users)))
         = match setDoc with
           | fulfilled => negb (App.isRegistered st)
           | rejected _ => App.isRegistered st
           end)
  /\ (forall uid,
      App.user st <> Some uid ->
      get uid (snd (toggleRegistration setDoc (st, users))) = get uid users).
Proof.
  unfold toggleRegistration, inSync. cbn [fst snd].
  destruct (App.user st) as [uid |] eqn:Huser.
  2: { intros _. cbn [fst snd]. rewrite Huser.
       split; [exact I |]. split; [reflexivity |]. split; [reflexivity |].
       split; [intros H; now contradiction H | reflexivity]. }
  intros (field & Hget & Hfield).
  destruct setDoc as [| code]; cbn [fst snd App.user setRegistrationLoading
    setIsRegistered App.isRegistered App.registrationLoading]; rewrite ?Huser.
  - split; [exists (Some (negb (App.isRegistered st))); split;
            [apply get_set_same | reflexivity] |].
    split; [reflexivity |]. split; [discriminate |].
    split; [intros _; split; reflexivity |].
    intros uid' Hne. apply get_set_other. congruence.
  - split; [now exists field |].
    split; [reflexivity |]. split; [discriminate |].
    split; [intros _; split; reflexivity | reflexivity].
Qed.

(** X16: once the flag on the screen is the flag of the user's document, any
    sequence of clicks on the registration button keeps it so, whether each
    [setDoc] is fulfilled or rejected: the flag has flipped once per
    fulfilled call, the documents of the other users are as they were, and
    without a signed-in user nothing changes at all. *)
Theorem toggles_sync (outcomes : list Outcome) (st : App.state) (users : Users) :
  inSync (st, users) ->
  inSync (toggles outcomes (st, users))
  /\ App.user (fst (toggles outcomes (st, users))) = App.user st
  /\ (App.user st = None -> toggles outcomes (st, users) = (st, users))
  /\ (App.user st <> None ->
      App.isRegistered (fst (toggles outcomes (st, users)))
      = xorb (App.isRegistered st) (Nat.odd (fulfilledCount outcomes)))
  /\ (forall uid,
      App.user st <> Some uid ->
      get uid (snd (toggles outcomes (st, users))) = get uid users).
Proof.
  unfold toggles. revert st users.
  induction outcomes as [| setDoc outcomes IH]; intros st users Hsync.
  - simpl. repeat split; auto. intros _. now rewrite xorb_false_r.
  - cbn [fold_left].
    destruct (toggleRegistration setDoc (st, users)) as [st1 users1] eqn:E.
    destruct (toggleRegistration_step setDoc st users Hsync)
      as (Hsync1 & Huser1 & Hnone1 & Hflag1 & Hothers1).
    rewrite E in Hsync1, Huser1, Hnone1, Hflag1, Hothers1. cbn [fst snd] in *.
    destruct (IH st1 users1 Hsync1) as (Hsync' & Huser' & Hnone' & Hflag' & Hothers').
    split; [exact Hsync' |]. split; [congruence |]. split; [| split].
    + intros Hnone. specialize (Hnone1 Hnone). injection Hnone1 as -> ->. auto.
    + intros Hsome. rewrite Hflag' by congruence.
      destruct (Hflag1 Hsome) as [_ ->].
      unfold fulfilledCount. destruct setDoc; cbn [filter List.length].
      * rewrite Nat.odd_succ, <- Nat.negb_odd.
        destruct (App.isRegistered st), (Nat.odd _); reflexivity.
      * reflexivity.
    + intros uid Hne. rewrite Hothers' by congruence. now apply Hothers1.
Qed.

(** Three clicks by a registered user, the second of which fails. *)
Lemma toggles_sync_witness :
  App.isRegistered
    (fst (toggles [fulfilled; rejected None; fulfilled]
            ({| App.user := Some "u1"; App.loading := false; App.isRegistered := true;
                App.registrationLoading := false; App.isSignUp := false;
                App.email := ""; App.password := "";
                App.authError := ""; App.authLoading := false |},
             [("u1", Some true)])))
  = xorb true (Nat.odd (fulfilledCount [fulfilled; rejected None; fulfilled])).
Proof.
  destruct (toggles_sync [fulfilled; rejected None; fulfilled]
              {| App.user := Some "u1"; App.loading := false; App.isRegistered := true;
                 App.registrationLoading := false; App.isSignUp := false;
                 App.email := ""; App.password := "";
                 App.authError := ""; App.authLoading := false |}
              [("u1", Some true)])
    as (_ & _ & _ & Hflag & _).
  - exists (Some true). split; reflexivity.
  - apply Hflag. discriminate.
Defined.

(** ** More on the pipeline and the search *)

(** X17: widening the range never removes anything.  For cursors whose
    year, month and linear key are below 2^53 in magnitude, every record
    kept under a range is kept under any range that starts no later and ends
    no earlier, and every month of the chart stays in the chart. *)
Theorem chartData_range_monotone (localeCompare : string -> string -> Z)
    (rawData : list Row) (selectedValue : string) (filterType : FilterType)
    (startDate endDate startDate' endDate' : Date.t) :
  safeCursor startDate -> safeCursor endDate ->
  safeCursor startDate' -> safeCursor endDate' ->
  Date.year startDate' * 12 + Date.month startDate'
  <= Date.year startDate * 12 + Date.month startDate ->
  Date.year endDate * 12 + Date.month endDate
  <= Date.year endDate' * 12 + Date.month endDate' ->
  (forall row,
      In row (filtered rawData selectedValue filterType startDate endDate) ->
      In row (filtered rawData selectedValue filterType startDate' endDate'))
  /\ (forall d,
      In d (chartData localeCompare rawData selectedValue filterType startDate endDate) ->
      exists d',
        In d' (chartData localeCompare rawData selectedValue filterType
                 startDate' endDate')
        /\ month d' = month d).
Proof.
  intros Hs He Hs' He' Hstart Hend.
  assert (Hrows : forall row,
      In row (filtered rawData selectedValue filterType startDate endDate) ->
      In row (filtered rawData selectedValue filterType startDate' endDate')).
  { intros row. unfold filtered. rewrite !filter_In.
    intros [Hin Hkeep]. split; [exact Hin |].
    revert Hkeep. unfold keepRow. destruct (negb _); [discriminate |]. cbv zeta.
    unfold Number_ge, Number_le. rewrite !andb_true_iff. intros [Hlow Hhigh]. split.
    - eapply SFleb_trans; [| exact Hlow].
      change (Number_le
                (add (mul (ofZ (Date.year startDate')) (ofZ 12)) (ofZ (Date.month startDate')))
                (add (mul (ofZ (Date.year startDate)) (ofZ 12)) (ofZ (Date.month startDate)))
              = true).
      rewrite (Number_le_represents _ _ _ _ (cursor_represents _ Hs')
                 (cursor_represents _ Hs)).
      now apply Z.leb_le.
    - eapply SFleb_trans; [exact Hhigh |].
      change (Number_le
                (add (mul (ofZ (Date.year endDate)) (ofZ 12)) (ofZ (Date.month endDate)))
                (add (mul (ofZ (Date.year endDate')) (ofZ 12)) (ofZ (Date.month endDate')))
              = true).
      rewrite (Number_le_represents _ _ _ _ (cursor_represents _ He)
                 (cursor_represents _ He')).
      now apply Z.leb_le. }
  split; [exact Hrows |].
  intros d Hd.
  assert (Hv : selectedValue <> "") by (apply chartData_In in Hd; tauto).
  apply chartData_aggregate in Hd. destruct Hd as [Hne _].
  destruct (withKey (month d) (filtered rawData selectedValue filterType startDate endDate))
    as [| row rows] eqn:E; [contradiction |].
  assert (Hrow : In row (withKey (month d)
                           (filtered rawData selectedValue filterType startDate endDate)))
    by (rewrite E; now left).
  apply filter_In in Hrow. destruct Hrow as [Hin Hkey]. apply String.eqb_eq in Hkey.
  destruct (chartData_has_key localeCompare rawData selectedValue filterType
              startDate' endDate' row Hv (Hrows row Hin)) as (d' & Hd' & Hmonth).
  exists d'. split; [exact Hd' | congruence].
Qed.

(** November and February of 2019, under March to December and under the
    whole year. *)
Lemma chartData_range_monotone_witness :
  exists d',
    In d' (chartData defaultCompare twoMonths "Acme" supplier
             (cursor 2019 1) (cursor 2019 12))
    /\ month d' = "2019-11".
Proof.
  destruct (chartData_range_monotone defaultCompare twoMonths "Acme" supplier
              (cursor 2019 3) (cursor 2019 12) (cursor 2019 1) (cursor 2019 12))
    as [_ Hmonths]; [magnitudes | magnitudes | magnitudes | magnitudes
                    | simpl; lia | simpl; lia |].
  apply (Hmonths {| month := "2019-11"; retailSales := ofZ 1;
                    warehouseSales := zero; retailTransfers := zero |}).
  vm_compute. now left.
Defined.

Lemma toLowerCase_append (a b : string) :
  toLowerCase (a ++ b) = toLowerCase a ++ toLowerCase b.
Proof. induction a as [| c a IH]; simpl; [| rewrite IH]; reflexivity. Qed.

Lemma toLowerCase_empty (s : string) : toLowerCase s = "" -> s = "".
Proof. destruct s; [reflexivity | discriminate]. Qed.

(** X18: on Latin-1 text (code units below 256, the strings of this
    embedding) the search does not look at the case of letters: two terms
    with the same lower-case form give the same options, and an entry that
    contains the term in any mix of cases passes the test of the filter. *)
Theorem search_case_insensitive (filterType : FilterType) (suppliers items : list string)
    (searchTerm searchTerm' : string) :
  toLowerCase searchTerm = toLowerCase searchTerm' ->
  filteredOptions filterType suppliers items searchTerm
  = filteredOptions filterType suppliers items searchTerm'
  /\ forall opt written,
       toLowerCase written = toLowerCase searchTerm ->
       occursIn written opt ->
       includes (toLowerCase opt) (toLowerCase searchTerm) = true.
Proof.
  intros Hlower. split.
  - unfold filteredOptions.
    destruct (String.eqb_spec searchTerm "") as [-> | Hne],
             (String.eqb_spec searchTerm' "") as [-> | Hne'].
    + reflexivity.
    + symmetry in Hlower. apply toLowerCase_empty in Hlower. contradiction.
    + apply toLowerCase_empty in Hlower. contradiction.
    + now rewrite Hlower.
  - intros opt written Hwritten (before & after & ->).
    apply includes_occursIn.
    exists (toLowerCase before), (toLowerCase after).
    now rewrite !toLowerCase_append, Hwritten.
Qed.

(** The terms ACME and acme against the entry Acme Corp. *)
Lemma search_case_insensitive_witness :
  filteredOptions supplier ["Acme Corp"; "Beta"] [] "ACME"
  = filteredOptions supplier ["Acme Corp"; "Beta"] [] "acme"
  /\ includes (toLowerCase "Acme Corp") (toLowerCase "ACME") = true.
Proof.
  destruct (search_case_insensitive supplier ["Acme Corp"; "Beta"] [] "ACME" "acme")
    as [Hsame Hpass]; [reflexivity |].
  split; [exact Hsame |].
  apply (Hpass "Acme Corp" "Acme"); [reflexivity |].
  exists "", " Corp". reflexivity.
Defined.

(** X19: of the three tests of the guard only the one on the selected value
    decides anything: with a value selected, the pipeline without the guard
    already returns the empty sequence for an empty record set and for an
    invalid range, while without that test the rows whose cell is empty would
    be charted under the empty selection. *)
Theorem chartData_guard_redundant (localeCompare : string -> string -> Z)
    (rawData : list Row) (selectedValue : string) (filterType : FilterType)
    (startDate endDate : Date.t) :
  (selectedValue <> "" ->
   chartData localeCompare rawData selectedValue filterType startDate endDate
   = map roundAggregate
       (sort (byMonth localeCompare)
          (Object_values
             (monthlyData rawData selectedValue filterType startDate endDate))))
  /\ (forall row,
      In row rawData ->
      keepRow filterType "" startDate endDate row = true ->
      monthlyData rawData "" filterType startDate endDate <> []
      /\ chartData localeCompare rawData "" filterType startDate endDate = []).
Proof.
  split; [apply chartData_selected |].
  intros row Hrow Hkeep. split; [| reflexivity].
  assert (Hin : In row (filtered rawData "" filterType startDate endDate))
    by (apply filter_In; split; assumption).
  destruct (grouped_has_key _ _ Hin) as (d & Hd & _).
  unfold monthlyData. intros Hnil. rewrite Hnil in Hd. contradiction.
Qed.

(** A row without supplier text, under the empty selection. *)
Lemma chartData_guard_redundant_witness :
  monthlyData [sale "" "2019" "1" "1" "0" "0"] "" supplier (cursor 2019 1) (cursor 2019 12)
  <> [].
Proof.
  apply (proj2 (chartData_guard_redundant defaultCompare
                  [sale "" "2019" "1" "1" "0" "0"] "" supplier
                  (cursor 2019 1) (cursor 2019 12))
           (sale "" "2019" "1" "1" "0" "0")).
  - simpl. now left.
  - reflexivity.
Defined.
